(** * Composite materials property prediction API (app.py)

    A shallow embedding of [app.py]: the three constant tables, the
    predictor [predict_properties] and the two request handlers [predict]
    and [predict_batch], over Python values as the JSON decoder produces
    them and IEEE 754 binary64 floats as the kernel implements them. *)

From Stdlib Require Import ZArith String List Floats Bool Lia.
Import ListNotations.

Set Warnings "-inexact-float,-register-all".

Local Open Scope string_scope.

(** ** Python floats

    A Python [float] is a binary64 number. Literals such as [0.6] denote
    the nearest binary64 value both in Python and in the [float] scope
    here; [*], [/] and the comparisons are the IEEE operations. The
    format is the library's: [prec = 53] and [emax = 1024]. *)

Module PyFloat.

(** The integer nearest to [num / den], ties to the even one ([den > 0]). *)
Definition div_half_even (num den : Z) : Z :=
  let q := (num / den)%Z in
  let r := (num mod den)%Z in
  match (2 * r ?= den)%Z with
  | Lt => q
  | Gt => (q + 1)%Z
  | Eq => if Z.even q then q else (q + 1)%Z
  end.

(** [tenths m e]: the magnitude [m * 2^e] expressed in tenths, rounded
    half to even on its exact value: the digits [round(x, 1)] keeps. *)
Definition tenths (m : positive) (e : Z) : Z :=
  match e with
  | Zneg p => div_half_even (10 * Zpos m) (2 ^ Zpos p)
  | _ => (10 * Zpos m * 2 ^ e)%Z
  end.

(** The binary64 number nearest to [n / 10] with sign [s]: reading the
    decimal string back. *)
Definition of_tenths (s : bool) (n : Z) : spec_float :=
  let '(q, e, l) := SFdiv_core_binary prec emax n 0 10 0 in
  binary_round_aux prec emax s q e l.

(** [round(x, 1)] on a float: infinities and NaN round to themselves,
    a finite [x] goes to its correctly rounded one-decimal string and
    back. Zeros keep their sign. *)
Definition round1 (x : float) : float :=
  match Prim2SF x with
  | S754_finite s m e => SF2Prim (of_tenths s (tenths m e))
  | _ => x
  end.

(** [float(n)] on an [int]: the nearest binary64 number, or no result
    where Python raises [OverflowError]. *)
Definition of_int (n : Z) : option float :=
  match binary_normalize prec emax n 0 false with
  | S754_infinity _ => None
  | sf => Some (SF2Prim sf)
  end.

End PyFloat.

Import PyFloat.

(** ** Python values and exceptions

    The values a decoded JSON body is made of. A [str] is kept as its
    UTF-8 bytes; a [dict] (JSON object, string keys) as an association
    list read from the front. *)

Inductive pyval :=
  | PNone
  | PBool (b : bool)
  | PInt (n : Z)
  | PFloat (x : float)
  | PStr (s : string)
  | PList (l : list pyval)
  | PDict (kv : list (string * pyval)).

Inductive exn :=
  | AttributeError
  | KeyError
  | OverflowError
  | TypeError
  | ValueError.

(** A computation that returns or raises. *)
Definition result (A : Type) : Type := exn + A.

Definition ok {A} (a : A) : result A := inr a.
Definition raise {A} (e : exn) : result A := inl e.

Definition rbind {A B} (r : result A) (k : A -> result B) : result B :=
  match r with
  | inl e => inl e
  | inr a => k a
  end.

Declare Scope result_scope.
Delimit Scope result_scope with result.
Notation "x <- r ;; k" := (rbind r (fun x => k))
  (at level 61, r at next level, right associativity) : result_scope.

(** *** Dictionaries with string keys *)

Section Dict.
Context {V : Type}.

Fixpoint dict_find (k : string) (d : list (string * V)) : option V :=
  match d with
  | [] => None
  | (k', v) :: d' => if String.eqb k k' then Some v else dict_find k d'
  end.

Definition dict_keys (d : list (string * V)) : list string := map fst d.

(** Hashing the key comes first: a list or dict key raises [TypeError];
    a key that is no [str] equals none of the keys. *)
Definition py_find (k : pyval) (d : list (string * V)) : result (option V) :=
  match k with
  | PStr s => ok (dict_find s d)
  | PList _ | PDict _ => raise TypeError
  | _ => ok None
  end.

(** [k in d] *)
Definition py_in (k : pyval) (d : list (string * V)) : result bool :=
  (o <- py_find k d ;;
   ok (match o with Some _ => true | None => false end))%result.

(** [d.get(k, default)] *)
Definition py_get (d : list (string * V)) (k : pyval) (default : V) : result V :=
  (o <- py_find k d ;;
   ok (match o with Some v => v | None => default end))%result.

(** [d[k]] *)
Definition py_getitem (d : list (string * V)) (k : pyval) : result V :=
  (o <- py_find k d ;;
   match o with Some v => ok v | None => raise KeyError end)%result.
End Dict.

(** ** The constant tables *)

(** A property record of [MATERIALS_DB]: a dict from the seven short
    field names to numbers. The integer entries of the source take part
    only in products with a float, where Python converts them (exactly,
    at this size) to the floats written here. *)
Definition props := list (string * float).

Definition row (ts tm cs fs fm ilss ie : float) : props :=
  [("ts", ts); ("tm", tm); ("cs", cs); ("fs", fs); ("fm", fm);
   ("ilss", ilss); ("ie", ie)].

(** The catalog as a value: fiber type, then matrix type, then record. *)
Definition catalog := list (string * list (string * props)).

Local Open Scope float_scope.

Definition MATERIALS_DB : catalog :=
  [("Carbon",
     [("Epoxy",       row 1500 130 1200 1400 125 75 18);
      ("Polyester",   row 1200 110 950 1150 105 62 15);
      ("Vinyl_ester", row 1350 120 1050 1250 115 68 16);
      ("PEEK",        row 1800 145 1400 1650 138 88 25);
      ("PA6",         row 1400 125 1100 1300 120 70 20)]);
   ("Glass",
     [("Epoxy",       row 420 26 280 550 24 40 27);
      ("Polyester",   row 350 22 230 450 20 32 22);
      ("Vinyl_ester", row 385 24 255 500 22 36 24);
      ("PEEK",        row 480 30 320 620 28 46 32);
      ("PA6",         row 400 25 270 520 23 38 26)]);
   ("Aramid",
     [("Epoxy",       row 560 32 180 480 28 35 42);
      ("Polyester",   row 480 28 150 410 24 28 35);
      ("Vinyl_ester", row 520 30 165 445 26 31 38);
      ("PEEK",        row 620 36 200 530 32 40 48);
      ("PA6",         row 540 31 175 460 27 33 40)]);
   ("Basalt",
     [("Epoxy",       row 380 24 250 490 22 38 24);
      ("Polyester",   row 320 20 210 410 18 30 20);
      ("Vinyl_ester", row 350 22 230 450 20 34 22);
      ("PEEK",        row 430 27 280 550 25 43 28);
      ("PA6",         row 365 23 240 470 21 36 23)]);
   ("Natural",
     [("Epoxy",       row 55 2.5 45 85 3.5 12 10);
      ("Polyester",   row 45 2.0 38 70 2.8 9 8);
      ("Vinyl_ester", row 50 2.2 41 77 3.1 10 9);
      ("PEEK",        row 65 3.0 52 95 4.0 14 12);
      ("PA6",         row 52 2.4 43 80 3.3 11 9)])].

Definition LAYUP_FACTORS : list (string * float) :=
  [("UD 0°", 1.0);
   ("UD 90°", 0.4);
   ("Woven", 0.8);
   ("[0/90]2s", 0.85);
   ("[0/45/90/-45]s", 0.75);
   ("[±45]2s", 0.65);
   ("Quasi-isotropic", 0.7)].

Definition MANUFACTURING_FACTORS : list (string * float) :=
  [("Autoclave", 1.0);
   ("VARTM", 0.95);
   ("Hand_layup", 0.85);
   ("Pultrusion", 0.98);
   ("RTM", 0.97);
   ("Compression_molding", 0.93);
   ("Filament_winding", 0.96)].

(** ** The predictor *)

(** The dict [predict_properties] returns, one field per key. *)
Record predictions := {
  tensile_strength_MPa : float;
  tensile_modulus_GPa : float;
  compressive_strength_MPa : float;
  flexural_strength_MPa : float;
  flexural_modulus_GPa : float;
  ILSS_MPa : float;
  impact_energy_J : float
}.

(** [base[k]] on a property record. *)
Definition field (base : props) (k : string) : result float :=
  match dict_find k base with
  | Some v => ok v
  | None => raise KeyError
  end.

(** "Get base properties": the three lines that pick the record, with
    the table they read as an argument ([MATERIALS_DB] in the source). *)
Definition base_properties (db : catalog) (fiber_type matrix_type : pyval)
    : result props :=
  (known_fiber <- py_in fiber_type db ;;
   let fiber := if known_fiber then fiber_type else PStr "Carbon" in
   sub <- py_get db fiber [] ;;
   known_matrix <- py_in matrix_type sub ;;
   let matrix := if known_matrix then matrix_type else PStr "Epoxy" in
   of_fiber <- py_getitem db fiber ;;
   carbon <- py_getitem db (PStr "Carbon") ;;
   carbon_epoxy <- py_getitem carbon (PStr "Epoxy") ;;
   py_get of_fiber matrix carbon_epoxy)%result.

Definition predict_properties
    (fiber_type matrix_type : pyval) (fiber_vf : float)
    (layup manufacturing : pyval) : result predictions :=
  (base <- base_properties MATERIALS_DB fiber_type matrix_type ;;
   let vf_factor := fiber_vf / 0.6 in
   layup_factor <- py_get LAYUP_FACTORS layup 0.85 ;;
   manuf_factor <- py_get MANUFACTURING_FACTORS manufacturing 0.95 ;;
   let total_factor := vf_factor * layup_factor * manuf_factor in
   ts <- field base "ts" ;;
   tm <- field base "tm" ;;
   cs <- field base "cs" ;;
   fs <- field base "fs" ;;
   fm <- field base "fm" ;;
   ilss <- field base "ilss" ;;
   ie <- field base "ie" ;;
   ok {| tensile_strength_MPa := PyFloat.round1 (ts * total_factor);
         tensile_modulus_GPa := PyFloat.round1 (tm * total_factor);
         compressive_strength_MPa := PyFloat.round1 (cs * total_factor);
         flexural_strength_MPa := PyFloat.round1 (fs * total_factor);
         flexural_modulus_GPa := PyFloat.round1 (fm * total_factor);
         ILSS_MPa := PyFloat.round1 (ilss * total_factor);
         impact_energy_J := PyFloat.round1 (ie * total_factor) |})%result.

(** ** The request handlers

    A handler receives the decoded JSON body ([request.get_json()]) and
    answers with a status code and a JSON payload. The handlers call
    [predict_properties]; every call is recorded, in order, so that a
    statement can say whether the predictor ran and on which arguments. *)

Record call := {
  call_fiber_type : pyval;
  call_matrix_type : pyval;
  call_fiber_vf : float;
  call_layup : pyval;
  call_manufacturing : pyval
}.

(** A handler step: it extends the list of calls made so far and
    returns or raises. *)
Definition handler (A : Type) : Type := list call -> result A * list call.

Definition hret {A} (a : A) : handler A := fun tr => (ok a, tr).

Definition hlift {A} (r : result A) : handler A := fun tr => (r, tr).

Definition hbind {A B} (h : handler A) (k : A -> handler B) : handler B :=
  fun tr =>
    match h tr with
    | (inl e, tr') => (inl e, tr')
    | (inr a, tr') => k a tr'
    end.

Declare Scope handler_scope.
Delimit Scope handler_scope with handler.
Notation "x <- h ;; k" := (hbind h (fun x => k))
  (at level 61, h at next level, right associativity) : handler_scope.

Definition call_predict_properties
    (fiber_type matrix_type : pyval) (fiber_vf : float)
    (layup manufacturing : pyval) : handler predictions :=
  fun tr =>
    (predict_properties fiber_type matrix_type fiber_vf layup manufacturing,
     (tr ++ [{| call_fiber_type := fiber_type;
                call_matrix_type := matrix_type;
                call_fiber_vf := fiber_vf;
                call_layup := layup;
                call_manufacturing := manufacturing |}])%list).

(** [str(e)] and the two ways the handlers build an error text. *)
Inductive message :=
  | Text (s : string)
  | InvalidInput (e : exn)
  | StrOf (e : exn).

Inductive batch_result :=
  | ItemPredicted (index : nat) (input : pyval) (p : predictions)
  | ItemFailed (index : nat) (input : pyval) (error : message).

Definition item_index (r : batch_result) : nat :=
  match r with ItemPredicted i _ _ | ItemFailed i _ _ => i end.

Definition item_input (r : batch_result) : pyval :=
  match r with ItemPredicted _ s _ | ItemFailed _ s _ => s end.

Definition item_success (r : batch_result) : bool :=
  match r with ItemPredicted _ _ _ => true | ItemFailed _ _ _ => false end.

Inductive body :=
  | Predicted (fiber_type matrix_type : pyval) (fiber_volume_fraction : float)
              (layup manufacturing : pyval) (p : predictions)
  | Batch (count : nat) (results : list batch_result)
  | Failure (error : message).

Record response := { status : Z; payload : body }.

Definition body_success (b : body) : bool :=
  match b with Failure _ => false | _ => true end.

(** [d.get(k, default)] on an arbitrary value: only a dict has [get]. *)
Definition attr_get (d : pyval) (k : string) (default : pyval) : result pyval :=
  match d with
  | PDict kv => ok (match dict_find k kv with Some v => v | None => default end)
  | _ => raise AttributeError
  end.

(** Truth value of a Python value ([if not samples]). *)
Definition truthy (v : pyval) : bool :=
  match v with
  | PNone => false
  | PBool b => b
  | PInt n => negb (n =? 0)%Z
  | PFloat x => negb (x =? 0)%float
  | PStr s => negb (s =? "")%string
  | PList l => match l with [] => false | _ => true end
  | PDict kv => match kv with [] => false | _ => true end
  end.

(** A [str] iterates by code point: a new one starts at every byte that
    is no UTF-8 continuation byte. *)
Definition continuation (c : Ascii.ascii) : bool :=
  match c with
  | Ascii.Ascii _ _ _ _ _ _ b6 b7 => b7 && negb b6
  end.

Fixpoint code_points (s : string) : list string :=
  match s with
  | EmptyString => []
  | String c s' =>
      match code_points s' with
      | [] => [String c EmptyString]
      | p :: ps =>
          match s' with
          | String c' _ =>
              if continuation c' then String c p :: ps
              else String c EmptyString :: p :: ps
          | EmptyString => [String c EmptyString]
          end
      end
  end.

Fixpoint distinct (ks : list string) : list string :=
  match ks with
  | [] => []
  | k :: ks' => k :: filter (fun k' => negb (k' =? k)%string) (distinct ks')
  end.

(** The items [enumerate] walks through. *)
Definition py_iter (v : pyval) : result (list pyval) :=
  match v with
  | PList l => ok l
  | PDict kv => ok (map PStr (distinct (dict_keys kv)))
  | PStr s => ok (map PStr (code_points s))
  | _ => raise TypeError
  end.

Definition VF_MESSAGE : string :=
  "Fiber volume fraction must be between 0.3 and 0.7".

Section Handlers.

(** [float(s)] on a [str]: the number it spells, or nothing where
    Python raises [ValueError]. The handlers are modelled for any such
    reading of strings. *)
Variable str_to_float : string -> option float.

(** [float(v)] *)
Definition py_float (v : pyval) : result float :=
  match v with
  | PFloat x => ok x
  | PInt n =>
      match PyFloat.of_int n with
      | Some x => ok x
      | None => raise OverflowError
      end
  | PBool b => ok (if b then 1 else 0)
  | PStr s =>
      match str_to_float s with
      | Some x => ok x
      | None => raise ValueError
      end
  | PNone | PList _ | PDict _ => raise TypeError
  end.

(** The [try] block of [predict]. *)
Definition predict_body (data : pyval) : handler response :=
  (fiber_type <- hlift (attr_get data "fiber_type" (PStr "Carbon")) ;;
   matrix_type <- hlift (attr_get data "matrix_type" (PStr "Epoxy")) ;;
   raw_vf <- hlift (attr_get data "fiber_volume_fraction" (PFloat 0.6)) ;;
   fiber_vf <- hlift (py_float raw_vf) ;;
   layup <- hlift (attr_get data "layup" (PStr "UD 0°")) ;;
   manufacturing <- hlift (attr_get data "manufacturing" (PStr "Autoclave")) ;;
   if negb ((0.3 <=? fiber_vf) && (fiber_vf <=? 0.7)) then
     hret {| status := 400; payload := Failure (Text VF_MESSAGE) |}
   else
     p <- call_predict_properties fiber_type matrix_type fiber_vf
                                  layup manufacturing ;;
     hret {| status := 200;
             payload := Predicted fiber_type matrix_type fiber_vf
                                  layup manufacturing p |})%handler.

(** [POST /api/predict]: the response and the calls made to the
    predictor. *)
Definition predict (data : pyval) : response * list call :=
  match predict_body data [] with
  | (inr r, tr) => (r, tr)
  | (inl ValueError, tr) =>
      ({| status := 400; payload := Failure (InvalidInput ValueError) |}, tr)
  | (inl _, tr) =>
      ({| status := 500; payload := Failure (Text "Internal server error") |}, tr)
  end.

(** The inner [try] block of [predict_batch], for one sample. *)
Definition batch_item (sample : pyval) : handler predictions :=
  (fiber_type <- hlift (attr_get sample "fiber_type" (PStr "Carbon")) ;;
   matrix_type <- hlift (attr_get sample "matrix_type" (PStr "Epoxy")) ;;
   raw_vf <- hlift (attr_get sample "fiber_volume_fraction" (PFloat 0.6)) ;;
   fiber_vf <- hlift (py_float raw_vf) ;;
   layup <- hlift (attr_get sample "layup" (PStr "UD 0°")) ;;
   manufacturing <- hlift (attr_get sample "manufacturing" (PStr "Autoclave")) ;;
   call_predict_properties fiber_type matrix_type fiber_vf
                           layup manufacturing)%handler.

(** The [for idx, sample in enumerate(samples)] loop: [results] grows
    by one entry per sample, whether the item returned or raised. *)
Fixpoint batch_loop (idx : nat) (samples : list pyval)
    (results : list batch_result) (tr : list call)
    : list batch_result * list call :=
  match samples with
  | [] => (results, tr)
  | sample :: rest =>
      match batch_item sample tr with
      | (inr p, tr') =>
          batch_loop (S idx) rest
            (results ++ [ItemPredicted idx sample p])%list tr'
      | (inl e, tr') =>
          batch_loop (S idx) rest
            (results ++ [ItemFailed idx sample (StrOf e)])%list tr'
      end
  end.

(** The outer [try] block of [predict_batch]. *)
Definition predict_batch_body (data : pyval) : handler response :=
  (samples <- hlift (attr_get data "samples" (PList [])) ;;
   if negb (truthy samples) then
     hret {| status := 400; payload := Failure (Text "No samples provided") |}
   else
     items <- hlift (py_iter samples) ;;
     fun tr =>
       let '(results, tr') := batch_loop 0 items [] tr in
       (ok {| status := 200;
              payload := Batch (List.length results) results |}, tr'))%handler.

(** [POST /api/predict/batch] *)
Definition predict_batch (data : pyval) : response * list call :=
  match predict_batch_body data [] with
  | (inr r, tr) => (r, tr)
  | (inl e, tr) => ({| status := 500; payload := Failure (StrOf e) |}, tr)
  end.

End Handlers.

(** * The words of the properties *)

(** ** The predictor *)

(** [k] is a key of [d]. *)
Definition is_key {V} (k : string) (d : list (string * V)) : bool :=
  match dict_find k d with Some _ => true | None => false end.

(** The fiber type after fallback: the input when the catalog has it,
    else Carbon. *)
Definition resolved_fiber (db : catalog) (fiberType : string) : string :=
  if is_key fiberType db then fiberType else "Carbon".

(** The matrix type after fallback, checked in the sub-table [sub] of
    the resolved fiber: the input when [sub] has it, else Epoxy. *)
Definition resolved_matrix (sub : list (string * props)) (matrixType : string)
    : string :=
  if is_key matrixType sub then matrixType else "Epoxy".

(** A factor table entry, or the default on a miss. *)
Definition factor_or (table : list (string * float)) (name : string)
    (default : float) : float :=
  match dict_find name table with Some x => x | None => default end.

(** One output field: the baseline times the combined factor, kept to
    one decimal. *)
Definition scaled (baseline total_factor : float) : float :=
  PyFloat.round1 (baseline * total_factor).

(** The seven fields of a record, each scaled and rounded. *)
Definition scale_record (ts tm cs fs fm ilss ie total_factor : float)
    : predictions :=
  {| tensile_strength_MPa := scaled ts total_factor;
     tensile_modulus_GPa := scaled tm total_factor;
     compressive_strength_MPa := scaled cs total_factor;
     flexural_strength_MPa := scaled fs total_factor;
     flexural_modulus_GPa := scaled fm total_factor;
     ILSS_MPa := scaled ilss total_factor;
     impact_energy_J := scaled ie total_factor |}.

(** All the records of a catalog, fiber by fiber. *)
Definition records (db : catalog) : list props :=
  concat (map (fun entry => map snd (snd entry)) db).

(** A record with exactly the seven fields, in the order of the source. *)
Definition is_row (base : props) : Prop :=
  exists ts tm cs fs fm ilss ie, base = row ts tm cs fs fm ilss ie.


(** Field by field order on two records. *)
Definition fields_le (p1 p2 : predictions) : Prop :=
  (tensile_strength_MPa p1 <=? tensile_strength_MPa p2) = true
  /\ (tensile_modulus_GPa p1 <=? tensile_modulus_GPa p2) = true
  /\ (compressive_strength_MPa p1 <=? compressive_strength_MPa p2) = true
  /\ (flexural_strength_MPa p1 <=? flexural_strength_MPa p2) = true
  /\ (flexural_modulus_GPa p1 <=? flexural_modulus_GPa p2) = true
  /\ (ILSS_MPa p1 <=? ILSS_MPa p2) = true
  /\ (impact_energy_J p1 <=? impact_energy_J p2) = true.

(** ** The handlers *)

(** A field of a JSON object, or its default. *)
Definition get_or (kv : list (string * pyval)) (k : string) (default : pyval)
    : pyval :=
  match dict_find k kv with Some v => v | None => default end.

(** The call a handler makes for the object [kv] once its volume
    fraction reads as [v]. *)
Definition call_of (kv : list (string * pyval)) (v : float) : call :=
  {| call_fiber_type := get_or kv "fiber_type" (PStr "Carbon");
     call_matrix_type := get_or kv "matrix_type" (PStr "Epoxy");
     call_fiber_vf := v;
     call_layup := get_or kv "layup" (PStr "UD 0°");
     call_manufacturing := get_or kv "manufacturing" (PStr "Autoclave") |}.

(** [predict_properties] on the arguments of a recorded call. *)
Definition run_call (c : call) : result predictions :=
  predict_properties (call_fiber_type c) (call_matrix_type c)
    (call_fiber_vf c) (call_layup c) (call_manufacturing c).

Section Reports.

Variable str_to_float : string -> option float.

(** The volume fraction a handler reads from the object [kv]. *)
Definition read_vf (kv : list (string * pyval)) : result float :=
  py_float str_to_float (get_or kv "fiber_volume_fraction" (PFloat 0.6)).

(** The entry the loop appends for the sample at [index]. *)
Definition item_report (index : nat) (sample : pyval) : batch_result :=
  match fst (batch_item str_to_float sample []) with
  | inr p => ItemPredicted index sample p
  | inl e => ItemFailed index sample (StrOf e)
  end.

(** The entries for a list of samples, numbered from [index]. *)
Fixpoint reports (index : nat) (samples : list pyval) : list batch_result :=
  match samples with
  | [] => []
  | sample :: rest => item_report index sample :: reports (S index) rest
  end.

(** The calls the loop makes for one sample. *)
Definition item_calls (sample : pyval) : list call :=
  snd (batch_item str_to_float sample []).

End Reports.

(** A reading of numeric strings that accepts none, to run the handlers
    on bodies whose numbers are JSON numbers. *)
Definition no_numeric_strings : string -> option float := fun _ => None.

(** A batch of two: a volume fraction that is no number, then a valid
    sample. *)
Definition two_samples : list pyval :=
  [PDict [("fiber_type", PStr "Glass"); ("fiber_volume_fraction", PStr "abc")];
   PDict [("fiber_type", PStr "Glass"); ("fiber_volume_fraction", PFloat 0.5)]].

(** ** Rounding

    What [binary_round_aux] computes, said with integers: a non-negative
    value is a fraction [a / b] scaled by a power of two; it is cut to an
    integer mantissa with the place of the remainder, shifted to the
    exponent of the format and rounded half to even. *)

Section RoundingWords.

Local Open Scope Z_scope.

(** Where [r / b] lies in [0, 1). *)
Definition loc_of (r b : Z) : location :=
  if r =? 0 then loc_Exact else loc_Inexact (2 * r ?= b).

(** The truncation of [a / b] with its location. *)
Definition cut (a b : Z) : shr_record :=
  shr_record_of_loc (a / b) (loc_of (a mod b) b).

(** The exponent binary64 gives a value of magnitude [2 ^ e]. *)
Definition fexp64 (e : Z) : Z := SpecFloat.fexp prec emax e.

(** The float of sign [s] and magnitude [m * 2 ^ e], for a rounded
    mantissa [0 <= m <= 2 ^ 53] at exponent [e]. *)
Definition pack (s : bool) (m e : Z) : spec_float :=
  if m =? 0 then S754_zero s
  else if m <? 2 ^ 53 then
    if e <=? emax - prec then S754_finite s (Z.to_pos m) e
    else S754_infinity s
  else
    if e + 1 <=? emax - prec then S754_finite s (Z.to_pos (2 ^ 52)) (e + 1)
    else S754_infinity s.

End RoundingWords.

(** Non-negative numbers: [+0], the positive finite ones and [+oo]. *)
Definition nonneg (x : spec_float) : bool :=
  match x with
  | S754_zero false | S754_finite false _ _ | S754_infinity false => true
  | _ => false
  end.

(** Positive numbers, [+oo] included. *)
Definition is_positive (x : spec_float) : bool :=
  match x with
  | S754_finite false _ _ | S754_infinity false => true
  | _ => false
  end.

(** Positive finite numbers: what the tables hold. *)
Definition positive_finite (x : spec_float) : bool :=
  match x with
  | S754_finite false _ _ => true
  | _ => false
  end.

(** An operation on binary64 numbers that keeps non-negative numbers
    non-negative and preserves their order. *)
Definition sf_increasing (f : spec_float -> spec_float) : Prop :=
  forall x1 x2,
    valid_binary x1 = true -> valid_binary x2 = true ->
    nonneg x1 = true -> nonneg x2 = true ->
    SFleb x1 x2 = true ->
    nonneg (f x1) = true /\ nonneg (f x2) = true
    /\ SFleb (f x1) (f x2) = true.

(** [round1] on the specification side, for non-negative numbers. *)
Definition sf_round1 (x : spec_float) : spec_float :=
  match x with
  | S754_finite s m e => of_tenths s (tenths m e)
  | _ => x
  end.

(** The same on floats, through their specification. *)
Definition nonnegative (x : float) : Prop := nonneg (Prim2SF x) = true.

(** Increasing functions on non-negative floats. *)
Definition increasing (F : float -> float) : Prop :=
  forall x1 x2,
    nonnegative x1 -> nonnegative x2 -> (x1 <=? x2) = true ->
    nonnegative (F x1) /\ nonnegative (F x2) /\ (F x1 <=? F x2) = true.

(** A float that is positive and finite. *)
Definition is_positive_finite (x : float) : bool :=
  positive_finite (Prim2SF x).

(** ** Arbitrary arguments *)

(** The values Python can hash: every JSON value but a list or an
    object. *)
Definition hashable (v : pyval) : bool :=
  match v with
  | PList _ | PDict _ => false
  | _ => true
  end.

(** A hashable value that is no key of [d]: a string [d] does not list,
    or a value that is no string at all. *)
Definition unknown_key {V} (k : pyval) (d : list (string * V)) : bool :=
  match k with
  | PStr s => negb (is_key s d)
  | PList _ | PDict _ => false
  | _ => true
  end.

(** The four categorical arguments of a call can all be hashed. *)
Definition hashable_call (c : call) : bool :=
  hashable (call_fiber_type c) && hashable (call_matrix_type c)
  && hashable (call_layup c) && hashable (call_manufacturing c).

(** The numbers a factor table can give: its default and its entries. *)
Definition factor_values (table : list (string * float)) (default : float)
    : list float :=
  default :: map snd table.

(** The seven fields of a returned record, in the order of the source. *)
Definition fields (p : predictions) : list float :=
  [tensile_strength_MPa p; tensile_modulus_GPa p; compressive_strength_MPa p;
   flexural_strength_MPa p; flexural_modulus_GPa p; ILSS_MPa p;
   impact_energy_J p].

(** The record a catalog entry turns into when nothing is scaled. *)
Definition baseline (ts tm cs fs fm ilss ie : float) : predictions :=
  {| tensile_strength_MPa := ts;
     tensile_modulus_GPa := tm;
     compressive_strength_MPa := cs;
     flexural_strength_MPa := fs;
     flexural_modulus_GPa := fm;
     ILSS_MPa := ilss;
     impact_energy_J := ie |}.

(** [lo <= x <= hi] on floats. *)
Definition between (lo hi x : float) : bool :=
  (lo <=? x) && (x <=? hi).

(** ** The fields of a request *)

(** The five keys the handlers read from a request or a sample, each
    with the default taken when the key is missing. *)
Definition request_defaults : list (string * pyval) :=
  [("fiber_type", PStr "Carbon");
   ("matrix_type", PStr "Epoxy");
   ("fiber_volume_fraction", PFloat 0.6);
   ("layup", PStr "UD 0°");
   ("manufacturing", PStr "Autoclave")].

(** What the handlers read from the object [kv]: the value of each of
    the five keys, or its default. *)
Definition request_values (kv : list (string * pyval)) : list pyval :=
  map (fun entry => get_or kv (fst entry) (snd entry)) request_defaults.

(** The volume fraction of a call passed the range test of [predict]. *)
Definition call_in_range (c : call) : bool :=
  (0.3 <=? call_fiber_vf c) && (call_fiber_vf c <=? 0.7).

(** ** Batches *)

(** A sample the batch loop turns into a prediction: an object whose
    volume fraction [float()] reads and whose four categorical values
    are hashable. *)
Definition predictable (str_to_float : string -> option float)
    (sample : pyval) : bool :=
  match sample with
  | PDict kv =>
      match read_vf str_to_float kv with
      | inr v => hashable_call (call_of kv v)
      | inl _ => false
      end
  | _ => false
  end.

(** An entry of a batch answer, renumbered [n] places further. *)
Definition shift_index (n : nat) (r : batch_result) : batch_result :=
  match r with
  | ItemPredicted i sample p => ItemPredicted (n + i) sample p
  | ItemFailed i sample error => ItemFailed (n + i) sample error
  end.

(** The body of a batch request with the given [samples]. *)
Definition batch_of (samples : pyval) : pyval :=
  PDict [("samples", samples)].

(** ** The informational endpoints

    Each of these handlers passes one dict to [jsonify]; the dict is
    modelled as the JSON value it denotes. *)

(** A factor table as a JSON object. *)
Definition json_factors (table : list (string * float)) : pyval :=
  PDict (map (fun entry => (fst entry, PFloat (snd entry))) table).

(** [GET /api/options] *)
Definition get_options : pyval :=
  PDict
    [("success", PBool true);
     ("options",
      PDict
        [("fiber_types", PList (map PStr (dict_keys MATERIALS_DB)));
         ("matrix_types",
          PList [PStr "Epoxy"; PStr "Polyester"; PStr "Vinyl_ester";
                 PStr "PEEK"; PStr "PA6"]);
         ("layups", PList (map PStr (dict_keys LAYUP_FACTORS)));
         ("manufacturing", PList (map PStr (dict_keys MANUFACTURING_FACTORS)));
         ("fiber_volume_fraction",
          PDict [("min", PFloat 0.3); ("max", PFloat 0.7);
                 ("recommended", PFloat 0.6)])]);
     ("factors",
      PDict [("layup", json_factors LAYUP_FACTORS);
             ("manufacturing", json_factors MANUFACTURING_FACTORS)])].

(** [GET /api] *)
Definition api_info : pyval :=
  PDict
    [("name", PStr "Composite Materials Property Prediction API");
     ("version", PStr "2.0");
     ("status", PStr "active");
     ("method", PStr "Empirical formulas with rule of mixtures");
     ("description",
      PStr "Predicts mechanical properties of fiber-reinforced composites");
     ("dataset",
      PDict [("fiber_types", PInt 5);
             ("matrix_types", PInt 5);
             ("total_combinations", PInt 25);
             ("layup_configs", PInt 7);
             ("manufacturing_processes", PInt 7)]);
     ("endpoints",
      PDict [("GET /", PStr "Web interface");
             ("GET /health", PStr "Health check");
             ("GET /api", PStr "API information");
             ("POST /api/predict", PStr "Single material prediction");
             ("POST /api/predict/batch", PStr "Batch predictions");
             ("GET /api/materials", PStr "Material database");
             ("GET /api/options", PStr "Available options")]);
     ("usage",
      PDict [("example_request",
              PDict [("fiber_type", PStr "Carbon");
                     ("matrix_type", PStr "Epoxy");
                     ("fiber_volume_fraction", PFloat 0.6);
                     ("layup", PStr "UD 0°");
                     ("manufacturing", PStr "Autoclave")])])].

(** [GET /health]: [PORT] is read from the environment when the module
    is loaded, and [timestamp] is the clock's [isoformat()] at the time
    of the call. *)
Definition health (PORT : Z) (timestamp : string) : pyval :=
  PDict
    [("status", PStr "healthy");
     ("version", PStr "2.0");
     ("method", PStr "empirical_formulas");
     ("materials_count", PInt (Z.of_nat (List.length MATERIALS_DB)));
     ("port", PInt PORT);
     ("timestamp", PStr timestamp)].

(** The value found in a JSON value by following keys. *)
Fixpoint json_path (v : pyval) (path : list string) : option pyval :=
  match path with
  | [] => Some v
  | k :: rest =>
      match v with
      | PDict kv =>
          match dict_find k kv with
          | Some v' => json_path v' rest
          | None => None
          end
      | _ => None
      end
  end.

(** The strings of a JSON list. *)
Definition json_strings (v : option pyval) : list string :=
  match v with
  | Some (PList l) =>
      flat_map (fun x => match x with PStr s => [s] | _ => [] end) l
  | _ => []
  end.

(** The names [get_options] lists under the key [name] of its options. *)
Definition advertised (name : string) : list string :=
  json_strings (json_path get_options ["options"; name]).

(** A batch of four: a number, an object whose layup is a list, then
    [two_samples]. *)
Definition four_samples : list pyval :=
  PInt 3 :: PDict [("layup", PList [])] :: two_samples.

(** * Properties of the tables and of the predictor *)

(** ** Lookups *)

Section DictFacts.

Context {V : Type}.
Implicit Types (d : list (string * V)) (k : string).

Lemma dict_find_In k d v : dict_find k d = Some v -> In (k, v) d.
Proof.
  induction d as [|[k' v'] d IH]; simpl; [discriminate|].
  destruct (String.eqb_spec k k') as [->|_].
  - intros [= ->]. now left.
  - intros H. right. now apply IH.
Qed.

Lemma py_find_str k d : py_find (PStr k) d = ok (dict_find k d).
Proof. reflexivity. Qed.

Lemma py_get_str d k default :
  py_get d (PStr k) default
  = ok (match dict_find k d with Some v => v | None => default end).
Proof. reflexivity. Qed.

End DictFacts.

(** ** Record selection on any catalog *)

Lemma base_properties_str (db : catalog) (f m : string) :
  base_properties db (PStr f) (PStr m)
  = match dict_find (resolved_fiber db f) db with
    | None => raise KeyError
    | Some sub =>
        match dict_find "Carbon" db with
        | None => raise KeyError
        | Some carbon =>
            match dict_find "Epoxy" carbon with
            | None => raise KeyError
            | Some carbon_epoxy =>
                ok (match dict_find (resolved_matrix sub m) sub with
                    | Some base => base
                    | None => carbon_epoxy
                    end)
            end
        end
    end.
Proof.
  unfold base_properties, py_in, py_getitem, py_get, resolved_fiber,
    resolved_matrix, is_key.
  cbn [py_find rbind ok raise].
  destruct (dict_find f db) as [sub|] eqn:Hf; cbn [py_find rbind ok raise].
  - rewrite Hf.
    destruct (dict_find "Carbon" db) as [carbon|];
      destruct (dict_find m sub) eqn:Hm; cbn [py_find rbind ok raise];
      try reflexivity.
    + destruct (dict_find "Epoxy" carbon); cbn [rbind ok raise];
        [rewrite Hm|]; reflexivity.
    + destruct (dict_find "Epoxy" carbon); reflexivity.
  - destruct (dict_find "Carbon" db) as [carbon|]; [|reflexivity].
    destruct (dict_find m carbon) eqn:Hm; cbn [py_find rbind ok raise];
      destruct (dict_find "Epoxy" carbon); cbn [rbind ok raise];
      rewrite ?Hm; reflexivity.
Qed.

Lemma In_records (db : catalog) f m sub base :
  dict_find f db = Some sub -> dict_find m sub = Some base ->
  In base (records db).
Proof.
  intros Hf Hm. unfold records. apply in_concat.
  exists (map snd sub). split.
  - apply (in_map (fun entry => map snd (snd entry)) db (f, sub)).
    now apply dict_find_In.
  - apply (in_map snd sub (m, base)). now apply dict_find_In.
Qed.

(** ** Facts read off the tables *)

Lemma catalog_rows : Forall is_row (records MATERIALS_DB).
Proof. repeat constructor; unfold is_row; repeat eexists. Qed.

Lemma catalog_has_epoxy :
  Forall (fun entry => is_key "Epoxy" (snd entry) = true) MATERIALS_DB.
Proof. repeat constructor. Qed.

Lemma resolved_fiber_found (f : string) :
  exists sub,
    dict_find (resolved_fiber MATERIALS_DB f) MATERIALS_DB = Some sub
    /\ is_key "Epoxy" sub = true.
Proof.
  unfold resolved_fiber, is_key at 1.
  destruct (dict_find f MATERIALS_DB) as [sub|] eqn:Hf.
  - exists sub. split; [exact Hf|].
    apply dict_find_In in Hf.
    exact (proj1 (Forall_forall _ _) catalog_has_epoxy _ Hf).
  - eexists. split; reflexivity.
Qed.

Lemma resolved_matrix_found (sub : list (string * props)) (m : string) :
  is_key "Epoxy" sub = true ->
  exists base, dict_find (resolved_matrix sub m) sub = Some base.
Proof.
  unfold resolved_matrix, is_key. intros He.
  destruct (dict_find m sub) as [base|] eqn:Hm.
  - now exists base.
  - destruct (dict_find "Epoxy" sub) as [base|]; [now exists base|discriminate].
Qed.

(** On the shipped catalog the record selection always finds the record
    of the resolved pair, and that record has the seven fields. *)
Lemma base_properties_catalog (f m : string) :
  exists sub base,
    dict_find (resolved_fiber MATERIALS_DB f) MATERIALS_DB = Some sub
    /\ dict_find (resolved_matrix sub m) sub = Some base
    /\ is_row base
    /\ base_properties MATERIALS_DB (PStr f) (PStr m) = ok base.
Proof.
  destruct (resolved_fiber_found f) as (sub & Hs & He).
  destruct (resolved_matrix_found sub m He) as (base & Hb).
  exists sub, base. repeat split; trivial.
  - exact (proj1 (Forall_forall _ _) catalog_rows _ (In_records _ _ _ _ _ Hs Hb)).
  - rewrite base_properties_str, Hs.
    change (dict_find "Carbon" MATERIALS_DB)
      with (Some (snd (hd ("", []) MATERIALS_DB))).
    cbv iota.
    change (dict_find "Epoxy" (snd (hd ("", []) MATERIALS_DB)))
      with (Some (row 1500 130 1200 1400 125 75 18)).
    cbv iota. now rewrite Hb.
Qed.

(** What the predictor returns once the record and the two factors are
    known. *)
Lemma predict_properties_row (f m : string) (v : float) (l mf : string)
    ts tm cs fs fm ilss ie :
  base_properties MATERIALS_DB (PStr f) (PStr m)
    = ok (row ts tm cs fs fm ilss ie) ->
  predict_properties (PStr f) (PStr m) v (PStr l) (PStr mf)
  = ok (scale_record ts tm cs fs fm ilss ie
          (v / 0.6 * factor_or LAYUP_FACTORS l 0.85
                   * factor_or MANUFACTURING_FACTORS mf 0.95)).
Proof.
  intros Hb. unfold predict_properties. rewrite Hb, !py_get_str.
  reflexivity.
Qed.

(** On strings the predictor returns a record. *)
Lemma predict_properties_returns (f m : string) (v : float) (l mf : string) :
  exists p,
    predict_properties (PStr f) (PStr m) v (PStr l) (PStr mf) = ok p.
Proof.
  destruct (base_properties_catalog f m)
    as (sub & base & _ & _ & (ts & tm & cs & fs & fm & ilss & ie & ->) & Hb).
  eexists. exact (predict_properties_row _ _ v l mf _ _ _ _ _ _ _ Hb).
Qed.

(** C9: the catalog lists exactly the five fiber types, each with
    exactly the five matrix types, 25 records in all, and every record
    has exactly the seven property fields, each strictly positive. *)
Theorem catalog_complete :
  dict_keys MATERIALS_DB
    = ["Carbon"; "Glass"; "Aramid"; "Basalt"; "Natural"]
  /\ Forall (fun entry =>
       dict_keys (snd entry)
         = ["Epoxy"; "Polyester"; "Vinyl_ester"; "PEEK"; "PA6"])
       MATERIALS_DB
  /\ List.length (records MATERIALS_DB) = 25%nat
  /\ Forall (fun base =>
       dict_keys base = ["ts"; "tm"; "cs"; "fs"; "fm"; "ilss"; "ie"]
       /\ Forall (fun kv => (0 <? snd kv) = true) base)
       (records MATERIALS_DB).
Proof.
  split; [reflexivity|]. split; [repeat constructor|].
  split; [reflexivity|].
  repeat (apply Forall_cons; [split; [reflexivity|repeat constructor]|]).
  apply Forall_nil.
Qed.

(** C2: at Carbon, Epoxy, 0.6, UD 0° and Autoclave the predictor picks
    the Carbon/Epoxy record and returns it unscaled: 1500.0, 130.0,
    1200.0, 1400.0, 125.0, 75.0 and 18.0. *)
Theorem reference_point :
  base_properties MATERIALS_DB (PStr "Carbon") (PStr "Epoxy")
    = ok (row 1500 130 1200 1400 125 75 18)
  /\ predict_properties (PStr "Carbon") (PStr "Epoxy") 0.6
       (PStr "UD 0°") (PStr "Autoclave")
     = ok {| tensile_strength_MPa := 1500.0;
             tensile_modulus_GPa := 130.0;
             compressive_strength_MPa := 1200.0;
             flexural_strength_MPa := 1400.0;
             flexural_modulus_GPa := 125.0;
             ILSS_MPa := 75.0;
             impact_energy_J := 18.0 |}.
Proof. split; vm_compute; reflexivity. Qed.

(** C1: for all strings and every float volume fraction, the predictor
    returns the record of the resolved fiber and matrix with each of its
    seven fields multiplied by
    [(fiberVolumeFraction / 0.6) * layupFactor * manufFactor] and rounded
    to one decimal, the factors being the table entries, or 0.85 and
    0.95 on a miss. *)
Theorem predict_properties_formula
    (fiberType matrixType : string) (fiberVolumeFraction : float)
    (layup manufacturing : string) :
  exists sub ts tm cs fs fm ilss ie,
    dict_find (resolved_fiber MATERIALS_DB fiberType) MATERIALS_DB = Some sub
    /\ dict_find (resolved_matrix sub matrixType) sub
       = Some (row ts tm cs fs fm ilss ie)
    /\ let layupFactor := factor_or LAYUP_FACTORS layup 0.85 in
       let manufFactor := factor_or MANUFACTURING_FACTORS manufacturing 0.95 in
       let totalFactor := fiberVolumeFraction / 0.6 * layupFactor * manufFactor in
       predict_properties (PStr fiberType) (PStr matrixType)
         fiberVolumeFraction (PStr layup) (PStr manufacturing)
       = ok {| tensile_strength_MPa := PyFloat.round1 (ts * totalFactor);
               tensile_modulus_GPa := PyFloat.round1 (tm * totalFactor);
               compressive_strength_MPa := PyFloat.round1 (cs * totalFactor);
               flexural_strength_MPa := PyFloat.round1 (fs * totalFactor);
               flexural_modulus_GPa := PyFloat.round1 (fm * totalFactor);
               ILSS_MPa := PyFloat.round1 (ilss * totalFactor);
               impact_energy_J := PyFloat.round1 (ie * totalFactor) |}.
Proof.
  destruct (base_properties_catalog fiberType matrixType)
    as (sub & base & Hs & Hm & (ts & tm & cs & fs & fm & ilss & ie & ->) & Hb).
  exists sub, ts, tm, cs, fs, fm, ilss, ie.
  split; [exact Hs|]. split; [exact Hm|].
  cbv zeta. now apply predict_properties_row.
Qed.

(** C4: a fiber type that is no key of the catalog is treated as
    Carbon, whatever the other arguments are. *)
Theorem unknown_fiber_is_carbon (fiberType : string)
    (matrix_type : pyval) (fiber_vf : float) (layup manufacturing : pyval) :
  dict_find fiberType MATERIALS_DB = None ->
  predict_properties (PStr fiberType) matrix_type fiber_vf layup manufacturing
  = predict_properties (PStr "Carbon") matrix_type fiber_vf layup manufacturing.
Proof.
  intros Hf. unfold predict_properties, base_properties, py_in.
  rewrite !py_find_str, Hf. reflexivity.
Qed.

Lemma unknown_fiber_is_carbon_example :
  dict_find "Unknown" MATERIALS_DB = None
  /\ predict_properties (PStr "Unknown") (PStr "Epoxy") 0.6
       (PStr "UD 0°") (PStr "Autoclave")
     = predict_properties (PStr "Carbon") (PStr "Epoxy") 0.6
         (PStr "UD 0°") (PStr "Autoclave").
Proof.
  split; [reflexivity|].
  apply (unknown_fiber_is_carbon "Unknown"). reflexivity.
Defined.



(** C3: for all strings and every float volume fraction the predictor
    returns a record (no exception is raised), and each unknown name
    falls back to its default: Carbon, Epoxy, the factor 0.85, the
    factor 0.95. *)
Theorem predict_properties_total
    (fiberType matrixType : string) (fiberVolumeFraction : float)
    (layup manufacturing : string) :
  exists (p : predictions) sub ts tm cs fs fm ilss ie layupFactor manufFactor,
    predict_properties (PStr fiberType) (PStr matrixType)
      fiberVolumeFraction (PStr layup) (PStr manufacturing) = ok p
    /\ p = scale_record ts tm cs fs fm ilss ie
             (fiberVolumeFraction / 0.6 * layupFactor * manufFactor)
    /\ dict_find (if is_key fiberType MATERIALS_DB then fiberType else "Carbon")
         MATERIALS_DB = Some sub
    /\ dict_find (if is_key matrixType sub then matrixType else "Epoxy") sub
       = Some (row ts tm cs fs fm ilss ie)
    /\ layupFactor
       = (if is_key layup LAYUP_FACTORS
          then factor_or LAYUP_FACTORS layup 0.85 else 0.85)
    /\ manufFactor
       = (if is_key manufacturing MANUFACTURING_FACTORS
          then factor_or MANUFACTURING_FACTORS manufacturing 0.95 else 0.95).
Proof.
  destruct (base_properties_catalog fiberType matrixType)
    as (sub & base & Hs & Hm & (ts & tm & cs & fs & fm & ilss & ie & ->) & Hb).
  eexists _, sub, ts, tm, cs, fs, fm, ilss, ie, _, _.
  split; [exact (predict_properties_row _ _ _ _ _ _ _ _ _ _ _ _ Hb)|].
  split; [reflexivity|]. split; [exact Hs|]. split; [exact Hm|].
  unfold factor_or, is_key.
  split; [destruct (dict_find layup LAYUP_FACTORS)
         |destruct (dict_find manufacturing MANUFACTURING_FACTORS)];
    reflexivity.
Qed.

(** * Floating-point rounding is monotone

    The output fields are products, one quotient and one rounding to a
    decimal. Each of these maps non-negative floats to non-negative
    floats and preserves their order; the proof goes through the
    integer description of rounding. *)

Section Rounding.

Local Open Scope Z_scope.

(** ** Rounding half to even on integers *)

Lemma div_half_even_bounds a b :
  0 < b ->
  let n := div_half_even a b in
  (2 * n - 1) * b <= 2 * a <= (2 * n + 1) * b
  /\ (2 * a = (2 * n - 1) * b -> Z.even n = true)
  /\ (2 * a = (2 * n + 1) * b -> Z.even n = true).
Proof.
  intros Hb. unfold div_half_even.
  pose proof (Z.div_mod a b ltac:(lia)) as Hdm.
  pose proof (Z.mod_pos_bound a b Hb) as Hr.
  set (q := a / b) in *. set (r := a mod b) in *.
  destruct (Z.compare_spec (2 * r) b) as [He|Hl|Hg]; cbv zeta.
  - destruct (Z.even q) eqn:Hq.
    + repeat split; try nia. intros _. exact Hq.
    + repeat split; try nia. intros _.
      rewrite Z.even_add, Hq. reflexivity.
  - repeat split; nia.
  - repeat split; nia.
Qed.

Lemma div_half_even_mono a1 b1 a2 b2 :
  0 < b1 -> 0 < b2 -> a1 * b2 <= a2 * b1 ->
  div_half_even a1 b1 <= div_half_even a2 b2.
Proof.
  intros Hb1 Hb2 Hle.
  destruct (div_half_even_bounds a1 b1 Hb1) as ([Hl1 _] & Ht1 & _).
  destruct (div_half_even_bounds a2 b2 Hb2) as ([_ Hu2] & _ & Ht2).
  cbv zeta in *.
  set (n1 := div_half_even a1 b1) in *. set (n2 := div_half_even a2 b2) in *.
  destruct (Z_le_gt_dec n1 n2) as [|Hgt]; [assumption|exfalso].
  assert (H1 : (2 * n1 - 1) * (b1 * b2) <= 2 * a1 * b2) by nia.
  assert (H2 : 2 * a2 * b1 <= (2 * n2 + 1) * (b1 * b2)) by nia.
  assert (Hbb : 0 < b1 * b2) by nia.
  assert (Hn : n1 = n2 + 1) by nia.
  assert (E1 : 2 * a1 = (2 * n1 - 1) * b1) by nia.
  assert (E2 : 2 * a2 = (2 * n2 + 1) * b2) by nia.
  specialize (Ht1 E1). specialize (Ht2 E2).
  rewrite Hn, Z.even_add, Ht2 in Ht1. discriminate.
Qed.

Lemma div_half_even_le a b n :
  0 < b -> a <= n * b -> div_half_even a b <= n.
Proof.
  intros Hb H.
  destruct (div_half_even_bounds a b Hb) as ([Hl _] & _). cbv zeta in *. nia.
Qed.

Lemma div_half_even_ge a b n :
  0 < b -> n * b <= a -> n <= div_half_even a b.
Proof.
  intros Hb H.
  destruct (div_half_even_bounds a b Hb) as ([_ Hu] & _). cbv zeta in *. nia.
Qed.

Lemma div_half_even_1 a : div_half_even a 1 = a.
Proof.
  apply Z.le_antisymm; [apply div_half_even_le|apply div_half_even_ge]; lia.
Qed.

(** ** Shifting a mantissa keeps the place of the remainder *)

Lemma shr_m_of_loc m l : shr_m (shr_record_of_loc m l) = m.
Proof. now destruct l as [|[]]. Qed.

Lemma loc_of_shr_record_of_loc m l :
  loc_of_shr_record (shr_record_of_loc m l) = l.
Proof. now destruct l as [|[]]. Qed.

Lemma shr_1_nonneg m r s :
  0 <= m ->
  shr_1 {| shr_m := m; shr_r := r; shr_s := s |}
  = {| shr_m := m / 2; shr_r := Z.odd m; shr_s := r || s |}.
Proof.
  intros Hm. destruct m as [|p|p]; [reflexivity| |lia].
  destruct p as [p|p|]; cbn [shr_1].
  - f_equal. change (Z.pos p~1) with (2 * Z.pos p + 1).
    apply (Z.div_unique _ 2 _ 1); lia.
  - f_equal. change (Z.pos p~0) with (2 * Z.pos p).
    apply (Z.div_unique _ 2 _ 0); lia.
  - reflexivity.
Qed.

Lemma shr_1_cut a b : 0 <= a -> 0 < b -> shr_1 (cut a b) = cut a (2 * b).
Proof.
  intros Ha Hb. unfold cut.
  pose proof (Z.div_mod a b ltac:(lia)) as Hdm.
  pose proof (Z.mod_pos_bound a b Hb) as Hr.
  assert (Hq : 0 <= a / b) by (apply Z.div_pos; lia).
  set (q := a / b) in *. set (r := a mod b) in *.
  pose proof (Z.div_mod q 2 ltac:(lia)) as Hq2.
  pose proof (Z.mod_pos_bound q 2 ltac:(lia)) as Hq2r.
  assert (Hdiv : a / (2 * b) = q / 2).
  { symmetry. apply (Z.div_unique a (2 * b) (q / 2) ((q mod 2) * b + r)); nia. }
  assert (Hmod : a mod (2 * b) = (q mod 2) * b + r).
  { symmetry. apply (Z.mod_unique a (2 * b) (q / 2) ((q mod 2) * b + r)); nia. }
  rewrite Hdiv, Hmod.
  assert (Hodd : Z.odd q = (q mod 2 =? 1)).
  { rewrite Zmod_odd. now destruct (Z.odd q). }
  assert (Hsh : forall l, shr_1 (shr_record_of_loc q l)
      = {| shr_m := q / 2; shr_r := Z.odd q;
           shr_s := match l with loc_Exact => false | _ => true end |}).
  { intros [|[]]; cbn [shr_record_of_loc]; rewrite shr_1_nonneg by lia;
      reflexivity. }
  rewrite Hsh, Hodd. unfold loc_of.
  destruct (Z.eqb_spec r 0) as [Hr0|Hr0].
  - destruct (Z.eqb_spec (q mod 2) 1) as [H1|H1].
    + rewrite H1, Hr0. replace (1 * b + 0 =? 0) with false by (symmetry; apply Z.eqb_neq; lia).
      replace (2 * (1 * b + 0) ?= 2 * b) with Eq by (symmetry; apply Z.compare_eq_iff; lia).
      reflexivity.
    + replace (q mod 2) with 0 by lia. rewrite Hr0. reflexivity.
  - destruct (Z.eqb_spec (q mod 2) 1) as [H1|H1].
    + rewrite H1. replace (1 * b + r =? 0) with false by (symmetry; apply Z.eqb_neq; lia).
      replace (2 * (1 * b + r) ?= 2 * b) with Gt by (symmetry; apply Z.compare_gt_iff; lia).
      reflexivity.
    + replace (q mod 2) with 0 by lia.
      replace (0 * b + r =? 0) with false by (symmetry; apply Z.eqb_neq; lia).
      replace (2 * (0 * b + r) ?= 2 * b) with Lt by (symmetry; apply Z.compare_lt_iff; lia).
      reflexivity.
Qed.

Lemma pow2_xO p : 2 ^ Z.pos p~0 = 2 ^ Z.pos p * 2 ^ Z.pos p.
Proof. rewrite <- Z.pow_add_r by lia. f_equal. lia. Qed.

Lemma pow2_xI p : 2 ^ Z.pos p~1 = 2 * (2 ^ Z.pos p * 2 ^ Z.pos p).
Proof.
  rewrite <- pow2_xO. change (Z.pos p~1) with (Z.succ (Z.pos p~0)).
  apply Z.pow_succ_r. lia.
Qed.

Lemma iter_shr_1_cut p : forall a b,
  0 <= a -> 0 < b ->
  iter_pos shr_1 p (cut a b) = cut a (2 ^ Z.pos p * b).
Proof.
  induction p as [p IH|p IH|]; intros a b Ha Hb; cbn [iter_pos].
  - assert (0 < 2 ^ Z.pos p) by (apply Z.pow_pos_nonneg; lia).
    rewrite shr_1_cut, !IH by nia. f_equal. rewrite pow2_xI. ring.
  - assert (0 < 2 ^ Z.pos p) by (apply Z.pow_pos_nonneg; lia).
    rewrite !IH by nia. f_equal. rewrite pow2_xO. ring.
  - rewrite shr_1_cut by lia. reflexivity.
Qed.

(** Shifting by [n >= 0] places divides by [2 ^ n]. *)
Lemma shr_cut a b e n :
  0 <= a -> 0 < b -> 0 <= n ->
  shr (cut a b) e n = (cut a (2 ^ n * b), e + n).
Proof.
  intros Ha Hb Hn. destruct n as [|p|p]; [|now cbn [shr]; rewrite iter_shr_1_cut|lia].
  cbn [shr]. rewrite Z.pow_0_r, Z.mul_1_l, Z.add_0_r. reflexivity.
Qed.

Lemma round_nearest_even_cut a b :
  0 < b ->
  round_nearest_even (shr_m (cut a b)) (loc_of_shr_record (cut a b))
  = div_half_even a b.
Proof.
  intros Hb. unfold cut. rewrite shr_m_of_loc, loc_of_shr_record_of_loc.
  unfold loc_of, div_half_even.
  pose proof (Z.mod_pos_bound a b Hb) as Hr.
  destruct (Z.eqb_spec (a mod b) 0) as [H0|H0].
  - rewrite H0. cbn [round_nearest_even].
    replace (2 * 0 ?= b) with Lt by (symmetry; apply Z.compare_lt_iff; lia).
    reflexivity.
  - cbn [round_nearest_even]. now destruct (2 * (a mod b) ?= b).
Qed.

Lemma new_location_loc_of b r :
  0 < b -> 0 <= r < b -> new_location b r = loc_of r b.
Proof.
  intros Hb Hr. unfold new_location, new_location_even, new_location_odd, loc_of.
  destruct (Z.even b) eqn:He; [reflexivity|].
  destruct (r =? 0); [reflexivity|]. f_equal.
  assert (Hodd : Z.odd b = true) by (rewrite <- Z.negb_even, He; reflexivity).
  apply Zodd_bool_iff in Hodd. destruct (Zodd_ex _ Hodd) as [k Hk].
  destruct (Z.compare_spec (2 * r + 1) b), (Z.compare_spec (2 * r) b);
    try reflexivity; lia.
Qed.

Lemma cut_exact m : cut m 1 = shr_record_of_loc m loc_Exact.
Proof. unfold cut. now rewrite Z.div_1_r, Z.mod_1_r. Qed.

(** ** Number of digits *)

Lemma fexp64_eq e : fexp64 e = Z.max (e - 53) (-1074).
Proof. reflexivity. Qed.

Lemma digits2_size p : digits2_pos p = Pos.size p.
Proof. induction p; cbn; congruence. Qed.

Lemma Zdigits2_nonneg m : 0 <= Zdigits2 m.
Proof. destruct m; cbn; lia. Qed.

Lemma Zdigits2_bounds m :
  0 < m -> 2 ^ (Zdigits2 m - 1) <= m < 2 ^ Zdigits2 m.
Proof.
  destruct m as [|p|p]; try lia. intros _. cbn [Zdigits2].
  rewrite digits2_size.
  pose proof (Pos.size_gt p) as Hgt. pose proof (Pos.size_le p) as Hle.
  apply Pos2Z.pos_lt_pos in Hgt. apply Pos2Z.pos_le_pos in Hle.
  rewrite Pos2Z.inj_pow in Hgt, Hle.
  change (Z.pos p~0) with (2 * Z.pos p) in Hle.
  assert (Hs : 2 ^ Z.pos (Pos.size p) = 2 * 2 ^ (Z.pos (Pos.size p) - 1)).
  { rewrite <- Z.pow_succ_r by lia. f_equal. lia. }
  lia.
Qed.

Lemma Zdigits2_upper m : 0 <= m -> m < 2 ^ Zdigits2 m.
Proof.
  intros Hm. destruct (Z.eq_dec m 0) as [->|]; [reflexivity|].
  apply Zdigits2_bounds. lia.
Qed.

Lemma Zdigits2_le m k : 0 <= m -> 0 <= k -> m < 2 ^ k -> Zdigits2 m <= k.
Proof.
  intros Hm Hk Hlt. destruct (Z.eq_dec m 0) as [->|]; [assumption|].
  destruct (Zdigits2_bounds m ltac:(lia)) as [Hl _].
  pose proof (Zdigits2_nonneg m).
  destruct (Z_le_gt_dec (Zdigits2 m) k) as [|Hgt]; [assumption|exfalso].
  assert (2 ^ k <= 2 ^ (Zdigits2 m - 1)) by (apply Z.pow_le_mono_r; lia).
  lia.
Qed.

Lemma Zdigits2_ge m k : 0 <= k -> 2 ^ k <= m -> k + 1 <= Zdigits2 m.
Proof.
  intros Hk Hle.
  assert (Hm : 0 < m) by (pose proof (Z.pow_pos_nonneg 2 k); lia).
  destruct (Zdigits2_bounds m Hm) as [_ Hu].
  pose proof (Zdigits2_nonneg m).
  destruct (Z_le_gt_dec (k + 1) (Zdigits2 m)) as [|Hgt]; [assumption|exfalso].
  assert (2 ^ Zdigits2 m <= 2 ^ k) by (apply Z.pow_le_mono_r; lia).
  lia.
Qed.

(** ** The result of [binary_round_aux] *)

(** The rounded mantissa never exceeds [2 ^ 53]. *)
Lemma rounded_mantissa_le a b ex :
  0 <= a -> 0 < b ->
  let E := fexp64 (Zdigits2 (a / b) + ex) in
  ex <= E ->
  0 <= div_half_even a (2 ^ (E - ex) * b) <= 2 ^ 53.
Proof.
  intros Ha Hb E HE.
  assert (Hp : 0 < 2 ^ (E - ex)) by (apply Z.pow_pos_nonneg; lia).
  split.
  - apply div_half_even_ge; nia.
  - apply div_half_even_le; [nia|].
    assert (Hq : 0 <= a / b) by (apply Z.div_pos; lia).
    pose proof (Zdigits2_upper (a / b) Hq) as Hu.
    pose proof (Zdigits2_nonneg (a / b)) as Hd.
    pose proof (Z.div_mod a b ltac:(lia)) as Hdm.
    pose proof (Z.mod_pos_bound a b Hb) as Hr.
    assert (HdE : Zdigits2 (a / b) <= 53 + (E - ex)).
    { unfold E. rewrite fexp64_eq. lia. }
    assert (H2 : 2 ^ Zdigits2 (a / b) <= 2 ^ (53 + (E - ex)))
      by (apply Z.pow_le_mono_r; lia).
    rewrite Z.pow_add_r in H2 by lia. nia.
Qed.

Lemma binary_round_aux_pack s a b ex :
  0 <= a -> 0 < b ->
  let E := fexp64 (Zdigits2 (a / b) + ex) in
  ex <= E ->
  binary_round_aux prec emax s (a / b) ex (loc_of (a mod b) b)
  = pack s (div_half_even a (2 ^ (E - ex) * b)) E.
Proof.
  intros Ha Hb E HE.
  pose proof (rounded_mantissa_le a b ex Ha Hb HE) as Hm. fold E in Hm.
  assert (Hp : 0 < 2 ^ (E - ex)) by (apply Z.pow_pos_nonneg; lia).
  unfold binary_round_aux, shr_fexp.
  change (SpecFloat.fexp prec emax (Zdigits2 (a / b) + ex)) with E.
  change (shr_record_of_loc (a / b) (loc_of (a mod b) b)) with (cut a b).
  rewrite shr_cut by lia.
  rewrite round_nearest_even_cut by nia.
  set (m := div_half_even a (2 ^ (E - ex) * b)) in *.
  replace (ex + (E - ex)) with E by lia.
  rewrite <- cut_exact.
  assert (HEmin : -1074 <= E) by (unfold E; rewrite fexp64_eq; lia).
  change (SpecFloat.fexp prec emax (Zdigits2 m + E)) with (fexp64 (Zdigits2 m + E)).
  unfold pack.
  destruct (Z.eqb_spec m 0) as [Hm0|Hm0].
  - rewrite Hm0. cbn [Zdigits2]. rewrite fexp64_eq.
    destruct (Z.max (0 + E - 53) (-1074) - E) eqn:Hn; try lia; reflexivity.
  - destruct (Z.ltb_spec m (2 ^ 53)) as [Hlt|Hge].
    + assert (Hd : Zdigits2 m <= 53) by (apply Zdigits2_le; lia).
      rewrite fexp64_eq.
      destruct (Z.max (Zdigits2 m + E - 53) (-1074) - E) eqn:Hn; try lia;
        cbn [shr]; unfold cut; rewrite Z.div_1_r, shr_m_of_loc;
        destruct m; try lia; reflexivity.
    + assert (Hm53 : m = 2 ^ 53) by lia.
      rewrite Hm53. change (Zdigits2 (2 ^ 53)) with 54. rewrite fexp64_eq.
      replace (Z.max (54 + E - 53) (-1074) - E) with 1 by lia.
      rewrite shr_cut by lia. unfold cut. rewrite shr_m_of_loc.
      reflexivity.
Qed.

Lemma SFleb_finite m1 e1 m2 e2 :
  e1 < e2 \/ (e1 = e2 /\ (m1 <= m2)%positive) ->
  SFleb (S754_finite false m1 e1) (S754_finite false m2 e2) = true.
Proof.
  unfold SFleb. cbn [SFcompare]. intros [Hlt|[-> Hle]].
  - apply Z.compare_lt_iff in Hlt. now rewrite Hlt.
  - rewrite Z.compare_refl. change (Pos.compare_cont Eq m1 m2) with (m1 ?= m2)%positive.
    apply Pos.compare_le_iff in Hle. now destruct (m1 ?= m2)%positive.
Qed.

Lemma to_pos_le x y : 0 < x -> x <= y -> (Z.to_pos x <= Z.to_pos y)%positive.
Proof.
  intros Hx Hy. change (Z.pos (Z.to_pos x) <= Z.pos (Z.to_pos y)).
  rewrite !Z2Pos.id by lia. exact Hy.
Qed.

Ltac pack_cases :=
  unfold pack;
  repeat match goal with
  | |- context [?x =? ?y] => destruct (Z.eqb_spec x y)
  | |- context [?x <? ?y] => destruct (Z.ltb_spec x y)
  | |- context [?x <=? ?y] => destruct (Z.leb_spec x y)
  end;
  change (emax - prec) with 971 in *;
  try lia; try reflexivity;
  try (apply SFleb_finite; first [left; lia | right; split; [lia|]]).

Lemma SFleb_pack_same E m m' :
  0 <= m <= m' -> m' <= 2 ^ 53 ->
  SFleb (pack false m E) (pack false m' E) = true.
Proof.
  intros Hm Hm'. pack_cases.
  - apply to_pos_le; lia.
  - apply Pos.le_refl.
Qed.

Lemma SFleb_pack_lt E E' m m' :
  E < E' -> 0 <= m <= 2 ^ 53 -> 2 ^ 52 <= m' <= 2 ^ 53 ->
  SFleb (pack false m E) (pack false m' E') = true.
Proof.
  intros HE Hm Hm'. pack_cases.
  all: apply SFleb_finite.
  all: destruct (Z.eq_dec (E + 1) E') as [He|He]; [right|left; lia].
  all: split; [exact He|]; apply to_pos_le; lia.
Qed.

(** Above the smallest exponent the rounded mantissa has 53 digits. *)
Lemma rounded_mantissa_ge a b ex :
  0 <= a -> 0 < b ->
  let E := fexp64 (Zdigits2 (a / b) + ex) in
  ex <= E -> -1074 < E ->
  E = Zdigits2 (a / b) + ex - 53
  /\ 2 ^ (Zdigits2 (a / b) - 1) * b <= a
  /\ 2 ^ 52 <= div_half_even a (2 ^ (E - ex) * b).
Proof.
  intros Ha Hb E HE Hmin.
  assert (HEd : E = Zdigits2 (a / b) + ex - 53) by (unfold E in *; rewrite fexp64_eq in *; lia).
  assert (Hq : 0 <= a / b) by (apply Z.div_pos; lia).
  assert (Hq0 : 0 < a / b).
  { destruct (Z.eq_dec (a / b) 0) as [H0|]; [|lia].
    rewrite H0 in HEd. cbn [Zdigits2] in HEd. lia. }
  destruct (Zdigits2_bounds (a / b) Hq0) as [Hl _].
  pose proof (Z.div_mod a b ltac:(lia)) as Hdm.
  pose proof (Z.mod_pos_bound a b Hb) as Hr.
  assert (Hp : 0 < 2 ^ (E - ex)) by (apply Z.pow_pos_nonneg; lia).
  assert (Ha' : 2 ^ (Zdigits2 (a / b) - 1) * b <= a) by nia.
  split; [exact HEd|]. split; [exact Ha'|].
  apply div_half_even_ge; [nia|].
  replace (2 ^ 52 * (2 ^ (E - ex) * b)) with (2 ^ (52 + (E - ex)) * b)
    by (rewrite Z.pow_add_r by lia; ring).
  replace (52 + (E - ex)) with (Zdigits2 (a / b) - 1) by lia.
  exact Ha'.
Qed.

(** Rounding is monotone: of two non-negative values given as fractions
    scaled by powers of two, the smaller rounds to the smaller float. *)
Lemma round_mono a1 b1 ex1 a2 b2 ex2 k :
  0 <= a1 -> 0 < b1 -> 0 <= a2 -> 0 < b2 ->
  let E1 := fexp64 (Zdigits2 (a1 / b1) + ex1) in
  let E2 := fexp64 (Zdigits2 (a2 / b2) + ex2) in
  ex1 <= E1 -> ex2 <= E2 ->
  k <= ex1 -> k <= ex2 ->
  a1 * 2 ^ (ex1 - k) * b2 <= a2 * 2 ^ (ex2 - k) * b1 ->
  SFleb (pack false (div_half_even a1 (2 ^ (E1 - ex1) * b1)) E1)
        (pack false (div_half_even a2 (2 ^ (E2 - ex2) * b2)) E2) = true.
Proof.
  intros Ha1 Hb1 Ha2 Hb2 E1 E2 HE1 HE2 Hk1 Hk2 Hle.
  pose proof (rounded_mantissa_le a1 b1 ex1 Ha1 Hb1 HE1) as Hm1.
  pose proof (rounded_mantissa_le a2 b2 ex2 Ha2 Hb2 HE2) as Hm2.
  fold E1 in Hm1. fold E2 in Hm2.
  assert (HP1 : 0 < 2 ^ (ex1 - k)) by (apply Z.pow_pos_nonneg; lia).
  assert (HP2 : 0 < 2 ^ (ex2 - k)) by (apply Z.pow_pos_nonneg; lia).
  assert (HQ1 : 0 < 2 ^ (E1 - ex1)) by (apply Z.pow_pos_nonneg; lia).
  assert (HQ2 : 0 < 2 ^ (E2 - ex2)) by (apply Z.pow_pos_nonneg; lia).
  assert (HEmin1 : -1074 <= E1) by (unfold E1; rewrite fexp64_eq; lia).
  assert (HEmin2 : -1074 <= E2) by (unfold E2; rewrite fexp64_eq; lia).
  destruct (Z.lt_total E1 E2) as [Hlt|[Heq|Hgt]].
  - apply SFleb_pack_lt; [exact Hlt|exact Hm1|].
    split; [|apply Hm2].
    apply (rounded_mantissa_ge a2 b2 ex2); trivial. fold E2. lia.
  - rewrite Heq in *. apply SFleb_pack_same; [|apply Hm2].
    split; [apply Hm1|].
    apply div_half_even_mono; [nia|nia|].
    assert (HT : 2 ^ (ex1 - k) * 2 ^ (E2 - ex1) = 2 ^ (ex2 - k) * 2 ^ (E2 - ex2)).
    { rewrite <- !Z.pow_add_r by lia. f_equal. lia. }
    set (P1 := 2 ^ (ex1 - k)) in *. set (P2 := 2 ^ (ex2 - k)) in *.
    set (Q1 := 2 ^ (E2 - ex1)) in *. set (Q2 := 2 ^ (E2 - ex2)) in *.
    apply (Z.mul_le_mono_pos_r _ _ (P1 * Q1)); [nia|].
    replace (a1 * (Q2 * b2) * (P1 * Q1)) with (a1 * P1 * b2 * (Q1 * Q2)) by ring.
    rewrite HT.
    replace (a2 * (Q1 * b1) * (P2 * Q2)) with (a2 * P2 * b1 * (Q1 * Q2)) by ring.
    apply Z.mul_le_mono_nonneg_r; [nia|exact Hle].
  - exfalso.
    destruct (rounded_mantissa_ge a1 b1 ex1 Ha1 Hb1 HE1) as (Hd1 & Hlow & _);
      [fold E1; lia|]. fold E1 in Hd1.
    assert (Hq2 : 0 <= a2 / b2) by (apply Z.div_pos; lia).
    pose proof (Zdigits2_upper (a2 / b2) Hq2) as Hu2.
    pose proof (Z.div_mod a2 b2 ltac:(lia)) as Hdm2.
    pose proof (Z.mod_pos_bound a2 b2 Hb2) as Hr2.
    pose proof (Zdigits2_nonneg (a2 / b2)) as Hn2.
    pose proof (Zdigits2_nonneg (a1 / b1)) as Hn1.
    assert (Hd2 : Zdigits2 (a2 / b2) + ex2 - 53 <= E2)
      by (unfold E2; rewrite fexp64_eq; lia).
    assert (Hup : a2 < 2 ^ Zdigits2 (a2 / b2) * b2) by nia.
    set (d1 := Zdigits2 (a1 / b1)) in *. set (d2 := Zdigits2 (a2 / b2)) in *.
    assert (Hpow : 2 ^ (d2 + (ex2 - k)) <= 2 ^ (d1 - 1 + (ex1 - k)))
      by (apply Z.pow_le_mono_r; lia).
    rewrite !Z.pow_add_r in Hpow by lia.
    set (P1 := 2 ^ (ex1 - k)) in *. set (P2 := 2 ^ (ex2 - k)) in *.
    assert (0 < 2 ^ d2) by (apply Z.pow_pos_nonneg; lia).
    assert (0 < 2 ^ (d1 - 1)) by (apply Z.pow_pos_nonneg; lia).
    assert (H1 : 2 ^ (d1 - 1) * P1 * (b1 * b2) <= a1 * P1 * b2) by nia.
    assert (H2 : a2 * P2 * b1 < 2 ^ d2 * P2 * (b1 * b2)) by nia.
    assert (H3 : 2 ^ d2 * P2 * (b1 * b2) <= 2 ^ (d1 - 1) * P1 * (b1 * b2)) by nia.
    lia.
Qed.

(** What rounding yields is a valid binary64 number. *)
Lemma pack_valid s m E :
  0 <= m <= 2 ^ 53 -> -1074 <= E -> (-1074 < E -> 2 ^ 52 <= m) ->
  valid_binary (pack s m E) = true.
Proof.
  intros Hm HE Hn. unfold pack.
  destruct (Z.eqb_spec m 0); [reflexivity|].
  destruct (Z.ltb_spec m (2 ^ 53)).
  - destruct (Z.leb_spec E (emax - prec)) as [Hb|Hb]; [|reflexivity].
    cbn [valid_binary]. unfold bounded, canonical_mantissa.
    apply andb_true_intro. split; [|now apply Z.leb_le].
    apply Z.eqb_eq.
    change (SpecFloat.fexp prec emax ?x) with (fexp64 x). rewrite fexp64_eq.
    change (Z.pos (digits2_pos (Z.to_pos m))) with (Zdigits2 (Z.pos (Z.to_pos m))).
    rewrite Z2Pos.id by lia.
    assert (Zdigits2 m <= 53) by (apply Zdigits2_le; lia).
    destruct (Z.eq_dec E (-1074)) as [->|]; [lia|].
    assert (53 <= Zdigits2 m) by (apply (Zdigits2_ge m 52); lia).
    lia.
  - destruct (Z.leb_spec (E + 1) (emax - prec)) as [Hb|Hb]; [|reflexivity].
    cbn [valid_binary]. unfold bounded, canonical_mantissa.
    apply andb_true_intro. split; [|now apply Z.leb_le].
    apply Z.eqb_eq.
    change (SpecFloat.fexp prec emax ?x) with (fexp64 x). rewrite fexp64_eq.
    change (Z.pos (digits2_pos (Z.to_pos (2 ^ 52)))) with 53. lia.
Qed.

Lemma binary_round_aux_valid s a b ex :
  0 <= a -> 0 < b ->
  ex <= fexp64 (Zdigits2 (a / b) + ex) ->
  valid_binary
    (binary_round_aux prec emax s (a / b) ex (loc_of (a mod b) b)) = true.
Proof.
  intros Ha Hb HE. rewrite binary_round_aux_pack by assumption.
  apply pack_valid.
  - now apply rounded_mantissa_le.
  - rewrite fexp64_eq. lia.
  - intros Hmin. now apply (rounded_mantissa_ge a b ex).
Qed.

(** ** Valid numbers and their order *)

Lemma valid_finite s m e :
  valid_binary (S754_finite s m e) = true ->
  e = fexp64 (Zdigits2 (Z.pos m) + e) /\ e <= 971.
Proof.
  cbn [SpecFloat.valid_binary]. unfold bounded, canonical_mantissa.
  intros H. apply andb_prop in H. destruct H as [Hc Hb].
  apply Z.eqb_eq in Hc. apply Z.leb_le in Hb. split; [symmetry; exact Hc|exact Hb].
Qed.

Lemma valid_finite_digits s m e :
  valid_binary (S754_finite s m e) = true ->
  -1074 <= e <= 971 /\ Zdigits2 (Z.pos m) <= 53
  /\ (-1074 < e -> Zdigits2 (Z.pos m) = 53).
Proof.
  intros H. destruct (valid_finite s m e H) as [Hc Hb].
  rewrite fexp64_eq in Hc. lia.
Qed.

(** On valid positive numbers [SFleb] is the order of the values. *)
Lemma SFleb_value m1 e1 m2 e2 k :
  valid_binary (S754_finite false m1 e1) = true ->
  valid_binary (S754_finite false m2 e2) = true ->
  SFleb (S754_finite false m1 e1) (S754_finite false m2 e2) = true ->
  k <= e1 -> k <= e2 ->
  Z.pos m1 * 2 ^ (e1 - k) <= Z.pos m2 * 2 ^ (e2 - k).
Proof.
  intros V1 V2 Hle Hk1 Hk2.
  destruct (valid_finite_digits _ _ _ V1) as (He1 & Hd1 & _).
  destruct (valid_finite_digits _ _ _ V2) as (He2 & _ & Hn2).
  unfold SFleb in Hle. cbn [SFcompare] in Hle.
  destruct (Z.compare_spec e1 e2) as [Heq|Hlt|Hgt].
  - subst e2. change (Pos.compare_cont Eq m1 m2) with (m1 ?= m2)%positive in Hle.
    assert (Hm : (m1 <= m2)%positive).
    { apply Pos.compare_le_iff. intros Hgt. now rewrite Hgt in Hle. }
    assert (0 < 2 ^ (e1 - k)) by (apply Z.pow_pos_nonneg; lia).
    apply Z.mul_le_mono_nonneg_r; [lia|exact Hm].
  - destruct (Zdigits2_bounds (Z.pos m2) ltac:(lia)) as [Hl2 _].
    rewrite (Hn2 ltac:(lia)) in Hl2. change (2 ^ (53 - 1)) with (2 ^ 52) in Hl2.
    pose proof (Zdigits2_upper (Z.pos m1) ltac:(lia)) as Hu1.
    assert (H53 : 2 ^ Zdigits2 (Z.pos m1) <= 2 ^ 53)
      by (apply Z.pow_le_mono_r; lia).
    assert (Hp : 2 ^ (53 + (e1 - k)) <= 2 ^ (52 + (e2 - k)))
      by (apply Z.pow_le_mono_r; lia).
    rewrite !Z.pow_add_r in Hp by lia.
    assert (0 < 2 ^ (e1 - k)) by (apply Z.pow_pos_nonneg; lia).
    assert (0 < 2 ^ (e2 - k)) by (apply Z.pow_pos_nonneg; lia).
    nia.
  - discriminate.
Qed.

Lemma nonneg_pack m E : nonneg (pack false m E) = true.
Proof.
  unfold pack.
  destruct (m =? 0); [reflexivity|].
  destruct (m <? 2 ^ 53);
    [destruct (E <=? emax - prec)|destruct (E + 1 <=? emax - prec)];
    reflexivity.
Qed.

Lemma SFleb_zero_nonneg x : nonneg x = true -> SFleb (S754_zero false) x = true.
Proof. now destruct x as [[]|[]| |[] m e]. Qed.

Lemma SFleb_nonneg_infinity x :
  nonneg x = true -> SFleb x (S754_infinity false) = true.
Proof. now destruct x as [[]|[]| |[] m e]. Qed.

(** ** Multiplication *)

Lemma mul_exponent_le m1 e1 m2 e2 s1 s2 :
  valid_binary (S754_finite s1 m1 e1) = true ->
  valid_binary (S754_finite s2 m2 e2) = true ->
  e1 + e2 <= fexp64 (Zdigits2 (Z.pos (m1 * m2)) + (e1 + e2)).
Proof.
  intros V1 V2.
  destruct (valid_finite_digits _ _ _ V1) as (He1 & Hd1 & Hn1).
  destruct (valid_finite_digits _ _ _ V2) as (He2 & Hd2 & Hn2).
  rewrite fexp64_eq.
  destruct (Zdigits2_bounds (Z.pos m1) ltac:(lia)) as [Hl1 _].
  destruct (Zdigits2_bounds (Z.pos m2) ltac:(lia)) as [Hl2 _].
  assert (Hp1 : 1 <= Zdigits2 (Z.pos m1)) by (cbn [Zdigits2]; lia).
  assert (Hp2 : 1 <= Zdigits2 (Z.pos m2)) by (cbn [Zdigits2]; lia).
  assert (Hprod : 2 ^ (Zdigits2 (Z.pos m1) - 1 + (Zdigits2 (Z.pos m2) - 1))
                  <= Z.pos (m1 * m2)).
  { rewrite Z.pow_add_r, Pos2Z.inj_mul by lia.
    apply Z.mul_le_mono_nonneg; try lia; apply Z.pow_nonneg; lia. }
  apply Zdigits2_ge in Hprod; [|lia].
  destruct (Z.eq_dec e1 (-1074)) as [E1|E1];
    destruct (Z.eq_dec e2 (-1074)) as [E2|E2]; lia.
Qed.

Lemma SFmul_finite m1 e1 m2 e2 :
  valid_binary (S754_finite false m1 e1) = true ->
  valid_binary (S754_finite false m2 e2) = true ->
  let E := fexp64 (Zdigits2 (Z.pos (m1 * m2)) + (e1 + e2)) in
  SFmul prec emax (S754_finite false m1 e1) (S754_finite false m2 e2)
  = pack false (div_half_even (Z.pos (m1 * m2)) (2 ^ (E - (e1 + e2)) * 1)) E.
Proof.
  intros V1 V2 E. cbn [SFmul xorb].
  pose proof (binary_round_aux_pack false (Z.pos (m1 * m2)) 1 (e1 + e2)
                ltac:(lia) ltac:(lia)) as H.
  rewrite Z.div_1_r, Z.mod_1_r in H. cbv zeta in H.
  apply H. now apply (mul_exponent_le m1 e1 m2 e2 false false).
Qed.

Lemma SFmul_mono_finite m1 e1 m2 e2 mc ec :
  valid_binary (S754_finite false m1 e1) = true ->
  valid_binary (S754_finite false m2 e2) = true ->
  valid_binary (S754_finite false mc ec) = true ->
  SFleb (S754_finite false m1 e1) (S754_finite false m2 e2) = true ->
  SFleb (SFmul prec emax (S754_finite false m1 e1) (S754_finite false mc ec))
        (SFmul prec emax (S754_finite false m2 e2) (S754_finite false mc ec))
  = true.
Proof.
  intros V1 V2 Vc Hle.
  rewrite !SFmul_finite by assumption. cbv zeta.
  pose proof (mul_exponent_le m1 e1 mc ec false false V1 Vc) as H1.
  pose proof (mul_exponent_le m2 e2 mc ec false false V2 Vc) as H2.
  pose proof (round_mono (Z.pos (m1 * mc)) 1 (e1 + ec) (Z.pos (m2 * mc)) 1
                (e2 + ec) (Z.min e1 e2 + ec)) as H.
  rewrite !Z.div_1_r in H. cbv zeta in H. apply H; try lia.
  pose proof (SFleb_value m1 e1 m2 e2 (Z.min e1 e2) V1 V2 Hle
                ltac:(lia) ltac:(lia)) as Hv.
  replace (e1 + ec - (Z.min e1 e2 + ec)) with (e1 - Z.min e1 e2) by lia.
  replace (e2 + ec - (Z.min e1 e2 + ec)) with (e2 - Z.min e1 e2) by lia.
  rewrite !Pos2Z.inj_mul. nia.
Qed.

Lemma SFmul_comm_finite m1 e1 m2 e2 :
  SFmul prec emax (S754_finite false m1 e1) (S754_finite false m2 e2)
  = SFmul prec emax (S754_finite false m2 e2) (S754_finite false m1 e1).
Proof. cbn [SFmul]. now rewrite Pos.mul_comm, Z.add_comm. Qed.

(** ** Division *)

Lemma div_eucl_div_mod a b : Z.div_eucl a b = (a / b, a mod b).
Proof. unfold Z.div, Z.modulo. now destruct (Z.div_eucl a b). Qed.

Lemma SFdiv_core_cut m1 e1 m2 e2 :
  0 < m1 -> 0 < m2 ->
  let e' := Z.min (fexp64 (Zdigits2 m1 + e1 - (Zdigits2 m2 + e2))) (e1 - e2) in
  let a := m1 * 2 ^ (e1 - e2 - e') in
  SFdiv_core_binary prec emax m1 e1 m2 e2
    = (a / m2, e', loc_of (a mod m2) m2)
  /\ e' <= fexp64 (Zdigits2 (a / m2) + e').
Proof.
  intros H1 H2 e' a. split.
  - unfold SFdiv_core_binary.
    change (Z.min (SpecFloat.fexp prec emax (Zdigits2 m1 + e1 - (Zdigits2 m2 + e2)))
              (e1 - e2)) with e'.
    assert (Hs : 0 <= e1 - e2 - e') by (unfold e'; lia).
    assert (Hm : match e1 - e2 - e' with
                 | Z.pos _ => Z.shiftl m1 (e1 - e2 - e')
                 | 0 => m1
                 | Z.neg _ => 0
                 end = a).
    { unfold a. destruct (e1 - e2 - e') eqn:E; try lia.
      apply Z.shiftl_mul_pow2. lia. }
    rewrite Hm, div_eucl_div_mod.
    rewrite new_location_loc_of; [reflexivity|lia|].
    apply Z.mod_pos_bound. lia.
  - rewrite fexp64_eq.
    destruct (Z_le_gt_dec e' (-1074)) as [|Hgt]; [lia|].
    assert (He' : e' <= Zdigits2 m1 + e1 - (Zdigits2 m2 + e2) - 53).
    { unfold e' in *. rewrite fexp64_eq in *. lia. }
    destruct (Zdigits2_bounds m1 H1) as [Hl1 _].
    destruct (Zdigits2_bounds m2 H2) as [_ Hu2].
    pose proof (Zdigits2_nonneg m1). pose proof (Zdigits2_nonneg m2).
    assert (Hd1 : 1 <= Zdigits2 m1).
    { destruct m1; try lia. cbn [Zdigits2]. lia. }
    set (s := e1 - e2 - e') in *.
    set (j := Zdigits2 m1 - 1 + s - Zdigits2 m2).
    assert (Hj : 52 <= j) by (unfold j, s; lia).
    assert (Hq : 2 ^ j <= a / m2).
    { apply Z.div_le_lower_bound; [lia|].
      assert (Hp : 2 ^ (j + Zdigits2 m2) = 2 ^ (Zdigits2 m1 - 1) * 2 ^ s).
      { rewrite <- Z.pow_add_r by (unfold s in *; lia). f_equal. unfold j. lia. }
      rewrite Z.pow_add_r in Hp by lia.
      assert (0 < 2 ^ j) by (apply Z.pow_pos_nonneg; lia).
      assert (0 < 2 ^ s) by (apply Z.pow_pos_nonneg; unfold s in *; lia).
      unfold a. nia. }
    apply Zdigits2_ge in Hq; [|lia]. unfold j, s in *. lia.
Qed.

Lemma SFdiv_finite m1 e1 m2 e2 :
  let e' := Z.min (fexp64 (Zdigits2 (Z.pos m1) + e1 - (Zdigits2 (Z.pos m2) + e2)))
              (e1 - e2) in
  let a := Z.pos m1 * 2 ^ (e1 - e2 - e') in
  let E := fexp64 (Zdigits2 (a / Z.pos m2) + e') in
  SFdiv prec emax (S754_finite false m1 e1) (S754_finite false m2 e2)
  = pack false (div_half_even a (2 ^ (E - e') * Z.pos m2)) E.
Proof.
  intros e' a E. cbn [SFdiv xorb].
  destruct (SFdiv_core_cut (Z.pos m1) e1 (Z.pos m2) e2 ltac:(lia) ltac:(lia))
    as [Hc He].
  fold e' in Hc, He. fold a in Hc, He. rewrite Hc.
  assert (0 < 2 ^ (e1 - e2 - e')) by (apply Z.pow_pos_nonneg; unfold e'; lia).
  apply binary_round_aux_pack; [unfold a; nia|lia|exact He].
Qed.

Lemma SFdiv_mono_finite m1 e1 m2 e2 mc ec :
  valid_binary (S754_finite false m1 e1) = true ->
  valid_binary (S754_finite false m2 e2) = true ->
  SFleb (S754_finite false m1 e1) (S754_finite false m2 e2) = true ->
  SFleb (SFdiv prec emax (S754_finite false m1 e1) (S754_finite false mc ec))
        (SFdiv prec emax (S754_finite false m2 e2) (S754_finite false mc ec))
  = true.
Proof.
  intros V1 V2 Hle. rewrite !SFdiv_finite. cbv zeta.
  destruct (SFdiv_core_cut (Z.pos m1) e1 (Z.pos mc) ec ltac:(lia) ltac:(lia))
    as [_ H1].
  destruct (SFdiv_core_cut (Z.pos m2) e2 (Z.pos mc) ec ltac:(lia) ltac:(lia))
    as [_ H2].
  cbv zeta in H1, H2.
  set (e1' := Z.min (fexp64 (Zdigits2 (Z.pos m1) + e1 - (Zdigits2 (Z.pos mc) + ec)))
                (e1 - ec)) in *.
  set (e2' := Z.min (fexp64 (Zdigits2 (Z.pos m2) + e2 - (Zdigits2 (Z.pos mc) + ec)))
                (e2 - ec)) in *.
  assert (Hs1 : 0 <= e1 - ec - e1') by (unfold e1'; lia).
  assert (Hs2 : 0 <= e2 - ec - e2') by (unfold e2'; lia).
  assert (0 < 2 ^ (e1 - ec - e1')) by (apply Z.pow_pos_nonneg; lia).
  assert (0 < 2 ^ (e2 - ec - e2')) by (apply Z.pow_pos_nonneg; lia).
  apply (round_mono _ _ _ _ _ _ (Z.min e1' e2')); try lia; try nia.
  pose proof (SFleb_value m1 e1 m2 e2 (Z.min e1' e2' + ec) V1 V2 Hle
                ltac:(lia) ltac:(lia)) as Hv.
  replace (e1 - (Z.min e1' e2' + ec))
    with ((e1 - ec - e1') + (e1' - Z.min e1' e2')) in Hv by lia.
  replace (e2 - (Z.min e1' e2' + ec))
    with ((e2 - ec - e2') + (e2' - Z.min e1' e2')) in Hv by lia.
  rewrite !Z.pow_add_r in Hv by lia.
  nia.
Qed.

(** ** Rounding to one decimal *)

Lemma tenths_eq m e :
  tenths m e
  = div_half_even (10 * Z.pos m * 2 ^ Z.max e 0) (2 ^ Z.max (- e) 0).
Proof.
  unfold tenths. destruct e as [|p|p].
  - cbn [Z.max Z.opp Z.compare]. now rewrite div_half_even_1.
  - replace (Z.max (- Z.pos p) 0) with 0 by lia.
    replace (Z.max (Z.pos p) 0) with (Z.pos p) by lia.
    now rewrite Z.pow_0_r, div_half_even_1.
  - replace (Z.max (- Z.neg p) 0) with (Z.pos p) by lia.
    replace (Z.max (Z.neg p) 0) with 0 by lia.
    now rewrite Z.pow_0_r, Z.mul_1_r.
Qed.

Lemma tenths_nonneg m e : 0 <= tenths m e.
Proof.
  rewrite tenths_eq.
  assert (0 < 2 ^ Z.max e 0) by (apply Z.pow_pos_nonneg; lia).
  assert (0 < 2 ^ Z.max (- e) 0) by (apply Z.pow_pos_nonneg; lia).
  apply div_half_even_ge; nia.
Qed.

Lemma tenths_mono m1 e1 m2 e2 :
  valid_binary (S754_finite false m1 e1) = true ->
  valid_binary (S754_finite false m2 e2) = true ->
  SFleb (S754_finite false m1 e1) (S754_finite false m2 e2) = true ->
  tenths m1 e1 <= tenths m2 e2.
Proof.
  intros V1 V2 Hle. rewrite !tenths_eq.
  pose proof (SFleb_value m1 e1 m2 e2 (Z.min e1 e2) V1 V2 Hle
                ltac:(lia) ltac:(lia)) as Hv.
  set (k := Z.min e1 e2) in *.
  set (x := Z.max (- e1) 0 + Z.max (- e2) 0 + k).
  assert (Hx : 0 <= x) by (unfold x, k; lia).
  assert (0 < 2 ^ x) by (apply Z.pow_pos_nonneg; lia).
  assert (H1 : 2 ^ Z.max e1 0 * 2 ^ Z.max (- e2) 0 = 2 ^ (e1 - k) * 2 ^ x).
  { rewrite <- !Z.pow_add_r by (unfold k; lia). f_equal. unfold x. lia. }
  assert (H2 : 2 ^ Z.max e2 0 * 2 ^ Z.max (- e1) 0 = 2 ^ (e2 - k) * 2 ^ x).
  { rewrite <- !Z.pow_add_r by (unfold k; lia). f_equal. unfold x. lia. }
  apply div_half_even_mono; try (apply Z.pow_pos_nonneg; lia).
  replace (10 * Z.pos m1 * 2 ^ Z.max e1 0 * 2 ^ Z.max (- e2) 0)
    with (10 * Z.pos m1 * (2 ^ Z.max e1 0 * 2 ^ Z.max (- e2) 0)) by ring.
  replace (10 * Z.pos m2 * 2 ^ Z.max e2 0 * 2 ^ Z.max (- e1) 0)
    with (10 * Z.pos m2 * (2 ^ Z.max e2 0 * 2 ^ Z.max (- e1) 0)) by ring.
  rewrite H1, H2. nia.
Qed.

Lemma of_tenths_pos n :
  0 < n ->
  let e' := Z.min (fexp64 (Zdigits2 n + 0 - (Zdigits2 10 + 0))) (0 - 0) in
  let a := n * 2 ^ (0 - 0 - e') in
  let E := fexp64 (Zdigits2 (a / 10) + e') in
  of_tenths false n = pack false (div_half_even a (2 ^ (E - e') * 10)) E
  /\ e' <= E /\ e' <= 0.
Proof.
  intros Hn e' a E. unfold of_tenths.
  destruct (SFdiv_core_cut n 0 10 0 Hn ltac:(lia)) as [Hc He].
  fold e' in Hc, He. fold a in Hc, He. rewrite Hc.
  assert (0 < 2 ^ (0 - 0 - e')) by (apply Z.pow_pos_nonneg; unfold e'; lia).
  split; [|split; [exact He|unfold e'; lia]].
  apply binary_round_aux_pack; [unfold a; nia|lia|exact He].
Qed.

Lemma of_tenths_nonneg n : 0 <= n -> nonneg (of_tenths false n) = true.
Proof.
  intros Hn. destruct (Z.eq_dec n 0) as [->|]; [reflexivity|].
  destruct (of_tenths_pos n ltac:(lia)) as [-> _]. apply nonneg_pack.
Qed.

Lemma of_tenths_valid n : 0 <= n -> valid_binary (of_tenths false n) = true.
Proof.
  intros Hn. destruct (Z.eq_dec n 0) as [->|]; [reflexivity|].
  unfold of_tenths.
  destruct (SFdiv_core_cut n 0 10 0 ltac:(lia) ltac:(lia)) as [Hc He].
  cbv zeta in Hc, He. rewrite Hc.
  set (e' := Z.min (fexp64 (Zdigits2 n + 0 - (Zdigits2 10 + 0))) (0 - 0)) in *.
  assert (0 < 2 ^ (0 - 0 - e')) by (apply Z.pow_pos_nonneg; unfold e'; lia).
  apply binary_round_aux_valid; [nia|lia|exact He].
Qed.

Lemma of_tenths_mono n1 n2 :
  0 <= n1 <= n2 -> SFleb (of_tenths false n1) (of_tenths false n2) = true.
Proof.
  intros Hn. destruct (Z.eq_dec n1 0) as [->|].
  - change (of_tenths false 0) with (S754_zero false).
    apply SFleb_zero_nonneg, of_tenths_nonneg. lia.
  - destruct (of_tenths_pos n1 ltac:(lia)) as (-> & H1 & H1').
    destruct (of_tenths_pos n2 ltac:(lia)) as (-> & H2 & H2').
    cbv zeta in *.
    set (e1' := Z.min (fexp64 (Zdigits2 n1 + 0 - (Zdigits2 10 + 0))) (0 - 0)) in *.
    set (e2' := Z.min (fexp64 (Zdigits2 n2 + 0 - (Zdigits2 10 + 0))) (0 - 0)) in *.
    assert (0 < 2 ^ (0 - 0 - e1')) by (apply Z.pow_pos_nonneg; lia).
    assert (0 < 2 ^ (0 - 0 - e2')) by (apply Z.pow_pos_nonneg; lia).
    apply (round_mono _ _ _ _ _ _ (Z.min e1' e2')); try lia; try nia.
    assert (P1 : 2 ^ (0 - 0 - e1') * 2 ^ (e1' - Z.min e1' e2')
                 = 2 ^ (- Z.min e1' e2')).
    { rewrite <- Z.pow_add_r by lia. f_equal. lia. }
    assert (P2 : 2 ^ (0 - 0 - e2') * 2 ^ (e2' - Z.min e1' e2')
                 = 2 ^ (- Z.min e1' e2')).
    { rewrite <- Z.pow_add_r by lia. f_equal. lia. }
    assert (0 < 2 ^ (- Z.min e1' e2')) by (apply Z.pow_pos_nonneg; lia).
    replace (n1 * 2 ^ (0 - 0 - e1') * 2 ^ (e1' - Z.min e1' e2') * 10)
      with (n1 * (2 ^ (0 - 0 - e1') * 2 ^ (e1' - Z.min e1' e2')) * 10) by ring.
    replace (n2 * 2 ^ (0 - 0 - e2') * 2 ^ (e2' - Z.min e1' e2') * 10)
      with (n2 * (2 ^ (0 - 0 - e2') * 2 ^ (e2' - Z.min e1' e2')) * 10) by ring.
    rewrite P1, P2. nia.
Qed.

End Rounding.

(** ** Increasing operations *)

Lemma positive_nonneg x : is_positive x = true -> nonneg x = true.
Proof. now destruct x as [[]|[]| |[] m e]. Qed.

Lemma SFleb_positive x y :
  is_positive x = true -> SFleb x y = true -> is_positive y = true.
Proof.
  destruct x as [[]|[]| |[] mx ex]; try discriminate;
    destruct y as [[]|[]| |[] my ey]; try discriminate; reflexivity.
Qed.

Lemma sf_increasing_intro (f : spec_float -> spec_float) :
  f (S754_zero false) = S754_zero false ->
  f (S754_infinity false) = S754_infinity false ->
  (forall m e, valid_binary (S754_finite false m e) = true ->
     nonneg (f (S754_finite false m e)) = true) ->
  (forall m1 e1 m2 e2,
     valid_binary (S754_finite false m1 e1) = true ->
     valid_binary (S754_finite false m2 e2) = true ->
     SFleb (S754_finite false m1 e1) (S754_finite false m2 e2) = true ->
     SFleb (f (S754_finite false m1 e1)) (f (S754_finite false m2 e2)) = true) ->
  sf_increasing f.
Proof.
  intros Hz Hi Hn Hm x1 x2 V1 V2 N1 N2 Hle.
  assert (Hf : forall x, valid_binary x = true -> nonneg x = true ->
                         nonneg (f x) = true).
  { intros [[]|[]| |[] m e] V N; try discriminate.
    - now rewrite Hz.
    - now rewrite Hi.
    - now apply Hn. }
  split; [now apply Hf|]. split; [now apply Hf|].
  destruct x1 as [[]|[]| |[] m1 e1]; try discriminate.
  - rewrite Hz. apply SFleb_zero_nonneg. now apply Hf.
  - destruct x2 as [[]|[]| |[] m2 e2]; try discriminate.
    rewrite Hi. reflexivity.
  - destruct x2 as [[]|[]| |[] m2 e2]; try discriminate.
    + rewrite Hi. apply SFleb_nonneg_infinity. now apply Hn.
    + now apply Hm.
Qed.

Lemma SFmul_nonneg m e mc ec :
  valid_binary (S754_finite false m e) = true ->
  valid_binary (S754_finite false mc ec) = true ->
  nonneg (SFmul prec emax (S754_finite false m e) (S754_finite false mc ec))
  = true.
Proof. intros V Vc. rewrite SFmul_finite by assumption. apply nonneg_pack. Qed.

Lemma sf_increasing_mul_r c :
  valid_binary c = true -> positive_finite c = true ->
  sf_increasing (fun x => SFmul prec emax x c).
Proof.
  intros Vc Hc. destruct c as [| | |[] mc ec]; try discriminate.
  apply sf_increasing_intro; try reflexivity.
  - intros m e V. now apply SFmul_nonneg.
  - intros m1 e1 m2 e2 V1 V2 Hle. now apply SFmul_mono_finite.
Qed.

Lemma sf_increasing_mul_l c :
  valid_binary c = true -> positive_finite c = true ->
  sf_increasing (fun x => SFmul prec emax c x).
Proof.
  intros Vc Hc. destruct c as [| | |[] mc ec]; try discriminate.
  apply sf_increasing_intro; try reflexivity.
  - intros m e V. rewrite SFmul_comm_finite. now apply SFmul_nonneg.
  - intros m1 e1 m2 e2 V1 V2 Hle.
    rewrite (SFmul_comm_finite mc ec m1 e1), (SFmul_comm_finite mc ec m2 e2).
    now apply SFmul_mono_finite.
Qed.

Lemma sf_increasing_div c :
  positive_finite c = true -> sf_increasing (fun x => SFdiv prec emax x c).
Proof.
  intros Hc. destruct c as [| | |[] mc ec]; try discriminate.
  apply sf_increasing_intro; try reflexivity.
  - intros m e V. rewrite SFdiv_finite. apply nonneg_pack.
  - intros m1 e1 m2 e2 V1 V2 Hle. now apply SFdiv_mono_finite.
Qed.

Lemma sf_increasing_round1 : sf_increasing sf_round1.
Proof.
  apply sf_increasing_intro; try reflexivity.
  - intros m e V. apply of_tenths_nonneg, tenths_nonneg.
  - intros m1 e1 m2 e2 V1 V2 Hle. cbn [sf_round1].
    apply of_tenths_mono. split; [apply tenths_nonneg|now apply tenths_mono].
Qed.

Lemma increasing_of_sf (F : float -> float) (f : spec_float -> spec_float) :
  (forall x, nonnegative x -> Prim2SF (F x) = f (Prim2SF x)) ->
  sf_increasing f -> increasing F.
Proof.
  intros HF Hf x1 x2 N1 N2 Hle. unfold nonnegative.
  rewrite leb_spec in *. rewrite !HF by assumption.
  apply Hf; trivial; apply Prim2SF_valid.
Qed.

Lemma increasing_compose (F G : float -> float) :
  increasing F -> increasing G -> increasing (fun x => G (F x)).
Proof.
  intros HF HG x1 x2 N1 N2 Hle.
  destruct (HF x1 x2 N1 N2 Hle) as (M1 & M2 & Hm). now apply HG.
Qed.

Lemma increasing_mul_r (c : float) :
  positive_finite (Prim2SF c) = true -> increasing (fun x => x * c).
Proof.
  intros Hc. apply (increasing_of_sf _ (fun x => SFmul prec emax x (Prim2SF c))).
  - intros x _. apply mul_spec.
  - apply sf_increasing_mul_r; [apply Prim2SF_valid|exact Hc].
Qed.

Lemma increasing_mul_l (c : float) :
  positive_finite (Prim2SF c) = true -> increasing (fun x => c * x).
Proof.
  intros Hc. apply (increasing_of_sf _ (fun x => SFmul prec emax (Prim2SF c) x)).
  - intros x _. apply mul_spec.
  - apply sf_increasing_mul_l; [apply Prim2SF_valid|exact Hc].
Qed.

Lemma increasing_div (c : float) :
  positive_finite (Prim2SF c) = true -> increasing (fun x => x / c).
Proof.
  intros Hc. apply (increasing_of_sf _ (fun x => SFdiv prec emax x (Prim2SF c))).
  - intros x _. apply div_spec.
  - now apply sf_increasing_div.
Qed.

Lemma round1_spec (x : float) :
  nonnegative x -> Prim2SF (round1 x) = sf_round1 (Prim2SF x).
Proof.
  unfold nonnegative, round1, sf_round1.
  destruct (Prim2SF x) as [s|s| |s m e] eqn:Hx; intros N; try exact Hx.
  destruct s; [discriminate|].
  apply Prim2SF_SF2Prim, of_tenths_valid, tenths_nonneg.
Qed.

Lemma increasing_round1 : increasing round1.
Proof.
  apply (increasing_of_sf _ sf_round1);
    [exact round1_spec|exact sf_increasing_round1].
Qed.

(** One output field as a function of the volume fraction. *)
Lemma increasing_scaled (baseline layup_factor manuf_factor : float) :
  positive_finite (Prim2SF baseline) = true ->
  positive_finite (Prim2SF layup_factor) = true ->
  positive_finite (Prim2SF manuf_factor) = true ->
  increasing (fun v => scaled baseline (v / 0.6 * layup_factor * manuf_factor)).
Proof.
  intros Hb Hl Hm. unfold scaled.
  apply (increasing_compose
           (fun v => baseline * (v / 0.6 * layup_factor * manuf_factor)) round1);
    [|exact increasing_round1].
  apply (increasing_compose (fun v => v / 0.6 * layup_factor * manuf_factor)
           (fun t => baseline * t)); [|now apply increasing_mul_l].
  apply (increasing_compose (fun v => v / 0.6 * layup_factor)
           (fun t => t * manuf_factor)); [|now apply increasing_mul_r].
  apply (increasing_compose (fun v => v / 0.6) (fun t => t * layup_factor));
    [|now apply increasing_mul_r].
  now apply increasing_div.
Qed.

Lemma leb_positive (lo x : float) :
  is_positive (Prim2SF lo) = true -> (lo <=? x) = true ->
  is_positive (Prim2SF x) = true.
Proof. rewrite leb_spec. apply SFleb_positive. Qed.

(** ** The output fields as functions of the volume fraction *)

Lemma factor_or_positive table name default :
  forallb (fun kv => is_positive_finite (snd kv)) table = true ->
  is_positive_finite default = true ->
  is_positive_finite (factor_or table name default) = true.
Proof.
  intros Ht Hd. unfold factor_or.
  destruct (dict_find name table) as [x|] eqn:Hx; [|exact Hd].
  apply dict_find_In in Hx.
  exact (proj1 (forallb_forall _ _) Ht _ Hx).
Qed.

Lemma catalog_positive :
  Forall (fun base =>
            Forall (fun kv => is_positive_finite (snd kv) = true) base)
         (records MATERIALS_DB).
Proof. repeat constructor. Qed.

Lemma row_positive ts tm cs fs fm ilss ie :
  Forall (fun kv => is_positive_finite (snd kv) = true)
         (row ts tm cs fs fm ilss ie) ->
  is_positive_finite ts = true /\ is_positive_finite tm = true
  /\ is_positive_finite cs = true /\ is_positive_finite fs = true
  /\ is_positive_finite fm = true /\ is_positive_finite ilss = true
  /\ is_positive_finite ie = true.
Proof.
  unfold row. intros H.
  repeat match goal with
  | H : Forall _ (_ :: _) |- _ => inversion H; clear H; subst
  end.
  repeat split; assumption.
Qed.

Lemma scaled_le baseline lf mf v1 v2 :
  is_positive_finite baseline = true ->
  is_positive_finite lf = true -> is_positive_finite mf = true ->
  (0.3 <=? v1) = true -> (v1 <=? v2) = true ->
  (scaled baseline (v1 / 0.6 * lf * mf) <=? scaled baseline (v2 / 0.6 * lf * mf))
  = true.
Proof.
  intros Hb Hl Hm H1 H12.
  assert (P1 : is_positive (Prim2SF v1) = true)
    by (apply (leb_positive 0.3); [reflexivity|exact H1]).
  assert (P2 : is_positive (Prim2SF v2) = true)
    by (apply (leb_positive v1); assumption).
  apply (increasing_scaled baseline lf mf Hb Hl Hm v1 v2);
    [now apply positive_nonneg|now apply positive_nonneg|exact H12].
Qed.

(** C6, amended: for fixed fiber type, matrix type, layup and
    manufacturing and volume fractions [0.3 <= v1 <= v2 <= 0.7], the
    predictor returns at both fractions the record [MATERIALS_DB] holds
    for the resolved fiber and matrix type, each field scaled by
    [v / 0.6] times the layup factor ([LAYUP_FACTORS], else 0.85) times
    the manufacturing factor ([MANUFACTURING_FACTORS], else 0.95) and
    rounded to one decimal, and every one of the seven fields at [v2]
    is greater than or equal to the field at [v1]. *)
Theorem fields_increase_with_volume_fraction
    (fiberType matrixType layup manufacturing : string) (v1 v2 : float) :
  (0.3 <=? v1) = true -> (v1 <=? v2) = true -> (v2 <=? 0.7) = true ->
  exists p1 p2 sub ts tm cs fs fm ilss ie,
    dict_find (resolved_fiber MATERIALS_DB fiberType) MATERIALS_DB = Some sub
    /\ dict_find (resolved_matrix sub matrixType) sub
       = Some (row ts tm cs fs fm ilss ie)
    /\ predict_properties (PStr fiberType) (PStr matrixType) v1
         (PStr layup) (PStr manufacturing) = ok p1
    /\ predict_properties (PStr fiberType) (PStr matrixType) v2
         (PStr layup) (PStr manufacturing) = ok p2
    /\ p1 = scale_record ts tm cs fs fm ilss ie
              (v1 / 0.6 * factor_or LAYUP_FACTORS layup 0.85
               * factor_or MANUFACTURING_FACTORS manufacturing 0.95)
    /\ p2 = scale_record ts tm cs fs fm ilss ie
              (v2 / 0.6 * factor_or LAYUP_FACTORS layup 0.85
               * factor_or MANUFACTURING_FACTORS manufacturing 0.95)
    /\ fields_le p1 p2.
Proof.
  intros H1 H12 _.
  destruct (base_properties_catalog fiberType matrixType)
    as (sub & base & Hs & Hm & (ts & tm & cs & fs & fm & ilss & ie & ->) & Hb).
  pose proof (proj1 (Forall_forall _ _) catalog_positive _
                (In_records _ _ _ _ _ Hs Hm)) as Hpos.
  apply row_positive in Hpos.
  destruct Hpos as (Pts & Ptm & Pcs & Pfs & Pfm & Pilss & Pie).
  set (lf := factor_or LAYUP_FACTORS layup 0.85).
  set (mf := factor_or MANUFACTURING_FACTORS manufacturing 0.95).
  assert (Plf : is_positive_finite lf = true)
    by (apply factor_or_positive; reflexivity).
  assert (Pmf : is_positive_finite mf = true)
    by (apply factor_or_positive; reflexivity).
  exists (scale_record ts tm cs fs fm ilss ie (v1 / 0.6 * lf * mf)),
         (scale_record ts tm cs fs fm ilss ie (v2 / 0.6 * lf * mf)),
         sub, ts, tm, cs, fs, fm, ilss, ie.
  split; [exact Hs|]. split; [exact Hm|].
  split; [exact (predict_properties_row _ _ v1 _ _ _ _ _ _ _ _ _ Hb)|].
  split; [exact (predict_properties_row _ _ v2 _ _ _ _ _ _ _ _ _ Hb)|].
  split; [reflexivity|]. split; [reflexivity|].
  unfold fields_le, scale_record.
  cbn [tensile_strength_MPa tensile_modulus_GPa compressive_strength_MPa
       flexural_strength_MPa flexural_modulus_GPa ILSS_MPa impact_energy_J].
  repeat split; apply scaled_le; assumption.
Qed.

Lemma fields_increase_with_volume_fraction_example :
  exists p1 p2 sub ts tm cs fs fm ilss ie,
    dict_find (resolved_fiber MATERIALS_DB "Glass") MATERIALS_DB = Some sub
    /\ dict_find (resolved_matrix sub "PEEK") sub
       = Some (row ts tm cs fs fm ilss ie)
    /\ predict_properties (PStr "Glass") (PStr "PEEK") 0.4
         (PStr "Woven") (PStr "RTM") = ok p1
    /\ predict_properties (PStr "Glass") (PStr "PEEK") 0.55
         (PStr "Woven") (PStr "RTM") = ok p2
    /\ p1 = scale_record ts tm cs fs fm ilss ie
              (0.4 / 0.6 * factor_or LAYUP_FACTORS "Woven" 0.85
               * factor_or MANUFACTURING_FACTORS "RTM" 0.95)
    /\ p2 = scale_record ts tm cs fs fm ilss ie
              (0.55 / 0.6 * factor_or LAYUP_FACTORS "Woven" 0.85
               * factor_or MANUFACTURING_FACTORS "RTM" 0.95)
    /\ fields_le p1 p2.
Proof.
  apply (fields_increase_with_volume_fraction "Glass" "PEEK" "Woven" "RTM"
           0.4 0.55); reflexivity.
Defined.

(** Two volume fractions in range, the second strictly larger, give the
    same seven fields: rounding to one decimal hides the difference, so
    no field is strictly greater. *)
Lemma nearby_volume_fractions_give_equal_fields :
  (0.3 <=? 0.6) = true /\ (0.6 <? 0.6000001) = true
  /\ (0.6000001 <=? 0.7) = true
  /\ exists p1 p2,
       predict_properties (PStr "Carbon") (PStr "Epoxy") 0.6
         (PStr "UD 0°") (PStr "Autoclave") = ok p1
       /\ predict_properties (PStr "Carbon") (PStr "Epoxy") 0.6000001
            (PStr "UD 0°") (PStr "Autoclave") = ok p2
       /\ p1 = p2
       /\ (tensile_strength_MPa p1 <? tensile_strength_MPa p2) = false
       /\ (tensile_modulus_GPa p1 <? tensile_modulus_GPa p2) = false
       /\ (compressive_strength_MPa p1 <? compressive_strength_MPa p2) = false
       /\ (flexural_strength_MPa p1 <? flexural_strength_MPa p2) = false
       /\ (flexural_modulus_GPa p1 <? flexural_modulus_GPa p2) = false
       /\ (ILSS_MPa p1 <? ILSS_MPa p2) = false
       /\ (impact_energy_J p1 <? impact_energy_J p2) = false.
Proof.
  split; [reflexivity|]. split; [reflexivity|]. split; [reflexivity|].
  pose (p := {| tensile_strength_MPa := 1500; tensile_modulus_GPa := 130;
                compressive_strength_MPa := 1200;
                flexural_strength_MPa := 1400; flexural_modulus_GPa := 125;
                ILSS_MPa := 75; impact_energy_J := 18 |}).
  exists p, p. split; [vm_compute; reflexivity|].
  split; [vm_compute; reflexivity|]. split; [reflexivity|].
  repeat (split; [reflexivity|]). reflexivity.
Qed.

(** * Properties of the handlers *)

(** ** The range test *)

Lemma SFltb_SFleb_false (x y : spec_float) :
  SFltb x y = true -> SFleb y x = false.
Proof.
  unfold SFltb, SFleb.
  destruct x as [sx|sx| |sx mx ex], y as [sy|sy| |sy my ey]; cbn [SFcompare];
    try discriminate; try (destruct sx; discriminate);
    try (destruct sy; discriminate);
    try (destruct sx, sy; (discriminate || reflexivity)).
  assert (Hm : Pos.compare_cont Eq my mx = CompOpp (Pos.compare_cont Eq mx my))
    by (now rewrite Pos.compare_cont_antisym).
  destruct sx, sy; try (discriminate || reflexivity);
    rewrite (Z.compare_antisym ex ey), Hm;
    destruct (ex ?= ey)%Z; cbn [CompOpp]; try (discriminate || reflexivity);
    destruct (Pos.compare_cont Eq mx my); cbn [CompOpp];
    (discriminate || reflexivity).
Qed.

Lemma ltb_leb_false (x y : float) : (x <? y) = true -> (y <=? x) = false.
Proof. rewrite ltb_spec, leb_spec. apply SFltb_SFleb_false. Qed.

(** A value below 0.3 or above 0.7 fails the range test of [predict]. *)
Lemma outside_range (v : float) :
  (v <? 0.3) = true \/ (0.7 <? v) = true ->
  (0.3 <=? v) && (v <=? 0.7) = false.
Proof.
  intros [H|H]; apply ltb_leb_false in H; rewrite H;
    [reflexivity|apply andb_false_r].
Qed.

Section HandlerFacts.

Variable str_to_float : string -> option float.

(** ** The single-prediction handler, case by case *)

Lemma predict_unreadable kv e :
  read_vf str_to_float kv = raise e ->
  predict str_to_float (PDict kv)
  = ({| status := match e with ValueError => 400 | _ => 500 end;
        payload := Failure (match e with
                            | ValueError => InvalidInput ValueError
                            | _ => Text "Internal server error"
                            end) |}, []).
Proof.
  unfold read_vf, get_or, predict, predict_body, hbind, hlift, attr_get.
  intros Hv. cbv [ok raise] in *. cbv beta iota. rewrite Hv. now destruct e.
Qed.

Lemma predict_out_of_range kv v :
  read_vf str_to_float kv = ok v ->
  (0.3 <=? v) && (v <=? 0.7) = false ->
  predict str_to_float (PDict kv)
  = ({| status := 400; payload := Failure (Text VF_MESSAGE) |}, []).
Proof.
  unfold read_vf, get_or, predict, predict_body, hbind, hlift, attr_get.
  intros Hv Hr. cbv [ok] in *. cbv beta iota. now rewrite Hv, Hr.
Qed.

Lemma predict_in_range kv v :
  read_vf str_to_float kv = ok v ->
  (0.3 <=? v) && (v <=? 0.7) = true ->
  predict str_to_float (PDict kv)
  = (match run_call (call_of kv v) with
     | inr p =>
         {| status := 200;
            payload := Predicted (get_or kv "fiber_type" (PStr "Carbon"))
                         (get_or kv "matrix_type" (PStr "Epoxy")) v
                         (get_or kv "layup" (PStr "UD 0°"))
                         (get_or kv "manufacturing" (PStr "Autoclave")) p |}
     | inl ValueError =>
         {| status := 400; payload := Failure (InvalidInput ValueError) |}
     | inl _ =>
         {| status := 500; payload := Failure (Text "Internal server error") |}
     end, [call_of kv v]).
Proof.
  unfold read_vf, get_or, predict, predict_body, hbind, hlift, attr_get,
    call_predict_properties, run_call, call_of.
  cbn [call_fiber_type call_matrix_type call_fiber_vf call_layup
       call_manufacturing].
  intros Hv Hr. cbv [ok] in *. cbv beta iota. rewrite Hv, Hr.
  cbn [negb app].
  destruct (predict_properties _ _ _ _ _) as [[]|p]; reflexivity.
Qed.

(** ** One batch item *)

Lemma batch_item_unreadable kv e tr :
  read_vf str_to_float kv = raise e -> batch_item str_to_float (PDict kv) tr = (raise e, tr).
Proof.
  unfold read_vf, get_or, batch_item, hbind, hlift, attr_get.
  intros Hv. cbv [ok raise] in *. cbv beta iota. now rewrite Hv.
Qed.

Lemma batch_item_readable kv v tr :
  read_vf str_to_float kv = ok v ->
  batch_item str_to_float (PDict kv) tr = (run_call (call_of kv v), (tr ++ [call_of kv v])%list).
Proof.
  unfold read_vf, get_or, batch_item, hbind, hlift, attr_get,
    call_predict_properties.
  intros Hv. cbv [ok raise] in *. cbv beta iota. now rewrite Hv.
Qed.

(** A sample that is no object has no [get]. *)
Lemma batch_item_no_object sample tr :
  (forall kv, sample <> PDict kv) ->
  batch_item str_to_float sample tr = (raise AttributeError, tr).
Proof.
  intros H. destruct sample; try reflexivity. now destruct (H kv).
Qed.

(** ** The batch loop *)

Lemma batch_item_frame sample tr :
  batch_item str_to_float sample tr
  = (fst (batch_item str_to_float sample []), (tr ++ item_calls str_to_float sample)%list).
Proof.
  unfold item_calls.
  destruct sample as [| | | | | |kv];
    try (rewrite !batch_item_no_object by discriminate; cbn [fst snd];
         now rewrite app_nil_r).
  destruct (read_vf str_to_float kv) as [e|v] eqn:Hv.
  - rewrite !(batch_item_unreadable kv e) by exact Hv. cbn [fst snd].
    now rewrite app_nil_r.
  - rewrite !(batch_item_readable kv v) by exact Hv. reflexivity.
Qed.

Lemma batch_loop_reports samples : forall index results tr,
  batch_loop str_to_float index samples results tr
  = ((results ++ reports str_to_float index samples)%list,
     (tr ++ flat_map (item_calls str_to_float) samples)%list).
Proof.
  induction samples as [|sample rest IH]; intros index results tr.
  - cbn [batch_loop reports flat_map]. now rewrite !app_nil_r.
  - cbn [batch_loop reports flat_map]. rewrite batch_item_frame.
    unfold item_report.
    destruct (fst (batch_item str_to_float sample [])) as [e|p];
      rewrite IH, <- !app_assoc; reflexivity.
Qed.

Lemma reports_length samples : forall index,
  List.length (reports str_to_float index samples) = List.length samples.
Proof.
  induction samples as [|sample rest IH]; intros index; cbn [reports List.length];
    [reflexivity|now rewrite IH].
Qed.

Lemma reports_nth samples : forall index i sample,
  nth_error samples i = Some sample ->
  nth_error (reports str_to_float index samples) i = Some (item_report str_to_float (index + i) sample).
Proof.
  induction samples as [|s rest IH]; intros index [|i] sample; cbn [nth_error reports];
    try discriminate.
  - intros [= ->]. now rewrite Nat.add_0_r.
  - intros H. rewrite (IH (S index) i sample H).
    now rewrite Nat.add_succ_r.
Qed.

(** The batch handler on a non-empty list of samples. *)
Lemma predict_batch_list kv samples :
  dict_find "samples" kv = Some (PList samples) ->
  samples <> [] ->
  predict_batch str_to_float (PDict kv)
  = ({| status := 200;
        payload := Batch (List.length samples) (reports str_to_float 0 samples) |},
     flat_map (item_calls str_to_float) samples).
Proof.
  intros Hs Hne.
  unfold predict_batch, predict_batch_body, hbind, hlift, attr_get.
  rewrite Hs. cbv [ok]. cbv beta iota.
  destruct samples as [|s rest]; [now destruct Hne|].
  cbn [truthy negb py_iter]. cbv [ok]. cbv beta iota.
  rewrite batch_loop_reports. cbn [app].
  now rewrite reports_length.
Qed.

Lemma item_report_unreadable index kv e :
  read_vf str_to_float kv = raise e ->
  item_report str_to_float index (PDict kv) = ItemFailed index (PDict kv) (StrOf e).
Proof.
  intros Hv. unfold item_report.
  now rewrite (batch_item_unreadable kv e [] Hv).
Qed.

Lemma item_report_readable index kv v p :
  read_vf str_to_float kv = ok v -> run_call (call_of kv v) = ok p ->
  item_report str_to_float index (PDict kv) = ItemPredicted index (PDict kv) p.
Proof.
  intros Hv Hp. unfold item_report.
  rewrite (batch_item_readable kv v [] Hv). cbn [fst]. now rewrite Hp.
Qed.

Lemma item_calls_readable kv v :
  read_vf str_to_float kv = ok v -> item_calls str_to_float (PDict kv) = [call_of kv v].
Proof.
  intros Hv. unfold item_calls. now rewrite (batch_item_readable kv v [] Hv).
Qed.

(** When [float()] reads the request's [fiber_volume_fraction] as a
    value that is not within [0.3, 0.7] (below, above or no number),
    the handler answers 400 with the range message and the predictor is
    not called. *)
Lemma out_of_range_is_rejected (kv : list (string * pyval)) (v : float) :
  read_vf str_to_float kv = ok v ->
  between 0.3 0.7 v = false ->
  predict str_to_float (PDict kv)
  = ({| status := 400;
        payload := Failure
          (Text "Fiber volume fraction must be between 0.3 and 0.7") |},
     []).
Proof. exact (predict_out_of_range kv v). Qed.

End HandlerFacts.

(** ** The handlers on concrete bodies *)

Lemma out_of_range_is_rejected_example :
  predict no_numeric_strings (PDict [("fiber_volume_fraction", PFloat 0.25)])
  = ({| status := 400; payload := Failure (Text VF_MESSAGE) |}, [])
  /\ predict no_numeric_strings (PDict [("fiber_volume_fraction", PFloat 0.85)])
     = ({| status := 400; payload := Failure (Text VF_MESSAGE) |}, [])
  /\ predict no_numeric_strings (PDict [("fiber_volume_fraction", PFloat nan)])
     = ({| status := 400; payload := Failure (Text VF_MESSAGE) |}, []).
Proof.
  split; [|split].
  - apply (out_of_range_is_rejected no_numeric_strings _ 0.25); reflexivity.
  - apply (out_of_range_is_rejected no_numeric_strings _ 0.85); reflexivity.
  - apply (out_of_range_is_rejected no_numeric_strings _ nan); reflexivity.
Defined.

(** C7: the request whose [fiber_volume_fraction] is the integer
    10^400 is outside [0.3, 0.7], yet it is answered with 500 and
    "Internal server error": [float()] raises [OverflowError] before
    the range test, and only [ValueError] is answered with 400. The
    predictor is not called. The same magnitude as a float, which is
    read as infinity, is answered with 400 and the range message, and a
    string [float()] cannot read with 400 and "Invalid input". *)
Lemma huge_integer_is_a_server_error :
  (1 < 10 ^ 400)%Z
  /\ predict no_numeric_strings
       (PDict [("fiber_volume_fraction", PInt (10 ^ 400))])
     = ({| status := 500; payload := Failure (Text "Internal server error") |},
        [])
  /\ predict no_numeric_strings
       (PDict [("fiber_volume_fraction", PFloat infinity)])
     = ({| status := 400; payload := Failure (Text VF_MESSAGE) |}, [])
  /\ predict no_numeric_strings
       (PDict [("fiber_volume_fraction", PStr "abc")])
     = ({| status := 400; payload := Failure (InvalidInput ValueError) |}, []).
Proof.
  split; [reflexivity|]. split; [vm_compute; reflexivity|].
  split; reflexivity.
Qed.

(** * The predictor on arbitrary values *)

(** ** Lookups with a key of any type *)

Lemma py_find_hashable {V} (k : pyval) (d : list (string * V)) :
  hashable k = true ->
  py_find k d = ok (match k with PStr s => dict_find s d | _ => None end).
Proof. now destruct k. Qed.

Lemma py_find_unhashable {V} (k : pyval) (d : list (string * V)) :
  hashable k = false -> py_find k d = raise TypeError.
Proof. now destruct k. Qed.

Lemma py_find_unknown {V} (k : pyval) (d : list (string * V)) :
  unknown_key k d = true -> py_find k d = ok None.
Proof.
  destruct k; try reflexivity; try discriminate.
  cbn [unknown_key py_find]. unfold is_key.
  now destruct (dict_find s d).
Qed.

Lemma py_get_unknown {V} (d : list (string * V)) (k : pyval) (default : V) :
  unknown_key k d = true -> py_get d k default = ok default.
Proof. intros H. unfold py_get. now rewrite (py_find_unknown k d H). Qed.

Lemma py_get_hashable {V} (d : list (string * V)) (k : pyval) (default : V) :
  hashable k = true ->
  exists x, py_get d k default = ok x /\ In x (default :: map snd d).
Proof.
  intros H. unfold py_get. rewrite (py_find_hashable k d H).
  cbn [rbind ok].
  destruct k; try (eexists; split; [reflexivity|now left]).
  destruct (dict_find s d) as [x|] eqn:Hx;
    (eexists; split; [reflexivity|]); [right|now left].
  apply dict_find_In in Hx. exact (in_map snd d (s, x) Hx).
Qed.

(** ** Record selection *)

(** A fiber type the catalog does not list, of whatever type, selects
    the records of Carbon. *)
Lemma base_properties_unknown_fiber (db : catalog) (f m : pyval) :
  unknown_key f db = true ->
  base_properties db f m = base_properties db (PStr "Carbon") m.
Proof.
  intros Hf. unfold base_properties, py_in.
  rewrite (py_find_unknown f db Hf), py_find_str. cbn [rbind ok].
  now destruct (dict_find "Carbon" db).
Qed.

(** A value that is no string is no key of any table. *)
Lemma unknown_key_no_string {V} (k : pyval) (d : list (string * V)) :
  hashable k = true -> (forall s, k <> PStr s) -> unknown_key k d = true.
Proof. intros Hh Hs. destruct k; try reflexivity; try discriminate. now destruct (Hs s). Qed.

(** A matrix type that is hashable but no string selects what Epoxy
    selects. *)
Lemma base_properties_no_string_matrix (db : catalog) (f : string) (m : pyval) :
  hashable m = true -> (forall s, m <> PStr s) ->
  base_properties db (PStr f) m = base_properties db (PStr f) (PStr "Epoxy").
Proof.
  intros Hh Hs.
  destruct m; try discriminate; try (now destruct (Hs s));
    unfold base_properties, py_in, py_get, py_getitem;
    cbn [py_find rbind ok raise];
    (destruct (dict_find f db) as [sub|] eqn:Hf; cbn [py_find rbind ok raise];
     [rewrite Hf|]; cbn [rbind ok raise];
     (destruct (dict_find "Carbon" db) as [carbon|]; cbn [rbind ok raise];
      [destruct (dict_find "Epoxy" carbon) as [ce|] eqn:He;
       cbn [rbind ok raise]; rewrite ?He|]));
    try reflexivity;
    cbn [py_find rbind ok raise]; rewrite ?He; try reflexivity;
    match goal with
    | |- context [dict_find "Epoxy" ?d] =>
        destruct (dict_find "Epoxy" d) eqn:Hx
    end;
    cbn [py_find rbind ok raise]; rewrite ?Hx; reflexivity.
Qed.

(** On the shipped catalog every pair of hashable values selects one of
    the 25 records. *)
Lemma base_properties_hashable (f m : pyval) :
  hashable f = true -> hashable m = true ->
  exists base,
    base_properties MATERIALS_DB f m = ok base
    /\ In base (records MATERIALS_DB).
Proof.
  intros Hf Hm.
  assert (Hs : forall (s : string) m', hashable m' = true ->
            exists base, base_properties MATERIALS_DB (PStr s) m' = ok base
                         /\ In base (records MATERIALS_DB)).
  { intros s m' Hm'.
    assert (Hss : forall s', exists base,
              base_properties MATERIALS_DB (PStr s) (PStr s') = ok base
              /\ In base (records MATERIALS_DB)).
    { intros s'.
      destruct (base_properties_catalog s s') as (sub & base & H1 & H2 & _ & Hb).
      exists base. split; [exact Hb|exact (In_records _ _ _ _ _ H1 H2)]. }
    destruct m'; try discriminate; try apply Hss;
      (rewrite base_properties_no_string_matrix;
       [apply Hss|reflexivity|discriminate]). }
  destruct f; try discriminate; try (now apply Hs);
    (rewrite base_properties_unknown_fiber; [now apply Hs|reflexivity]).
Qed.

(** A fiber or matrix type that cannot be hashed makes the selection
    raise [TypeError]. *)
Lemma base_properties_unhashable (f m : pyval) :
  hashable f && hashable m = false ->
  base_properties MATERIALS_DB f m = raise TypeError.
Proof.
  intros H. unfold base_properties, py_in.
  destruct (hashable f) eqn:Hf; [|now rewrite (py_find_unhashable f _ Hf)].
  cbn [andb] in H.
  rewrite (py_find_hashable f _ Hf). cbn [rbind ok].
  unfold py_get.
  destruct f; try discriminate; cbn [py_find rbind ok];
    try (now rewrite (py_find_unhashable m _ H)).
  destruct (dict_find s MATERIALS_DB) as [sub|] eqn:Hs;
    cbn [py_find rbind ok]; rewrite ?Hs; cbn [rbind ok];
    now rewrite (py_find_unhashable m _ H).
Qed.

(** ** The predictor *)

(** What the predictor returns on hashable arguments. *)
Lemma predict_properties_shape (f m : pyval) (v : float) (l mf : pyval) :
  hashable f = true -> hashable m = true ->
  hashable l = true -> hashable mf = true ->
  exists ts tm cs fs fm ilss ie lf mff,
    In (row ts tm cs fs fm ilss ie) (records MATERIALS_DB)
    /\ In lf (factor_values LAYUP_FACTORS 0.85)
    /\ In mff (factor_values MANUFACTURING_FACTORS 0.95)
    /\ predict_properties f m v l mf
       = ok (scale_record ts tm cs fs fm ilss ie (v / 0.6 * lf * mff)).
Proof.
  intros Hf Hm Hl Hmf.
  destruct (base_properties_hashable f m Hf Hm) as (base & Hb & Hin).
  destruct (proj1 (Forall_forall _ _) catalog_rows _ Hin)
    as (ts & tm & cs & fs & fm & ilss & ie & ->).
  destruct (py_get_hashable LAYUP_FACTORS l 0.85 Hl) as (lf & El & Il).
  destruct (py_get_hashable MANUFACTURING_FACTORS mf 0.95 Hmf)
    as (mff & Em & Im).
  exists ts, tm, cs, fs, fm, ilss, ie, lf, mff.
  split; [exact Hin|]. split; [exact Il|]. split; [exact Im|].
  unfold predict_properties. rewrite Hb, El, Em. reflexivity.
Qed.

Lemma predict_properties_unhashable (f m : pyval) (v : float) (l mf : pyval) :
  hashable f && hashable m && hashable l && hashable mf = false ->
  predict_properties f m v l mf = raise TypeError.
Proof.
  intros H. unfold predict_properties.
  destruct (hashable f && hashable m) eqn:Hfm;
    [|now rewrite (base_properties_unhashable f m Hfm)].
  apply andb_prop in Hfm. destruct Hfm as [Hf Hm].
  destruct (base_properties_hashable f m Hf Hm) as (base & -> & _).
  cbn [rbind ok andb] in *. unfold py_get.
  destruct (hashable l) eqn:Hl; [|now rewrite (py_find_unhashable l _ Hl)].
  cbn [andb] in H.
  rewrite (py_find_hashable l _ Hl). cbn [rbind ok].
  now rewrite (py_find_unhashable mf _ H).
Qed.

(** X1: on arbitrary JSON values the predictor returns a record exactly
    when its four categorical arguments can be hashed: one of the 25
    catalog records, scaled by the volume fraction over 0.6 and by a
    layup and a manufacturing factor that are table entries or the
    defaults 0.85 and 0.95. When one of the four is a list or an object
    it raises [TypeError], and it raises nothing else. *)
Theorem predict_properties_fails_only_on_unhashable
    (fiber_type matrix_type : pyval) (fiber_vf : float)
    (layup manufacturing : pyval) :
  if hashable fiber_type && hashable matrix_type
     && hashable layup && hashable manufacturing
  then exists ts tm cs fs fm ilss ie layup_factor manuf_factor,
         In (row ts tm cs fs fm ilss ie) (records MATERIALS_DB)
         /\ In layup_factor (factor_values LAYUP_FACTORS 0.85)
         /\ In manuf_factor (factor_values MANUFACTURING_FACTORS 0.95)
         /\ predict_properties fiber_type matrix_type fiber_vf
              layup manufacturing
            = ok (scale_record ts tm cs fs fm ilss ie
                    (fiber_vf / 0.6 * layup_factor * manuf_factor))
  else predict_properties fiber_type matrix_type fiber_vf layup manufacturing
       = raise TypeError.
Proof.
  destruct (hashable fiber_type && hashable matrix_type
            && hashable layup && hashable manufacturing) eqn:H.
  - apply andb_prop in H. destruct H as [H Hmf].
    apply andb_prop in H. destruct H as [H Hl].
    apply andb_prop in H. destruct H as [Hf Hm].
    now apply predict_properties_shape.
  - now apply predict_properties_unhashable.
Qed.

(** X2: a layup the table does not list, of whatever hashable type, is
    predicted as [0/90]2s, and an unlisted manufacturing process as
    VARTM: the defaults 0.85 and 0.95 of the predictor are the factors
    of these two entries, not those of UD 0° and Autoclave. *)
Theorem unlisted_layup_and_process
    (fiber_type matrix_type : pyval) (fiber_vf : float)
    (layup manufacturing : pyval) :
  (unknown_key layup LAYUP_FACTORS = true ->
   predict_properties fiber_type matrix_type fiber_vf layup manufacturing
   = predict_properties fiber_type matrix_type fiber_vf
       (PStr "[0/90]2s") manufacturing)
  /\ (unknown_key manufacturing MANUFACTURING_FACTORS = true ->
      predict_properties fiber_type matrix_type fiber_vf layup manufacturing
      = predict_properties fiber_type matrix_type fiber_vf
          layup (PStr "VARTM")).
Proof.
  split; intros H; unfold predict_properties.
  - now rewrite (py_get_unknown LAYUP_FACTORS layup 0.85 H).
  - now rewrite (py_get_unknown MANUFACTURING_FACTORS manufacturing 0.95 H).
Qed.

Lemma unlisted_layup_and_process_example :
  unknown_key (PStr "Triaxial") LAYUP_FACTORS = true
  /\ unknown_key PNone MANUFACTURING_FACTORS = true
  /\ predict_properties (PStr "Glass") (PStr "PEEK") 0.5
       (PStr "Triaxial") PNone
     = predict_properties (PStr "Glass") (PStr "PEEK") 0.5
         (PStr "[0/90]2s") PNone
  /\ predict_properties (PStr "Glass") (PStr "PEEK") 0.5
       (PStr "Triaxial") PNone
     = predict_properties (PStr "Glass") (PStr "PEEK") 0.5
         (PStr "Triaxial") (PStr "VARTM").
Proof.
  split; [reflexivity|]. split; [reflexivity|].
  split;
    [apply (proj1 (unlisted_layup_and_process (PStr "Glass") (PStr "PEEK") 0.5
                     (PStr "Triaxial") PNone))
    |apply (proj2 (unlisted_layup_and_process (PStr "Glass") (PStr "PEEK") 0.5
                     (PStr "Triaxial") PNone))];
    reflexivity.
Defined.

(** * Bounds on the predicted fields *)

(** ** The order of floats *)

Lemma SFleb_finite_iff (m1 : positive) (e1 : Z) (m2 : positive) (e2 : Z) :
  SFleb (S754_finite false m1 e1) (S754_finite false m2 e2) = true
  <-> (e1 < e2 \/ (e1 = e2 /\ (m1 <= m2)%positive))%Z.
Proof.
  split; [|apply SFleb_finite].
  unfold SFleb. cbn [SFcompare].
  destruct (e1 ?= e2)%Z eqn:He; try discriminate.
  - apply Z.compare_eq_iff in He.
    change (Pos.compare_cont Eq m1 m2) with (m1 ?= m2)%positive.
    intros H. right. split; [exact He|].
    apply Pos.compare_le_iff. intros Hgt. now rewrite Hgt in H.
  - apply Z.compare_lt_iff in He. intros _. now left.
Qed.

Lemma SFleb_trans_nonneg (x y z : spec_float) :
  nonneg x = true -> nonneg y = true -> nonneg z = true ->
  SFleb x y = true -> SFleb y z = true -> SFleb x z = true.
Proof.
  destruct x as [[]|[]| |[] mx ex]; try discriminate;
    destruct y as [[]|[]| |[] my ey]; try discriminate;
    destruct z as [[]|[]| |[] mz ez]; try discriminate;
    intros _ _ _; try reflexivity; try discriminate.
  rewrite !SFleb_finite_iff. lia.
Qed.

Lemma SFleb_refl_nonneg (x : spec_float) :
  nonneg x = true -> SFleb x x = true.
Proof.
  destruct x as [[]|[]| |[] m e]; try discriminate; intros _;
    try reflexivity.
  apply SFleb_finite_iff. lia.
Qed.

Lemma leb_trans (x y z : float) :
  nonnegative x -> nonnegative y -> nonnegative z ->
  (x <=? y) = true -> (y <=? z) = true -> (x <=? z) = true.
Proof. unfold nonnegative. rewrite !leb_spec. apply SFleb_trans_nonneg. Qed.

Lemma leb_refl (x : float) : nonnegative x -> (x <=? x) = true.
Proof. unfold nonnegative. rewrite leb_spec. apply SFleb_refl_nonneg. Qed.

Lemma positive_finite_nonnegative (x : float) :
  is_positive_finite x = true -> nonnegative x.
Proof.
  unfold is_positive_finite, nonnegative.
  now destruct (Prim2SF x) as [[]|[]| |[] m e].
Qed.

(** ** Intervals with positive finite ends *)

Lemma between_positive_finite (lo hi x : float) :
  is_positive_finite lo = true -> is_positive_finite hi = true ->
  between lo hi x = true -> is_positive_finite x = true.
Proof.
  unfold is_positive_finite, between. rewrite andb_true_iff, !leb_spec.
  destruct (Prim2SF lo) as [[]|[]| |[] ml el]; try discriminate;
    destruct (Prim2SF hi) as [[]|[]| |[] mh eh]; try discriminate;
    destruct (Prim2SF x) as [[]|[]| |[] m e]; intros _ _ [H1 H2];
    try discriminate; reflexivity.
Qed.

Lemma between_intro (lo hi x : float) :
  (lo <=? x) = true -> (x <=? hi) = true -> between lo hi x = true.
Proof. intros H1 H2. unfold between. now rewrite H1, H2. Qed.

Lemma between_elim (lo hi x : float) :
  between lo hi x = true -> (lo <=? x) = true /\ (x <=? hi) = true.
Proof. unfold between. now rewrite andb_true_iff. Qed.

(** The product is increasing in both factors. *)
Lemma mul_mono (x1 x2 y1 y2 : float) :
  nonnegative x1 -> is_positive_finite x2 = true ->
  is_positive_finite y1 = true -> nonnegative y2 ->
  (x1 <=? x2) = true -> (y1 <=? y2) = true ->
  nonnegative (x1 * y1) /\ nonnegative (x2 * y2)
  /\ (x1 * y1 <=? x2 * y2) = true.
Proof.
  intros Nx1 Px2 Py1 Ny2 Hx Hy.
  pose proof (positive_finite_nonnegative x2 Px2) as Nx2.
  pose proof (positive_finite_nonnegative y1 Py1) as Ny1.
  destruct (increasing_mul_r y1 Py1 x1 x2 Nx1 Nx2 Hx) as (A1 & A2 & A3).
  destruct (increasing_mul_l x2 Px2 y1 y2 Ny1 Ny2 Hy) as (B1 & B2 & B3).
  split; [exact A1|]. split; [exact B2|].
  exact (leb_trans _ _ _ A1 A2 B2 A3 B3).
Qed.

Lemma mul_between (lo1 hi1 lo2 hi2 x y : float) :
  is_positive_finite lo1 = true -> is_positive_finite hi1 = true ->
  is_positive_finite lo2 = true -> is_positive_finite hi2 = true ->
  between lo1 hi1 x = true -> between lo2 hi2 y = true ->
  between (lo1 * lo2) (hi1 * hi2) (x * y) = true.
Proof.
  intros L1 H1 L2 H2 Bx By.
  pose proof (between_positive_finite _ _ _ L1 H1 Bx) as Px.
  pose proof (between_positive_finite _ _ _ L2 H2 By) as Py.
  apply between_elim in Bx, By. destruct Bx as [Bx1 Bx2], By as [By1 By2].
  apply between_intro.
  - apply (mul_mono lo1 x lo2 y); trivial;
      now apply positive_finite_nonnegative.
  - apply (mul_mono x hi1 y hi2); trivial;
      now apply positive_finite_nonnegative.
Qed.

Lemma increasing_between (F : float -> float) (lo hi x : float) :
  increasing F ->
  is_positive_finite lo = true -> is_positive_finite hi = true ->
  between lo hi x = true -> between (F lo) (F hi) (F x) = true.
Proof.
  intros HF L H B.
  pose proof (between_positive_finite _ _ _ L H B) as Px.
  apply between_elim in B. destruct B as [B1 B2].
  apply positive_finite_nonnegative in L, H, Px.
  apply between_intro.
  - now apply (HF lo x).
  - now apply (HF x hi).
Qed.

(** ** The ranges of the tables *)

Lemma layup_factors_range :
  Forall (fun x => between 0.4 1.0 x = true) (factor_values LAYUP_FACTORS 0.85).
Proof. repeat constructor. Qed.

Lemma manufacturing_factors_range :
  Forall (fun x => between 0.85 1.0 x = true)
         (factor_values MANUFACTURING_FACTORS 0.95).
Proof. repeat constructor. Qed.

Lemma catalog_range :
  Forall (fun base => Forall (fun kv => between 2.0 1800 (snd kv) = true) base)
         (records MATERIALS_DB).
Proof. repeat constructor. Qed.

Lemma row_between lo hi ts tm cs fs fm ilss ie :
  Forall (fun kv => between lo hi (snd kv) = true)
         (row ts tm cs fs fm ilss ie) ->
  Forall (fun x => between lo hi x = true) [ts; tm; cs; fs; fm; ilss; ie].
Proof.
  unfold row. intros H.
  repeat match goal with
  | H : Forall _ (_ :: _) |- _ => inversion H; clear H; subst
  end.
  repeat constructor; assumption.
Qed.

(** ** The combined factor *)

(** Within the accepted range of volume fractions and the ranges of the
    two tables, the combined factor lies between 0.17 and 7/6. *)
Lemma total_factor_between (v lf mf : float) :
  between 0.3 0.7 v = true -> between 0.4 1.0 lf = true ->
  between 0.85 1.0 mf = true ->
  between (0.3 / 0.6 * 0.4 * 0.85) (0.7 / 0.6 * 1.0 * 1.0) (v / 0.6 * lf * mf)
  = true.
Proof.
  intros Hv Hl Hm.
  apply mul_between; try reflexivity; [|exact Hm].
  apply mul_between; try reflexivity; [|exact Hl].
  apply (increasing_between (fun x => x / 0.6));
    [now apply increasing_div|reflexivity|reflexivity|exact Hv].
Qed.

(** The combined factor is increasing in the volume fraction and in both
    table factors. *)
Lemma total_factor_mono (v1 v2 lf1 lf2 mf1 mf2 : float) :
  between 0.3 0.7 v1 = true -> between 0.3 0.7 v2 = true ->
  between 0.4 1.0 lf1 = true -> between 0.4 1.0 lf2 = true ->
  between 0.85 1.0 mf1 = true -> between 0.85 1.0 mf2 = true ->
  (v1 <=? v2) = true -> (lf1 <=? lf2) = true -> (mf1 <=? mf2) = true ->
  nonnegative (v1 / 0.6 * lf1 * mf1) /\ nonnegative (v2 / 0.6 * lf2 * mf2)
  /\ (v1 / 0.6 * lf1 * mf1 <=? v2 / 0.6 * lf2 * mf2) = true.
Proof.
  intros Bv1 Bv2 Bl1 Bl2 Bm1 Bm2 Hv Hl Hm.
  assert (Pv : forall v, between 0.3 0.7 v = true ->
                         is_positive_finite v = true)
    by (intros v; now apply between_positive_finite).
  assert (Pl : forall x, between 0.4 1.0 x = true ->
                         is_positive_finite x = true)
    by (intros x; now apply between_positive_finite).
  assert (Pm : forall x, between 0.85 1.0 x = true ->
                         is_positive_finite x = true)
    by (intros x; now apply between_positive_finite).
  assert (Bd : forall v, between 0.3 0.7 v = true ->
                         between (0.3 / 0.6) (0.7 / 0.6) (v / 0.6) = true).
  { intros v Bv. apply (increasing_between (fun x => x / 0.6));
      [now apply increasing_div|reflexivity|reflexivity|exact Bv]. }
  assert (Pd : forall v, between 0.3 0.7 v = true ->
                         is_positive_finite (v / 0.6) = true).
  { intros v Bv.
    apply (between_positive_finite (0.3 / 0.6) (0.7 / 0.6));
      [reflexivity|reflexivity|now apply Bd]. }
  assert (Pe : forall v lf, between 0.3 0.7 v = true ->
                 between 0.4 1.0 lf = true ->
                 is_positive_finite (v / 0.6 * lf) = true).
  { intros v lf Bv Bl.
    apply (between_positive_finite (0.3 / 0.6 * 0.4) (0.7 / 0.6 * 1.0));
      try reflexivity.
    apply mul_between; try reflexivity; [now apply Bd|exact Bl]. }
  assert (Hd : (v1 / 0.6 <=? v2 / 0.6) = true).
  { apply (increasing_div 0.6 eq_refl v1 v2); trivial;
      now apply positive_finite_nonnegative, Pv. }
  assert (He : (v1 / 0.6 * lf1 <=? v2 / 0.6 * lf2) = true).
  { apply mul_mono; trivial;
      try (now apply positive_finite_nonnegative, Pd);
      try (now apply positive_finite_nonnegative, Pl);
      [now apply Pd|now apply Pl]. }
  apply mul_mono; trivial;
    try (now apply positive_finite_nonnegative, Pe);
    try (now apply positive_finite_nonnegative, Pm);
    [now apply Pe|now apply Pm].
Qed.

(** One output field is increasing in the combined factor. *)
Lemma scaled_mono (b t1 t2 : float) :
  is_positive_finite b = true ->
  nonnegative t1 -> nonnegative t2 -> (t1 <=? t2) = true ->
  nonnegative (scaled b t1) /\ nonnegative (scaled b t2)
  /\ (scaled b t1 <=? scaled b t2) = true.
Proof.
  intros Pb N1 N2 H. unfold scaled.
  destruct (increasing_mul_l b Pb t1 t2 N1 N2 H) as (M1 & M2 & M).
  exact (increasing_round1 _ _ M1 M2 M).
Qed.

Lemma between_range (v : float) :
  (0.3 <=? v) = true -> (v <=? 0.7) = true -> between 0.3 0.7 v = true.
Proof. apply between_intro. Qed.

(** What the predictor returns once the record and the factors are
    known, for arguments of any type. *)
Lemma predict_properties_of_base (f m : pyval) (v : float) (l mf : pyval)
    ts tm cs fs fm ilss ie lf mff :
  base_properties MATERIALS_DB f m = ok (row ts tm cs fs fm ilss ie) ->
  py_get LAYUP_FACTORS l 0.85 = ok lf ->
  py_get MANUFACTURING_FACTORS mf 0.95 = ok mff ->
  predict_properties f m v l mf
  = ok (scale_record ts tm cs fs fm ilss ie (v / 0.6 * lf * mff)).
Proof. intros Hb Hl Hm. unfold predict_properties. now rewrite Hb, Hl, Hm. Qed.

(** ** Bounds on one field *)

Lemma scaled_between (b t : float) :
  between 2.0 1800 b = true ->
  between (0.3 / 0.6 * 0.4 * 0.85) (0.7 / 0.6 * 1.0 * 1.0) t = true ->
  between 0.3 2100 (scaled b t) = true.
Proof.
  intros Hb Ht. unfold scaled.
  change 0.3 with (round1 (2.0 * (0.3 / 0.6 * 0.4 * 0.85))) at 1.
  change 2100 with (round1 (1800 * (0.7 / 0.6 * 1.0 * 1.0))).
  apply (increasing_between round1);
    [exact increasing_round1|reflexivity|reflexivity|].
  apply mul_between; try reflexivity; assumption.
Qed.

Lemma catalog_reference :
  Forall (fun base =>
            Forall (fun kv =>
                      (scaled (snd kv) (0.6 / 0.6 * 1.0 * 1.0) <=? snd kv)
                      = true) base)
         (records MATERIALS_DB).
Proof. repeat constructor. Qed.

Lemma scaled_le_baseline (b v lf mf : float) :
  between 2.0 1800 b = true ->
  (scaled b (0.6 / 0.6 * 1.0 * 1.0) <=? b) = true ->
  (0.3 <=? v) = true -> (v <=? 0.6) = true ->
  between 0.4 1.0 lf = true -> between 0.85 1.0 mf = true ->
  (scaled b (v / 0.6 * lf * mf) <=? b) = true.
Proof.
  intros Bb Hr H1 H2 Bl Bm.
  pose proof (between_positive_finite 2.0 1800 b eq_refl eq_refl Bb) as Pb.
  assert (Bv : between 0.3 0.6 v = true) by now apply between_intro.
  pose proof (between_positive_finite 0.3 0.6 v eq_refl eq_refl Bv) as Pv.
  assert (Bv' : between 0.3 0.7 v = true).
  { apply between_intro; [exact H1|].
    apply (leb_trans v 0.6 0.7); trivial;
      now apply positive_finite_nonnegative. }
  destruct (total_factor_mono v 0.6 lf 1.0 mf 1.0) as (N1 & N2 & Ht);
    trivial; try reflexivity;
    try (now apply between_elim in Bl; destruct Bl);
    try (now apply between_elim in Bm; destruct Bm).
  destruct (scaled_mono b _ _ Pb N1 N2 Ht) as (M1 & M2 & Hs).
  apply (leb_trans _ _ _ M1 M2 (positive_finite_nonnegative b Pb) Hs Hr).
Qed.

Lemma scaled_le_best (b v lf mf : float) :
  between 2.0 1800 b = true ->
  (0.3 <=? v) = true -> (v <=? 0.7) = true ->
  between 0.4 1.0 lf = true -> between 0.85 1.0 mf = true ->
  (scaled b (v / 0.6 * lf * mf) <=? scaled b (v / 0.6 * 1.0 * 1.0)) = true.
Proof.
  intros Bb H1 H2 Bl Bm.
  pose proof (between_positive_finite 2.0 1800 b eq_refl eq_refl Bb) as Pb.
  assert (Bv : between 0.3 0.7 v = true) by now apply between_intro.
  pose proof (between_positive_finite 0.3 0.7 v eq_refl eq_refl Bv) as Pv.
  destruct (total_factor_mono v v lf 1.0 mf 1.0) as (N1 & N2 & Ht);
    trivial; try reflexivity;
    try (now apply between_elim in Bl; destruct Bl);
    try (now apply between_elim in Bm; destruct Bm);
    [now apply leb_refl, positive_finite_nonnegative|].
  now apply (scaled_mono b _ _ Pb N1 N2 Ht).
Qed.

(** ** The predictor within the accepted range *)

(** The record and the factors the predictor works with, and what the
    tables say about them. *)
Lemma predict_properties_in_tables (f m l mf : pyval) :
  hashable f = true -> hashable m = true ->
  hashable l = true -> hashable mf = true ->
  exists ts tm cs fs fm ilss ie lf mff,
    base_properties MATERIALS_DB f m = ok (row ts tm cs fs fm ilss ie)
    /\ py_get LAYUP_FACTORS l 0.85 = ok lf
    /\ py_get MANUFACTURING_FACTORS mf 0.95 = ok mff
    /\ Forall (fun x => between 2.0 1800 x = true
                        /\ (scaled x (0.6 / 0.6 * 1.0 * 1.0) <=? x) = true)
              [ts; tm; cs; fs; fm; ilss; ie]
    /\ between 0.4 1.0 lf = true
    /\ between 0.85 1.0 mff = true.
Proof.
  intros Hf Hm Hl Hmf.
  destruct (base_properties_hashable f m Hf Hm) as (base & Hb & Hin).
  destruct (proj1 (Forall_forall _ _) catalog_rows _ Hin)
    as (ts & tm & cs & fs & fm & ilss & ie & ->).
  destruct (py_get_hashable LAYUP_FACTORS l 0.85 Hl) as (lf & El & Il).
  destruct (py_get_hashable MANUFACTURING_FACTORS mf 0.95 Hmf)
    as (mff & Em & Im).
  exists ts, tm, cs, fs, fm, ilss, ie, lf, mff.
  split; [exact Hb|]. split; [exact El|]. split; [exact Em|].
  split; [|split].
  - pose proof (proj1 (Forall_forall _ _) catalog_range _ Hin) as Hr.
    pose proof (proj1 (Forall_forall _ _) catalog_reference _ Hin) as Hc.
    unfold row in Hr, Hc.
    repeat match goal with
    | H : Forall _ (_ :: _) |- _ => inversion H; clear H; subst
    end.
    cbn [snd] in *. repeat constructor; assumption.
  - exact (proj1 (Forall_forall _ _) layup_factors_range _ Il).
  - exact (proj1 (Forall_forall _ _) manufacturing_factors_range _ Im).
Qed.

Ltac seven_fields :=
  repeat match goal with
  | H : Forall _ (_ :: _) |- _ => inversion H; clear H; subst
  end;
  repeat match goal with
  | H : _ /\ _ |- _ => destruct H
  end.

(** X3: for hashable categorical arguments and a volume fraction within
    [0.3, 0.7], the range [predict] accepts, the predictor returns a
    record whose seven fields all lie between 0.3 and 2100: none is
    zero, negative, infinite or not a number. *)
Theorem predictions_within_bounds
    (fiber_type matrix_type : pyval) (fiber_vf : float)
    (layup manufacturing : pyval) :
  hashable fiber_type = true -> hashable matrix_type = true ->
  hashable layup = true -> hashable manufacturing = true ->
  (0.3 <=? fiber_vf) = true -> (fiber_vf <=? 0.7) = true ->
  exists p,
    predict_properties fiber_type matrix_type fiber_vf layup manufacturing
    = ok p
    /\ Forall (fun x => (0.3 <=? x) = true /\ (x <=? 2100) = true) (fields p).
Proof.
  intros Hf Hm Hl Hmf H1 H2.
  destruct (predict_properties_in_tables _ _ _ _ Hf Hm Hl Hmf)
    as (ts & tm & cs & fs & fm & ilss & ie & lf & mff
        & Hb & El & Em & Hr & Bl & Bm).
  eexists. split; [exact (predict_properties_of_base _ _ fiber_vf _ _
                            _ _ _ _ _ _ _ _ _ Hb El Em)|].
  pose proof (total_factor_between fiber_vf lf mff
                (between_range _ H1 H2) Bl Bm) as Ht.
  seven_fields.
  unfold fields, scale_record.
  cbn [tensile_strength_MPa tensile_modulus_GPa compressive_strength_MPa
       flexural_strength_MPa flexural_modulus_GPa ILSS_MPa impact_energy_J].
  repeat (apply Forall_cons; [now apply between_elim, scaled_between|]).
  apply Forall_nil.
Qed.

Lemma predictions_within_bounds_example :
  exists p,
    predict_properties (PStr "Natural") PNone 0.3 (PStr "UD 90°") (PInt 7)
    = ok p
    /\ Forall (fun x => (0.3 <=? x) = true /\ (x <=? 2100) = true) (fields p).
Proof.
  apply (predictions_within_bounds (PStr "Natural") PNone 0.3
           (PStr "UD 90°") (PInt 7)); reflexivity.
Defined.

(** X4: at or below the reference volume fraction 0.6 (and from 0.3
    on), no predicted field exceeds the catalog value of the selected
    record, whatever the layup and the manufacturing process. *)
Theorem no_field_above_catalog_value
    (fiber_type matrix_type : pyval) (fiber_vf : float)
    (layup manufacturing : pyval) :
  hashable fiber_type = true -> hashable matrix_type = true ->
  hashable layup = true -> hashable manufacturing = true ->
  (0.3 <=? fiber_vf) = true -> (fiber_vf <=? 0.6) = true ->
  exists ts tm cs fs fm ilss ie p,
    base_properties MATERIALS_DB fiber_type matrix_type
    = ok (row ts tm cs fs fm ilss ie)
    /\ predict_properties fiber_type matrix_type fiber_vf layup manufacturing
       = ok p
    /\ fields_le p (baseline ts tm cs fs fm ilss ie).
Proof.
  intros Hf Hm Hl Hmf H1 H2.
  destruct (predict_properties_in_tables _ _ _ _ Hf Hm Hl Hmf)
    as (ts & tm & cs & fs & fm & ilss & ie & lf & mff
        & Hb & El & Em & Hr & Bl & Bm).
  exists ts, tm, cs, fs, fm, ilss, ie. eexists.
  split; [exact Hb|].
  split; [exact (predict_properties_of_base _ _ fiber_vf _ _
                   _ _ _ _ _ _ _ _ _ Hb El Em)|].
  seven_fields.
  unfold fields_le, scale_record, baseline.
  cbn [tensile_strength_MPa tensile_modulus_GPa compressive_strength_MPa
       flexural_strength_MPa flexural_modulus_GPa ILSS_MPa impact_energy_J].
  repeat split; now apply scaled_le_baseline.
Qed.

Lemma no_field_above_catalog_value_example :
  exists ts tm cs fs fm ilss ie p,
    base_properties MATERIALS_DB (PStr "Aramid") (PStr "PA6")
    = ok (row ts tm cs fs fm ilss ie)
    /\ predict_properties (PStr "Aramid") (PStr "PA6") 0.45
         (PStr "Woven") (PStr "RTM") = ok p
    /\ fields_le p (baseline ts tm cs fs fm ilss ie).
Proof.
  apply (no_field_above_catalog_value (PStr "Aramid") (PStr "PA6") 0.45
           (PStr "Woven") (PStr "RTM")); reflexivity.
Defined.

(** X5: within the accepted range of volume fractions, UD 0° with
    Autoclave gives the highest prediction: for the same fiber, matrix
    and volume fraction, no layup and no manufacturing process, listed
    or not, gives a larger value in any of the seven fields. *)
Theorem ud0_autoclave_is_best
    (fiber_type matrix_type : pyval) (fiber_vf : float)
    (layup manufacturing : pyval) :
  hashable fiber_type = true -> hashable matrix_type = true ->
  hashable layup = true -> hashable manufacturing = true ->
  (0.3 <=? fiber_vf) = true -> (fiber_vf <=? 0.7) = true ->
  exists p best,
    predict_properties fiber_type matrix_type fiber_vf layup manufacturing
    = ok p
    /\ predict_properties fiber_type matrix_type fiber_vf
         (PStr "UD 0°") (PStr "Autoclave") = ok best
    /\ fields_le p best.
Proof.
  intros Hf Hm Hl Hmf H1 H2.
  destruct (predict_properties_in_tables _ _ _ _ Hf Hm Hl Hmf)
    as (ts & tm & cs & fs & fm & ilss & ie & lf & mff
        & Hb & El & Em & Hr & Bl & Bm).
  eexists. eexists.
  split; [exact (predict_properties_of_base _ _ fiber_vf _ _
                   _ _ _ _ _ _ _ _ _ Hb El Em)|].
  split; [exact (predict_properties_of_base _ _ fiber_vf
                   (PStr "UD 0°") (PStr "Autoclave")
                   _ _ _ _ _ _ _ 1.0 1.0 Hb eq_refl eq_refl)|].
  seven_fields.
  unfold fields_le, scale_record.
  cbn [tensile_strength_MPa tensile_modulus_GPa compressive_strength_MPa
       flexural_strength_MPa flexural_modulus_GPa ILSS_MPa impact_energy_J].
  repeat split; now apply scaled_le_best.
Qed.

Lemma ud0_autoclave_is_best_example :
  exists p best,
    predict_properties (PStr "Basalt") (PStr "PEEK") 0.65
      (PStr "Quasi-isotropic") (PStr "Hand_layup") = ok p
    /\ predict_properties (PStr "Basalt") (PStr "PEEK") 0.65
         (PStr "UD 0°") (PStr "Autoclave") = ok best
    /\ fields_le p best.
Proof.
  apply (ud0_autoclave_is_best (PStr "Basalt") (PStr "PEEK") 0.65
           (PStr "Quasi-isotropic") (PStr "Hand_layup")); reflexivity.
Defined.

(** * More on the single-prediction handler *)

Lemma run_call_hashable (c : call) :
  hashable_call c = true -> exists p, run_call c = ok p.
Proof.
  unfold hashable_call, run_call. rewrite !andb_true_iff.
  intros [[[Hf Hm] Hl] Hmf].
  destruct (predict_properties_shape (call_fiber_type c) (call_matrix_type c)
              (call_fiber_vf c) (call_layup c) (call_manufacturing c)
              Hf Hm Hl Hmf)
    as (ts & tm & cs & fs & fm & ilss & ie & lf & mff & _ & _ & _ & Hp).
  eexists. exact Hp.
Qed.

Lemma run_call_unhashable (c : call) :
  hashable_call c = false -> run_call c = raise TypeError.
Proof. apply predict_properties_unhashable. Qed.

Section PredictFacts.

Variable str_to_float : string -> option float.

(** A body that is no object has no [get]. *)
Lemma predict_no_object (data : pyval) :
  (forall kv, data <> PDict kv) ->
  predict str_to_float data
  = ({| status := 500; payload := Failure (Text "Internal server error") |},
     []).
Proof.
  intros H. destruct data; try reflexivity. now destruct (H kv).
Qed.

(** The answer to an object depends on the five values read from it
    only. *)
Lemma predict_request_values (kv kv' : list (string * pyval)) :
  request_values kv = request_values kv' ->
  predict str_to_float (PDict kv) = predict str_to_float (PDict kv').
Proof.
  unfold request_values, request_defaults, get_or. cbn [map fst snd].
  intros H. injection H as Hf Hm Hv Hl Hmf.
  unfold predict, predict_body, hbind, hlift, attr_get. cbv [ok].
  cbv beta iota. now rewrite Hf, Hm, Hv, Hl, Hmf.
Qed.

(** X6: when [float()] reads the volume fraction of a request as a
    value within [0.3, 0.7], the predictor is called exactly once, on
    the five values read from the request. If the four categorical
    values are hashable the answer is 200 with these values echoed and
    the record the predictor returns; if one of them is a list or an
    object the answer is 500. *)
Theorem predict_answers_in_range (kv : list (string * pyval)) (v : float) :
  read_vf str_to_float kv = ok v ->
  (0.3 <=? v) = true -> (v <=? 0.7) = true ->
  if hashable_call (call_of kv v)
  then exists p,
         predict_properties
           (get_or kv "fiber_type" (PStr "Carbon"))
           (get_or kv "matrix_type" (PStr "Epoxy")) v
           (get_or kv "layup" (PStr "UD 0°"))
           (get_or kv "manufacturing" (PStr "Autoclave")) = ok p
         /\ predict str_to_float (PDict kv)
            = ({| status := 200;
                  payload := Predicted
                    (get_or kv "fiber_type" (PStr "Carbon"))
                    (get_or kv "matrix_type" (PStr "Epoxy")) v
                    (get_or kv "layup" (PStr "UD 0°"))
                    (get_or kv "manufacturing" (PStr "Autoclave")) p |},
               [call_of kv v])
  else predict str_to_float (PDict kv)
       = ({| status := 500;
             payload := Failure (Text "Internal server error") |},
          [call_of kv v]).
Proof.
  intros Hv H1 H2.
  assert (Hr : (0.3 <=? v) && (v <=? 0.7) = true) by now rewrite H1, H2.
  rewrite (predict_in_range str_to_float kv v Hv Hr).
  destruct (hashable_call (call_of kv v)) eqn:Hh.
  - destruct (run_call_hashable _ Hh) as [p Hp].
    exists p. split; [exact Hp|]. now rewrite Hp.
  - now rewrite (run_call_unhashable _ Hh).
Qed.

(** X7: whatever the body is, [predict] calls the predictor at most
    once and only with a volume fraction within [0.3, 0.7]; it answers
    with 200, 400 or 500; and it answers 200 exactly when it reports
    success, which it does only with the record the predictor returned
    on the recorded call. *)
Theorem predict_calls_only_in_range (data : pyval) :
  let r := fst (predict str_to_float data) in
  let calls := snd (predict str_to_float data) in
  (List.length calls <= 1)%nat
  /\ Forall (fun c => call_in_range c = true) calls
  /\ (status r = 200 \/ status r = 400 \/ status r = 500)%Z
  /\ (body_success (payload r) = true <-> status r = 200%Z)
  /\ (status r = 200%Z ->
      exists c p,
        calls = [c] /\ run_call c = ok p
        /\ payload r
           = Predicted (call_fiber_type c) (call_matrix_type c)
               (call_fiber_vf c) (call_layup c) (call_manufacturing c) p).
Proof.
  cbv zeta.
  destruct data as [| | | | | |kv];
    try (rewrite predict_no_object by discriminate; cbn;
         repeat split; (now auto) || (try discriminate); now auto).
  destruct (read_vf str_to_float kv) as [e|v] eqn:Hv.
  - rewrite (predict_unreadable str_to_float kv e Hv).
    cbn [fst snd status payload List.length].
    split; [lia|]. split; [constructor|].
    destruct e; cbn [body_success];
      (split; [auto|]); (split; [split; discriminate|discriminate]).
  - destruct ((0.3 <=? v) && (v <=? 0.7)) eqn:Hr.
    + rewrite (predict_in_range str_to_float kv v Hv Hr).
      cbn [fst snd List.length].
      split; [lia|]. split; [repeat constructor; exact Hr|].
      destruct (run_call (call_of kv v)) as [e|p] eqn:Hp.
      * destruct e; cbn [status payload body_success];
          (split; [auto|]); (split; [split; discriminate|discriminate]).
      * cbn [status payload body_success].
        split; [auto|]. split; [split; reflexivity|].
        intros _. exists (call_of kv v), p. repeat split. exact Hp.
    + rewrite (predict_out_of_range str_to_float kv v Hv Hr).
      cbn [fst snd status payload List.length body_success].
      split; [lia|]. split; [constructor|].
      split; [auto|]. split; [split; discriminate|discriminate].
Qed.

Lemma get_or_cons (k : string) (d : pyval) (kv : list (string * pyval))
    (k' : string) (d' : pyval) :
  get_or ((k, d) :: kv) k' d' = if String.eqb k' k then d else get_or kv k' d'.
Proof. unfold get_or. cbn [dict_find]. now destruct (String.eqb k' k). Qed.

(** X8: a request that leaves out one of the five keys is answered
    exactly like the request that gives that key with its default
    (Carbon, Epoxy, 0.6, UD 0°, Autoclave), echo included. *)
Theorem missing_key_is_default
    (kv : list (string * pyval)) (k : string) (d : pyval) :
  dict_find k request_defaults = Some d ->
  dict_find k kv = None ->
  predict str_to_float (PDict ((k, d) :: kv))
  = predict str_to_float (PDict kv).
Proof.
  intros Hd Hk. apply predict_request_values.
  unfold request_values, request_defaults in *. cbn [map fst snd].
  rewrite !get_or_cons.
  assert (Hg : forall d', get_or kv k d' = d')
    by (intros d'; unfold get_or; now rewrite Hk).
  cbn [dict_find] in Hd.
  repeat match goal with
  | |- context [String.eqb ?a k] =>
      destruct (String.eqb_spec a k) as [<-|]
  end;
  cbn in Hd; try injection Hd as <-; rewrite ?Hg; reflexivity.
Qed.

(** X9: the answer of [predict] to an object depends only on what the
    object holds under the five keys: other keys are ignored, and so
    is the order of the keys. *)
Theorem only_five_fields_matter (kv kv' : list (string * pyval)) :
  (forall k, In k (dict_keys request_defaults) ->
             dict_find k kv = dict_find k kv') ->
  predict str_to_float (PDict kv) = predict str_to_float (PDict kv').
Proof.
  intros H. apply predict_request_values.
  unfold request_values. apply map_ext_in. intros [k d] Hin.
  cbn [fst snd]. unfold get_or. rewrite (H k); [reflexivity|].
  exact (in_map fst _ _ Hin).
Qed.

End PredictFacts.

Lemma predict_answers_in_range_example :
  (exists p,
     predict_properties (PStr "Glass") (PStr "Epoxy") 0.5
       (PStr "UD 0°") PNone = ok p
     /\ predict no_numeric_strings
          (PDict [("fiber_type", PStr "Glass");
                  ("fiber_volume_fraction", PFloat 0.5);
                  ("manufacturing", PNone)])
        = ({| status := 200;
              payload := Predicted (PStr "Glass") (PStr "Epoxy") 0.5
                           (PStr "UD 0°") PNone p |},
           [{| call_fiber_type := PStr "Glass";
               call_matrix_type := PStr "Epoxy";
               call_fiber_vf := 0.5;
               call_layup := PStr "UD 0°";
               call_manufacturing := PNone |}]))
  /\ predict no_numeric_strings
       (PDict [("fiber_type", PList [PStr "Glass"])])
     = ({| status := 500;
           payload := Failure (Text "Internal server error") |},
        [{| call_fiber_type := PList [PStr "Glass"];
            call_matrix_type := PStr "Epoxy";
            call_fiber_vf := 0.6;
            call_layup := PStr "UD 0°";
            call_manufacturing := PStr "Autoclave" |}]).
Proof.
  split.
  - exact (predict_answers_in_range no_numeric_strings
             [("fiber_type", PStr "Glass");
              ("fiber_volume_fraction", PFloat 0.5);
              ("manufacturing", PNone)] 0.5 eq_refl eq_refl eq_refl).
  - exact (predict_answers_in_range no_numeric_strings
             [("fiber_type", PList [PStr "Glass"])] 0.6
             eq_refl eq_refl eq_refl).
Defined.

Lemma missing_key_is_default_example :
  predict no_numeric_strings
    (PDict [("layup", PStr "UD 0°"); ("fiber_type", PStr "Glass")])
  = predict no_numeric_strings (PDict [("fiber_type", PStr "Glass")]).
Proof.
  apply (missing_key_is_default no_numeric_strings
           [("fiber_type", PStr "Glass")] "layup" (PStr "UD 0°"));
    reflexivity.
Defined.

Lemma only_five_fields_matter_example :
  predict no_numeric_strings
    (PDict [("note", PStr "x"); ("layup", PStr "Woven");
            ("fiber_type", PStr "Glass")])
  = predict no_numeric_strings
      (PDict [("fiber_type", PStr "Glass"); ("layup", PStr "Woven")]).
Proof.
  apply (only_five_fields_matter no_numeric_strings).
  intros k Hk. cbn in Hk.
  repeat (destruct Hk as [<-|Hk]; [reflexivity|]). destruct Hk.
Defined.

(** * More on the batch handler *)

Section BatchFacts.

Variable str_to_float : string -> option float.

(** ** One entry *)

Lemma item_report_input index sample :
  item_input (item_report str_to_float index sample) = sample.
Proof.
  unfold item_report.
  now destruct (fst (batch_item str_to_float sample [])).
Qed.

Lemma item_report_index index sample :
  item_index (item_report str_to_float index sample) = index.
Proof.
  unfold item_report.
  now destruct (fst (batch_item str_to_float sample [])).
Qed.

Lemma item_report_success index sample :
  item_success (item_report str_to_float index sample)
  = predictable str_to_float sample.
Proof.
  unfold item_report, predictable.
  destruct sample as [| | | | | |kv];
    try (now rewrite batch_item_no_object by discriminate).
  destruct (read_vf str_to_float kv) as [e|v] eqn:Hv.
  - now rewrite (batch_item_unreadable str_to_float kv e [] Hv).
  - rewrite (batch_item_readable str_to_float kv v [] Hv). cbn [fst].
    destruct (hashable_call (call_of kv v)) eqn:Hh.
    + now destruct (run_call_hashable _ Hh) as [p ->].
    + now rewrite (run_call_unhashable _ Hh).
Qed.

Lemma item_report_shift n index sample :
  item_report str_to_float (n + index) sample
  = shift_index n (item_report str_to_float index sample).
Proof.
  unfold item_report.
  now destruct (fst (batch_item str_to_float sample [])).
Qed.

Lemma item_calls_length sample :
  (List.length (item_calls str_to_float sample) <= 1)%nat.
Proof.
  unfold item_calls.
  destruct sample as [| | | | | |kv];
    try (rewrite batch_item_no_object by discriminate; cbn; lia).
  destruct (read_vf str_to_float kv) as [e|v] eqn:Hv.
  - rewrite (batch_item_unreadable str_to_float kv e [] Hv). cbn. lia.
  - rewrite (batch_item_readable str_to_float kv v [] Hv). cbn. lia.
Qed.

(** ** The list of entries *)

Lemma reports_input samples : forall index,
  map item_input (reports str_to_float index samples) = samples.
Proof.
  induction samples as [|s rest IH]; intros index; cbn [reports map];
    [reflexivity|now rewrite item_report_input, IH].
Qed.

Lemma reports_index samples : forall index,
  map item_index (reports str_to_float index samples)
  = seq index (List.length samples).
Proof.
  induction samples as [|s rest IH]; intros index;
    cbn [reports map seq List.length];
    [reflexivity|now rewrite item_report_index, IH].
Qed.

Lemma reports_success samples : forall index,
  map item_success (reports str_to_float index samples)
  = map (predictable str_to_float) samples.
Proof.
  induction samples as [|s rest IH]; intros index; cbn [reports map];
    [reflexivity|now rewrite item_report_success, IH].
Qed.

Lemma reports_shift n samples : forall index,
  reports str_to_float (n + index) samples
  = map (shift_index n) (reports str_to_float index samples).
Proof.
  induction samples as [|s rest IH]; intros index; cbn [reports map];
    [reflexivity|].
  rewrite item_report_shift. f_equal.
  rewrite <- IH. f_equal. lia.
Qed.

Lemma reports_app l1 l2 : forall index,
  reports str_to_float index (l1 ++ l2)
  = (reports str_to_float index l1
     ++ reports str_to_float (List.length l1 + index) l2)%list.
Proof.
  induction l1 as [|s rest IH]; intros index; cbn [reports app List.length];
    [reflexivity|].
  rewrite IH. do 3 f_equal. lia.
Qed.

Lemma calls_length samples :
  (List.length (flat_map (item_calls str_to_float) samples)
   <= List.length samples)%nat.
Proof.
  induction samples as [|s rest IH]; cbn [flat_map List.length]; [lia|].
  rewrite length_app. pose proof (item_calls_length s). lia.
Qed.

(** The batch handler on a body whose [samples] is a non-empty list. *)
Lemma predict_batch_of samples :
  samples <> [] ->
  predict_batch str_to_float (batch_of (PList samples))
  = ({| status := 200;
        payload := Batch (List.length samples)
                     (reports str_to_float 0 samples) |},
     flat_map (item_calls str_to_float) samples).
Proof. intros H. now apply predict_batch_list. Qed.






(** X10: on a non-empty list of samples of any kind the batch handler
    answers 200 with one entry per sample: the entries carry the
    samples in order and the indexes 0, 1, 2, ...; an entry is a
    prediction exactly when its sample is an object whose volume
    fraction [float()] reads and whose categorical values are
    hashable; and the predictor is called at most once per sample. *)
Theorem batch_reports_every_sample
    (kv : list (string * pyval)) (samples : list pyval) :
  dict_find "samples" kv = Some (PList samples) ->
  samples <> [] ->
  exists results calls,
    predict_batch str_to_float (PDict kv)
    = ({| status := 200; payload := Batch (List.length samples) results |},
       calls)
    /\ map item_input results = samples
    /\ map item_index results = seq 0 (List.length samples)
    /\ map item_success results = map (predictable str_to_float) samples
    /\ (List.length calls <= List.length samples)%nat.
Proof.
  intros Hs Hne.
  exists (reports str_to_float 0 samples),
         (flat_map (item_calls str_to_float) samples).
  split; [now apply predict_batch_list|].
  split; [apply reports_input|]. split; [apply reports_index|].
  split; [apply reports_success|apply calls_length].
Qed.

(** X11: the answer to a batch is the concatenation of the answers to
    its parts: for non-empty lists [l1] and [l2], the entries for
    [l1 ++ l2] are those for [l1] followed by those for [l2] renumbered
    from the length of [l1] on, and the calls are those for [l1]
    followed by those for [l2]. No sample changes the entry of
    another. *)
Theorem batch_of_concatenation
    (kv1 kv2 kv : list (string * pyval)) (l1 l2 : list pyval) :
  dict_find "samples" kv1 = Some (PList l1) ->
  dict_find "samples" kv2 = Some (PList l2) ->
  dict_find "samples" kv = Some (PList (l1 ++ l2)) ->
  l1 <> [] -> l2 <> [] ->
  exists results1 calls1 results2 calls2,
    predict_batch str_to_float (PDict kv1)
    = ({| status := 200; payload := Batch (List.length l1) results1 |}, calls1)
    /\ predict_batch str_to_float (PDict kv2)
       = ({| status := 200; payload := Batch (List.length l2) results2 |},
          calls2)
    /\ predict_batch str_to_float (PDict kv)
       = ({| status := 200;
             payload := Batch (List.length l1 + List.length l2)
                          (results1
                           ++ map (shift_index (List.length l1)) results2) |},
          (calls1 ++ calls2)%list).
Proof.
  intros H1 H2 H N1 N2.
  exists (reports str_to_float 0 l1), (flat_map (item_calls str_to_float) l1),
         (reports str_to_float 0 l2), (flat_map (item_calls str_to_float) l2).
  split; [now apply predict_batch_list|].
  split; [now apply predict_batch_list|].
  rewrite (predict_batch_list str_to_float kv (l1 ++ l2) H)
    by (destruct l1; [now destruct N1|discriminate]).
  rewrite length_app, reports_app, flat_map_app, reports_shift.
  reflexivity.
Qed.

(** X12: a request [/api/predict] answers with 200 is predicted with
    the same record by the batch handler, in any batch and at any
    position, and the batch makes the same call for it. *)
Theorem accepted_request_is_predicted_in_batch
    (kv : list (string * pyval)) (samples : list pyval) (i : nat)
    (skv : list (string * pyval))
    (fiber_type matrix_type : pyval) (fiber_vf : float)
    (layup manufacturing : pyval) (p : predictions) (c : list call) :
  dict_find "samples" kv = Some (PList samples) ->
  nth_error samples i = Some (PDict skv) ->
  predict str_to_float (PDict skv)
  = ({| status := 200;
        payload := Predicted fiber_type matrix_type fiber_vf
                     layup manufacturing p |}, c) ->
  exists results calls,
    predict_batch str_to_float (PDict kv)
    = ({| status := 200; payload := Batch (List.length samples) results |},
       calls)
    /\ nth_error results i = Some (ItemPredicted i (PDict skv) p)
    /\ incl c calls.
Proof.
  intros Hs Hi Hp.
  assert (Hne : samples <> []) by (intros ->; now destruct i).
  exists (reports str_to_float 0 samples),
         (flat_map (item_calls str_to_float) samples).
  split; [now apply predict_batch_list|].
  rewrite (reports_nth str_to_float samples 0 i _ Hi). cbn [Nat.add].
  destruct (read_vf str_to_float skv) as [e|v] eqn:Hv.
  { rewrite (predict_unreadable str_to_float skv e Hv) in Hp.
    destruct e; discriminate. }
  destruct ((0.3 <=? v) && (v <=? 0.7)) eqn:Hr.
  2: { rewrite (predict_out_of_range str_to_float skv v Hv Hr) in Hp.
       discriminate. }
  rewrite (predict_in_range str_to_float skv v Hv Hr) in Hp.
  destruct (run_call (call_of skv v)) as [e|p'] eqn:Hrun;
    [destruct e; discriminate|].
  injection Hp as _ _ _ _ _ -> <-.
  split; [now rewrite (item_report_readable str_to_float i skv v p Hv Hrun)|].
  intros x [<-|[]]. apply in_flat_map. exists (PDict skv).
  split; [now apply nth_error_In in Hi|].
  rewrite (item_calls_readable str_to_float skv v Hv). now left.
Qed.



End BatchFacts.

Lemma batch_reports_every_sample_example :
  exists results calls,
    predict_batch no_numeric_strings
      (PDict [("samples",
               PList [PInt 3; PDict [("layup", PList [])]; PDict []])])
    = ({| status := 200; payload := Batch 3 results |}, calls)
    /\ map item_input results
       = [PInt 3; PDict [("layup", PList [])]; PDict []]
    /\ map item_index results = [0; 1; 2]%nat
    /\ map item_success results = [false; false; true]
    /\ (List.length calls <= 3)%nat.
Proof.
  apply (batch_reports_every_sample no_numeric_strings
           [("samples",
             PList [PInt 3; PDict [("layup", PList [])]; PDict []])]
           [PInt 3; PDict [("layup", PList [])]; PDict []]).
  - reflexivity.
  - discriminate.
Defined.

Lemma batch_of_concatenation_example :
  exists results1 calls1 results2 calls2,
    predict_batch no_numeric_strings (batch_of (PList [PDict []]))
    = ({| status := 200; payload := Batch 1 results1 |}, calls1)
    /\ predict_batch no_numeric_strings (batch_of (PList two_samples))
       = ({| status := 200; payload := Batch 2 results2 |}, calls2)
    /\ predict_batch no_numeric_strings
         (batch_of (PList (PDict [] :: two_samples)))
       = ({| status := 200;
             payload := Batch 3 (results1 ++ map (shift_index 1) results2) |},
          (calls1 ++ calls2)%list).
Proof.
  apply (batch_of_concatenation no_numeric_strings
           [("samples", PList [PDict []])]
           [("samples", PList two_samples)]
           [("samples", PList (PDict [] :: two_samples))]
           [PDict []] two_samples);
    (reflexivity || discriminate).
Defined.

Lemma accepted_request_is_predicted_in_batch_example :
  exists results calls,
    predict_batch no_numeric_strings (batch_of (PList two_samples))
    = ({| status := 200; payload := Batch 2 results |}, calls)
    /\ nth_error results 1
       = Some (ItemPredicted 1
                 (PDict [("fiber_type", PStr "Glass");
                         ("fiber_volume_fraction", PFloat 0.5)])
                 {| tensile_strength_MPa := 350;
                    tensile_modulus_GPa := 21.7;
                    compressive_strength_MPa := 233.3;
                    flexural_strength_MPa := 458.3;
                    flexural_modulus_GPa := 20;
                    ILSS_MPa := 33.3;
                    impact_energy_J := 22.5 |})
    /\ incl [call_of [("fiber_type", PStr "Glass");
                      ("fiber_volume_fraction", PFloat 0.5)] 0.5] calls.
Proof.
  apply (accepted_request_is_predicted_in_batch no_numeric_strings
           [("samples", PList two_samples)] two_samples 1
           [("fiber_type", PStr "Glass"); ("fiber_volume_fraction", PFloat 0.5)]
           (PStr "Glass") (PStr "Epoxy") 0.5 (PStr "UD 0°") (PStr "Autoclave")).
  - reflexivity.
  - reflexivity.
  - vm_compute. reflexivity.
Defined.

(** * The informational endpoints and the predictor *)

Lemma advertised_fiber_types :
  advertised "fiber_types" = dict_keys MATERIALS_DB.
Proof. reflexivity. Qed.

Lemma advertised_layups : advertised "layups" = dict_keys LAYUP_FACTORS.
Proof. reflexivity. Qed.

Lemma advertised_manufacturing :
  advertised "manufacturing" = dict_keys MANUFACTURING_FACTORS.
Proof. reflexivity. Qed.

(** The matrix types are listed by hand; the list is that of the keys of
    every sub-table of the catalog. *)
Lemma advertised_matrix_types :
  Forall (fun entry => dict_keys (snd entry) = advertised "matrix_types")
         MATERIALS_DB.
Proof. repeat constructor. Qed.

Lemma In_keys_find {V} (k : string) (d : list (string * V)) :
  In k (dict_keys d) -> exists v, dict_find k d = Some v.
Proof.
  induction d as [|[k' v'] d IH]; cbn [dict_keys map In dict_find fst];
    [intros []|].
  destruct (String.eqb_spec k k') as [->|Hne]; [now exists v'|].
  intros [Heq|Hin]; [now destruct Hne|now apply IH].
Qed.

Lemma find_In_keys {V} (k : string) (d : list (string * V)) (v : V) :
  dict_find k d = Some v -> In k (dict_keys d).
Proof.
  intros H. apply dict_find_In in H. exact (in_map fst d (k, v) H).
Qed.

Lemma json_factors_find (table : list (string * float)) (k : string) :
  json_path (json_factors table) [k]
  = option_map PFloat (dict_find k table).
Proof.
  unfold json_factors. cbn [json_path].
  induction table as [|[k' x] table IH]; cbn [map dict_find fst snd];
    [reflexivity|].
  destruct (String.eqb k k'); [reflexivity|exact IH].
Qed.

Lemma not_In_keys_find {V} (k : string) (d : list (string * V)) :
  ~ In k (dict_keys d) -> dict_find k d = None.
Proof.
  intros H. destruct (dict_find k d) as [v|] eqn:Hk; [|reflexivity].
  destruct H. exact (find_In_keys k d v Hk).
Qed.

(** An advertised fiber type has a sub-table, whose keys are the
    advertised matrix types. *)
Lemma advertised_fiber_found (f : string) :
  In f (advertised "fiber_types") ->
  exists sub,
    dict_find f MATERIALS_DB = Some sub
    /\ dict_keys sub = advertised "matrix_types".
Proof.
  rewrite advertised_fiber_types. intros Hf.
  destruct (In_keys_find f MATERIALS_DB Hf) as [sub Hs].
  exists sub. split; [exact Hs|].
  apply dict_find_In in Hs.
  exact (proj1 (Forall_forall _ _) advertised_matrix_types _ Hs).
Qed.

(** X14: every combination of names [get_options] advertises is
    served as asked: the predictor takes the record of that very fiber
    and matrix type from the catalog and applies the two factors that
    [get_options] publishes for that layup and that process; no
    fallback and no default takes part. *)
Theorem advertised_options_are_served
    (fiberType matrixType layup manufacturing : string) :
  In fiberType (advertised "fiber_types") ->
  In matrixType (advertised "matrix_types") ->
  In layup (advertised "layups") ->
  In manufacturing (advertised "manufacturing") ->
  exists sub ts tm cs fs fm ilss ie layupFactor manufFactor,
    dict_find fiberType MATERIALS_DB = Some sub
    /\ dict_find matrixType sub = Some (row ts tm cs fs fm ilss ie)
    /\ json_path get_options ["factors"; "layup"; layup]
       = Some (PFloat layupFactor)
    /\ json_path get_options ["factors"; "manufacturing"; manufacturing]
       = Some (PFloat manufFactor)
    /\ forall fiber_vf,
         predict_properties (PStr fiberType) (PStr matrixType) fiber_vf
           (PStr layup) (PStr manufacturing)
         = ok (scale_record ts tm cs fs fm ilss ie
                 (fiber_vf / 0.6 * layupFactor * manufFactor)).
Proof.
  intros Hf Hm Hl Hmf.
  destruct (advertised_fiber_found fiberType Hf) as (sub & Hs & Hk).
  rewrite <- Hk in Hm.
  destruct (In_keys_find matrixType sub Hm) as [base Hb].
  destruct (proj1 (Forall_forall _ _) catalog_rows _
              (In_records _ _ _ _ _ Hs Hb))
    as (ts & tm & cs & fs & fm & ilss & ie & ->).
  rewrite advertised_layups in Hl. rewrite advertised_manufacturing in Hmf.
  destruct (In_keys_find layup LAYUP_FACTORS Hl) as [lf Elf].
  destruct (In_keys_find manufacturing MANUFACTURING_FACTORS Hmf)
    as [mff Emf].
  exists sub, ts, tm, cs, fs, fm, ilss, ie, lf, mff.
  split; [exact Hs|]. split; [exact Hb|].
  split.
  { change (json_path get_options ["factors"; "layup"; layup])
      with (json_path (json_factors LAYUP_FACTORS) [layup]).
    now rewrite json_factors_find, Elf. }
  split.
  { change (json_path get_options ["factors"; "manufacturing"; manufacturing])
      with (json_path (json_factors MANUFACTURING_FACTORS) [manufacturing]).
    now rewrite json_factors_find, Emf. }
  intros v.
  assert (Hbase : base_properties MATERIALS_DB (PStr fiberType) (PStr matrixType)
                  = ok (row ts tm cs fs fm ilss ie)).
  { destruct (base_properties_catalog fiberType matrixType)
      as (sub' & base' & Hs' & Hb' & _ & Hbp).
    unfold resolved_fiber, is_key in Hs'. rewrite Hs in Hs'.
    cbv iota in Hs'. rewrite Hs in Hs'. injection Hs' as <-.
    unfold resolved_matrix, is_key in Hb'. rewrite Hb in Hb'.
    cbv iota in Hb'. rewrite Hb in Hb'. injection Hb' as <-. exact Hbp. }
  rewrite (predict_properties_row _ _ v layup manufacturing
             _ _ _ _ _ _ _ Hbase).
  unfold factor_or. now rewrite Elf, Emf.
Qed.

Lemma advertised_options_are_served_example :
  exists sub ts tm cs fs fm ilss ie layupFactor manufFactor,
    dict_find "Basalt" MATERIALS_DB = Some sub
    /\ dict_find "PA6" sub = Some (row ts tm cs fs fm ilss ie)
    /\ json_path get_options ["factors"; "layup"; "Woven"]
       = Some (PFloat layupFactor)
    /\ json_path get_options ["factors"; "manufacturing"; "RTM"]
       = Some (PFloat manufFactor)
    /\ forall fiber_vf,
         predict_properties (PStr "Basalt") (PStr "PA6") fiber_vf
           (PStr "Woven") (PStr "RTM")
         = ok (scale_record ts tm cs fs fm ilss ie
                 (fiber_vf / 0.6 * layupFactor * manufFactor)).
Proof.
  apply (advertised_options_are_served "Basalt" "PA6" "Woven" "RTM");
    cbn; tauto.
Defined.

(** Under the fiber type the predictor settles on, a matrix type that is
    not advertised selects what Epoxy selects. *)
Lemma base_properties_unadvertised_matrix (f : pyval) (m : string) :
  ~ In m (advertised "matrix_types") ->
  base_properties MATERIALS_DB f (PStr m)
  = base_properties MATERIALS_DB f (PStr "Epoxy").
Proof.
  intros Hm.
  assert (Hs : forall s,
            base_properties MATERIALS_DB (PStr s) (PStr m)
            = base_properties MATERIALS_DB (PStr s) (PStr "Epoxy")).
  { intros s. rewrite !base_properties_str.
    destruct (resolved_fiber_found s) as (sub & Hsub & He).
    rewrite Hsub.
    assert (Hk : dict_keys sub = advertised "matrix_types").
    { apply dict_find_In in Hsub.
      exact (proj1 (Forall_forall _ _) advertised_matrix_types _ Hsub). }
    rewrite <- Hk in Hm.
    unfold resolved_matrix, is_key.
    rewrite (not_In_keys_find m sub Hm). cbv iota.
    destruct (dict_find "Epoxy" sub) eqn:E; cbv iota; now rewrite E. }
  destruct f as [|b|n|x|s|l|o]; try apply Hs;
    try (rewrite !base_properties_unhashable by reflexivity; reflexivity);
    match goal with
    | |- base_properties _ ?f _ = _ =>
        rewrite !(base_properties_unknown_fiber MATERIALS_DB f) by reflexivity
    end;
    apply Hs.
Qed.

(** X15: a matrix type that [get_options] does not advertise is
    predicted as Epoxy, for every fiber type, advertised or not, and
    whatever the other arguments are. *)
Theorem unadvertised_matrix_is_epoxy
    (fiber_type : pyval) (matrixType : string) (fiber_vf : float)
    (layup manufacturing : pyval) :
  ~ In matrixType (advertised "matrix_types") ->
  predict_properties fiber_type (PStr matrixType) fiber_vf layup manufacturing
  = predict_properties fiber_type (PStr "Epoxy") fiber_vf layup manufacturing.
Proof.
  intros Hm. unfold predict_properties.
  now rewrite (base_properties_unadvertised_matrix fiber_type matrixType Hm).
Qed.

Lemma unadvertised_matrix_is_epoxy_example :
  predict_properties (PStr "Glass") (PStr "Nylon") 0.5
    (PStr "Woven") (PStr "RTM")
  = predict_properties (PStr "Glass") (PStr "Epoxy") 0.5
      (PStr "Woven") (PStr "RTM").
Proof.
  apply (unadvertised_matrix_is_epoxy (PStr "Glass") "Nylon" 0.5
           (PStr "Woven") (PStr "RTM")).
  cbn. intros H.
  repeat (destruct H as [H|H]; [discriminate|]). exact H.
Defined.

Section OptionsFacts.

Variable str_to_float : string -> option float.

(** X16: the range [get_options] advertises for the volume fraction is
    the one [predict] enforces: a request whose volume fraction
    [float()] reads is answered with the range message exactly when
    the value is not within the advertised minimum and maximum; and the
    advertised recommended value is the default of a missing key. *)
Theorem advertised_range_is_enforced
    (kv : list (string * pyval)) (v : float) :
  read_vf str_to_float kv = ok v ->
  exists lo hi recommended,
    json_path get_options ["options"; "fiber_volume_fraction"; "min"]
    = Some (PFloat lo)
    /\ json_path get_options ["options"; "fiber_volume_fraction"; "max"]
       = Some (PFloat hi)
    /\ json_path get_options
         ["options"; "fiber_volume_fraction"; "recommended"]
       = Some (PFloat recommended)
    /\ (fst (predict str_to_float (PDict kv))
        = {| status := 400; payload := Failure (Text VF_MESSAGE) |}
        <-> between lo hi v = false)
    /\ dict_find "fiber_volume_fraction" request_defaults
       = Some (PFloat recommended).
Proof.
  intros Hv. exists 0.3, 0.7, 0.6.
  split; [reflexivity|]. split; [reflexivity|]. split; [reflexivity|].
  split; [|reflexivity].
  unfold between.
  destruct ((0.3 <=? v) && (v <=? 0.7)) eqn:Hr.
  - rewrite (predict_in_range str_to_float kv v Hv Hr). cbn [fst].
    split; [|discriminate].
    destruct (run_call (call_of kv v)) as [[]|p]; discriminate.
  - rewrite (predict_out_of_range str_to_float kv v Hv Hr). cbn [fst].
    split; reflexivity.
Qed.

(** X17: the numbers [api_info] states are those of the tables: five
    fiber types, five matrix types in each, 25 records, seven layups
    and seven processes; [health] reports the same number of fiber
    types, whatever the port and the time; and the example request of
    [api_info] holds exactly the defaults of the five keys, so that
    [predict] answers it, like the empty object, with the Carbon/Epoxy
    record of the catalog unscaled. *)
Theorem api_info_matches_tables (PORT : Z) (timestamp : string) :
  json_path api_info ["dataset"; "fiber_types"]
  = Some (PInt (Z.of_nat (List.length MATERIALS_DB)))
  /\ Forall (fun entry =>
              json_path api_info ["dataset"; "matrix_types"]
              = Some (PInt (Z.of_nat (List.length (snd entry)))))
            MATERIALS_DB
  /\ json_path api_info ["dataset"; "total_combinations"]
     = Some (PInt (Z.of_nat (List.length (records MATERIALS_DB))))
  /\ json_path api_info ["dataset"; "layup_configs"]
     = Some (PInt (Z.of_nat (List.length LAYUP_FACTORS)))
  /\ json_path api_info ["dataset"; "manufacturing_processes"]
     = Some (PInt (Z.of_nat (List.length MANUFACTURING_FACTORS)))
  /\ json_path (health PORT timestamp) ["materials_count"]
     = json_path api_info ["dataset"; "fiber_types"]
  /\ json_path api_info ["usage"; "example_request"]
     = Some (PDict request_defaults)
  /\ predict str_to_float (PDict request_defaults)
     = predict str_to_float (PDict [])
  /\ predict str_to_float (PDict request_defaults)
     = ({| status := 200;
           payload := Predicted (PStr "Carbon") (PStr "Epoxy") 0.6
                        (PStr "UD 0°") (PStr "Autoclave")
                        (baseline 1500 130 1200 1400 125 75 18) |},
        [call_of request_defaults 0.6]).
Proof.
  split; [reflexivity|]. split; [repeat constructor|].
  split; [reflexivity|]. split; [reflexivity|]. split; [reflexivity|].
  split; [reflexivity|]. split; [reflexivity|].
  split; [apply predict_request_values; reflexivity|].
  rewrite (predict_in_range str_to_float request_defaults 0.6 eq_refl eq_refl).
  vm_compute. reflexivity.
Qed.

End OptionsFacts.

Lemma advertised_range_is_enforced_example :
  exists lo hi recommended,
    json_path get_options ["options"; "fiber_volume_fraction"; "min"]
    = Some (PFloat lo)
    /\ json_path get_options ["options"; "fiber_volume_fraction"; "max"]
       = Some (PFloat hi)
    /\ json_path get_options
         ["options"; "fiber_volume_fraction"; "recommended"]
       = Some (PFloat recommended)
    /\ (fst (predict no_numeric_strings
               (PDict [("fiber_volume_fraction", PInt 1)]))
        = {| status := 400; payload := Failure (Text VF_MESSAGE) |}
        <-> between lo hi 1 = false)
    /\ dict_find "fiber_volume_fraction" request_defaults
       = Some (PFloat recommended).
Proof.
  apply (advertised_range_is_enforced no_numeric_strings
           [("fiber_volume_fraction", PInt 1)] 1).
  vm_compute. reflexivity.
Defined.

(** * The batch handler, sample by sample *)

Section SampleFacts.

Variable str_to_float : string -> option float.

Lemma item_report_no_object index sample :
  (forall kv, sample <> PDict kv) ->
  item_report str_to_float index sample
  = ItemFailed index sample (StrOf AttributeError).
Proof.
  intros H. unfold item_report.
  now rewrite (batch_item_no_object str_to_float sample [] H).
Qed.

Lemma item_report_raises index kv v e :
  read_vf str_to_float kv = ok v -> run_call (call_of kv v) = raise e ->
  item_report str_to_float index (PDict kv)
  = ItemFailed index (PDict kv) (StrOf e).
Proof.
  intros Hv He. unfold item_report.
  rewrite (batch_item_readable str_to_float kv v [] Hv). cbn [fst].
  now rewrite He.
Qed.

(** C8, amended: on a non-empty list of samples of any kind the batch
    handler answers 200 with one result per sample, in order, each
    carrying its index and its sample, and each decided by its own
    sample alone. A sample that is no object is reported as failed; so
    is an object whose volume fraction [float()] cannot read, with that
    error, and an object one of whose four categorical values is a list
    or an object; every other sample is reported as predicted, with the
    record [predict_properties] returns on the same arguments. *)
Theorem batch_isolates_failures
    (kv : list (string * pyval)) (samples : list pyval) :
  dict_find "samples" kv = Some (PList samples) ->
  samples <> [] ->
  exists results calls,
    predict_batch str_to_float (PDict kv)
    = ({| status := 200; payload := Batch (List.length samples) results |},
       calls)
    /\ List.length results = List.length samples
    /\ forall i sample, nth_error samples i = Some sample ->
        match sample with
        | PDict skv =>
            match read_vf str_to_float skv with
            | inl e =>
                nth_error results i = Some (ItemFailed i sample (StrOf e))
            | inr v =>
                if hashable_call (call_of skv v)
                then exists p,
                       predict_properties
                         (get_or skv "fiber_type" (PStr "Carbon"))
                         (get_or skv "matrix_type" (PStr "Epoxy")) v
                         (get_or skv "layup" (PStr "UD 0°"))
                         (get_or skv "manufacturing" (PStr "Autoclave"))
                       = ok p
                       /\ nth_error results i
                          = Some (ItemPredicted i sample p)
                else nth_error results i
                     = Some (ItemFailed i sample (StrOf TypeError))
            end
        | _ =>
            nth_error results i
            = Some (ItemFailed i sample (StrOf AttributeError))
        end.
Proof.
  intros Hs Hne.
  exists (reports str_to_float 0 samples),
         (flat_map (item_calls str_to_float) samples).
  split; [now apply predict_batch_list|].
  split; [apply reports_length|].
  intros i sample Hi.
  rewrite (reports_nth str_to_float samples 0 i _ Hi). cbn [Nat.add].
  destruct sample as [| | | | | |skv];
    try (now rewrite item_report_no_object by discriminate).
  destruct (read_vf str_to_float skv) as [e|v] eqn:Hv.
  - now rewrite (item_report_unreadable str_to_float i skv e Hv).
  - destruct (hashable_call (call_of skv v)) eqn:Hh.
    + destruct (run_call_hashable _ Hh) as [p Hp].
      exists p. split; [exact Hp|].
      now rewrite (item_report_readable str_to_float i skv v p Hv Hp).
    + now rewrite (item_report_raises i skv v TypeError Hv
                     (run_call_unhashable _ Hh)).
Qed.

(** C10, amended: a batch sample whose volume fraction [float()] reads
    as a value that is not within [0.3, 0.7] (below, above or no
    number) is not rejected, whatever the other samples are: the
    predictor is called on that value, and the sample is reported as
    predicted with the record the predictor returns, unless one of its
    four categorical values is a list or an object, which makes the
    call fail; [predict] answers the same object with 400 and the range
    message. *)
Theorem batch_has_no_range_check
    (kv : list (string * pyval)) (samples : list pyval)
    (i : nat) (skv : list (string * pyval)) (v : float) :
  dict_find "samples" kv = Some (PList samples) ->
  nth_error samples i = Some (PDict skv) ->
  read_vf str_to_float skv = ok v ->
  between 0.3 0.7 v = false ->
  exists results calls,
    predict_batch str_to_float (PDict kv)
    = ({| status := 200; payload := Batch (List.length samples) results |},
       calls)
    /\ In (call_of skv v) calls
    /\ (if hashable_call (call_of skv v)
        then exists p,
               predict_properties
                 (get_or skv "fiber_type" (PStr "Carbon"))
                 (get_or skv "matrix_type" (PStr "Epoxy")) v
                 (get_or skv "layup" (PStr "UD 0°"))
                 (get_or skv "manufacturing" (PStr "Autoclave")) = ok p
               /\ nth_error results i = Some (ItemPredicted i (PDict skv) p)
        else nth_error results i
             = Some (ItemFailed i (PDict skv) (StrOf TypeError)))
    /\ predict str_to_float (PDict skv)
       = ({| status := 400; payload := Failure (Text VF_MESSAGE) |}, []).
Proof.
  intros Hs Hi Hv Hr.
  exists (reports str_to_float 0 samples),
         (flat_map (item_calls str_to_float) samples).
  assert (Hne : samples <> []) by (intros ->; now destruct i).
  split; [now apply predict_batch_list|].
  split.
  { apply in_flat_map. exists (PDict skv).
    split; [now apply nth_error_In in Hi|].
    rewrite (item_calls_readable str_to_float skv v Hv). now left. }
  split; [|exact (predict_out_of_range str_to_float skv v Hv Hr)].
  rewrite (reports_nth str_to_float samples 0 i _ Hi). cbn [Nat.add].
  destruct (hashable_call (call_of skv v)) eqn:Hh.
  - destruct (run_call_hashable _ Hh) as [p Hp].
    exists p. split; [exact Hp|].
    now rewrite (item_report_readable str_to_float i skv v p Hv Hp).
  - now rewrite (item_report_raises i skv v TypeError Hv
                   (run_call_unhashable _ Hh)).
Qed.

End SampleFacts.

Lemma batch_isolates_failures_example :
  exists results calls,
    predict_batch no_numeric_strings (PDict [("samples", PList four_samples)])
    = ({| status := 200; payload := Batch 4 results |}, calls)
    /\ List.length results = 4%nat
    /\ forall i sample, nth_error four_samples i = Some sample ->
        match sample with
        | PDict skv =>
            match read_vf no_numeric_strings skv with
            | inl e =>
                nth_error results i = Some (ItemFailed i sample (StrOf e))
            | inr v =>
                if hashable_call (call_of skv v)
                then exists p,
                       predict_properties
                         (get_or skv "fiber_type" (PStr "Carbon"))
                         (get_or skv "matrix_type" (PStr "Epoxy")) v
                         (get_or skv "layup" (PStr "UD 0°"))
                         (get_or skv "manufacturing" (PStr "Autoclave"))
                       = ok p
                       /\ nth_error results i
                          = Some (ItemPredicted i sample p)
                else nth_error results i
                     = Some (ItemFailed i sample (StrOf TypeError))
            end
        | _ =>
            nth_error results i
            = Some (ItemFailed i sample (StrOf AttributeError))
        end.
Proof.
  apply (batch_isolates_failures no_numeric_strings
           [("samples", PList four_samples)] four_samples).
  - reflexivity.
  - discriminate.
Defined.

(** An empty list of samples is answered with 400 and no result list.
    In a batch of two, a number as sample and an object whose layup is
    a list are both reported as failed, though no volume fraction fails
    its conversion: the first has none, the second takes the default
    0.6, which [float()] reads. *)
Lemma failures_beyond_conversion :
  predict_batch no_numeric_strings (PDict [("samples", PList [])])
  = ({| status := 400; payload := Failure (Text "No samples provided") |}, [])
  /\ read_vf no_numeric_strings [("layup", PList [])] = ok 0.6
  /\ predict_batch no_numeric_strings
       (PDict [("samples", PList [PInt 3; PDict [("layup", PList [])]])])
     = ({| status := 200;
           payload := Batch 2
             [ItemFailed 0 (PInt 3) (StrOf AttributeError);
              ItemFailed 1 (PDict [("layup", PList [])]) (StrOf TypeError)] |},
        [call_of [("layup", PList [])] 0.6]).
Proof.
  split; [reflexivity|]. split; [reflexivity|]. vm_compute. reflexivity.
Qed.

Lemma batch_has_no_range_check_example :
  (exists results calls,
     predict_batch no_numeric_strings
       (PDict [("samples",
                PList [PDict [("fiber_volume_fraction", PFloat 0.85)]])])
     = ({| status := 200; payload := Batch 1 results |}, calls)
     /\ In (call_of [("fiber_volume_fraction", PFloat 0.85)] 0.85) calls
     /\ (exists p,
           predict_properties (PStr "Carbon") (PStr "Epoxy") 0.85
             (PStr "UD 0°") (PStr "Autoclave") = ok p
           /\ nth_error results 0
              = Some (ItemPredicted 0
                        (PDict [("fiber_volume_fraction", PFloat 0.85)]) p))
     /\ predict no_numeric_strings
          (PDict [("fiber_volume_fraction", PFloat 0.85)])
        = ({| status := 400; payload := Failure (Text VF_MESSAGE) |}, []))
  /\ (exists results calls,
        predict_batch no_numeric_strings
          (PDict [("samples",
                   PList [PDict [];
                          PDict [("fiber_volume_fraction", PFloat nan);
                                 ("layup", PList [])]])])
        = ({| status := 200; payload := Batch 2 results |}, calls)
        /\ In (call_of [("fiber_volume_fraction", PFloat nan);
                        ("layup", PList [])] nan) calls
        /\ nth_error results 1
           = Some (ItemFailed 1
                     (PDict [("fiber_volume_fraction", PFloat nan);
                             ("layup", PList [])]) (StrOf TypeError))
        /\ predict no_numeric_strings
             (PDict [("fiber_volume_fraction", PFloat nan);
                     ("layup", PList [])])
           = ({| status := 400; payload := Failure (Text VF_MESSAGE) |}, [])).
Proof.
  split.
  - exact (batch_has_no_range_check no_numeric_strings
             [("samples",
               PList [PDict [("fiber_volume_fraction", PFloat 0.85)]])]
             [PDict [("fiber_volume_fraction", PFloat 0.85)]] 0
             [("fiber_volume_fraction", PFloat 0.85)] 0.85
             eq_refl eq_refl eq_refl eq_refl).
  - exact (batch_has_no_range_check no_numeric_strings
             [("samples",
               PList [PDict [];
                      PDict [("fiber_volume_fraction", PFloat nan);
                             ("layup", PList [])]])]
             [PDict [];
              PDict [("fiber_volume_fraction", PFloat nan);
                     ("layup", PList [])]] 1
             [("fiber_volume_fraction", PFloat nan); ("layup", PList [])] nan
             eq_refl eq_refl eq_refl eq_refl).
Defined.

(** Two batch samples with a number outside the range as volume
    fraction that are reported as failed: an integer beyond the float
    range, on which [float()] raises and the predictor is not called,
    and 0.85 next to a layup that is a list, on which the predictor is
    called and raises. *)
Lemma numbers_out_of_range_can_fail_in_batch :
  (1 < 10 ^ 400)%Z
  /\ predict_batch no_numeric_strings
       (PDict [("samples",
                PList [PDict [("fiber_volume_fraction", PInt (10 ^ 400))]])])
     = ({| status := 200;
           payload := Batch 1
             [ItemFailed 0 (PDict [("fiber_volume_fraction", PInt (10 ^ 400))])
                (StrOf OverflowError)] |},
        [])
  /\ (0.7 <? 0.85) = true
  /\ predict_batch no_numeric_strings
       (PDict [("samples",
                PList [PDict [("fiber_volume_fraction", PFloat 0.85);
                              ("layup", PList [])]])])
     = ({| status := 200;
           payload := Batch 1
             [ItemFailed 0 (PDict [("fiber_volume_fraction", PFloat 0.85);
                                   ("layup", PList [])])
                (StrOf TypeError)] |},
        [call_of [("fiber_volume_fraction", PFloat 0.85);
                  ("layup", PList [])] 0.85]).
Proof.
  split; [reflexivity|]. split; [vm_compute; reflexivity|].
  split; [reflexivity|]. vm_compute. reflexivity.
Qed.
